(** * Student Expense Tracker: the aggregation and filtering code of
    [src/ExpenseScreen.js], embedded in Rocq.

    The screen component keeps React state (form fields, the loaded rows, the
    active filter, the row being edited), talks to one SQLite table and
    derives four values from [expenses] and [filter] with [useMemo]:
    [filteredExpenses], [totalSpending], [totalsByCategory] and
    [pieChartData].  Each of them, and the handlers [addExpense], [saveEdit]
    and [deleteExpense], is transcribed below as a function, with the
    JavaScript semantics the code relies on written out:

    - numbers are IEEE-754 doubles ([Float64], on the kernel's primitive
      floats); the code is generic in the number system ([JSNumber]) so that
      the same functions can also be run over exact arithmetic ([Exact]);
    - strings are sequences of code units below 256;
    - a plain object is the list of its own properties in creation order,
      with the property lookup through [Object.prototype], and the key order
      of [Object.entries];
    - a [Date] is its time value in milliseconds since the epoch, in a time
      zone at a fixed offset from UTC;
    - the store is the table's rows and its AUTOINCREMENT counter; an
      [alert] and a statement sent to the store are recorded as effects. *)

From Stdlib Require Import ZArith NArith List Bool String Ascii Floats Lia.
From Stdlib Require Uint63.
From Stdlib Require Import Permutation Sorted.
Import ListNotations.

Local Open Scope string_scope.
Local Open Scope Z_scope.

(* ================================================================== *)
(** * Strings *)

Module JSString.

(** WhiteSpace and LineTerminator code units below 256: TAB, LF, VT, FF, CR,
    SP and NBSP.  These are what [String.prototype.trim] strips. *)
Definition is_ws (c : ascii) : bool :=
  match N_of_ascii c with
  | 9%N | 10%N | 11%N | 12%N | 13%N | 32%N | 160%N => true
  | _ => false
  end.

(** ToBoolean of a string: only the empty string is falsy. *)
Definition is_empty (s : string) : bool :=
  match s with
  | EmptyString => true
  | String _ _ => false
  end.

Fixpoint trimStart (s : string) : string :=
  match s with
  | EmptyString => EmptyString
  | String c r => if is_ws c then trimStart r else s
  end.

Fixpoint trimEnd (s : string) : string :=
  match s with
  | EmptyString => EmptyString
  | String c r =>
      let r' := trimEnd r in
      if is_ws c && is_empty r' then EmptyString else String c r'
  end.

(** [s.trim()] *)
Definition trim (s : string) : string := trimEnd (trimStart s).

(** [s.slice(0, n)] *)
Definition slice0 (n : nat) (s : string) : string := substring 0 n s.

Definition is_digit (c : ascii) : bool :=
  let n := N_of_ascii c in (48 <=? n)%N && (n <=? 57)%N.

Definition digit_val (c : ascii) : Z := Z.of_N (N_of_ascii c) - 48.

(** The value of a string of decimal digits, most significant first. *)
Fixpoint digits_val (acc : Z) (s : string) : Z :=
  match s with
  | EmptyString => acc
  | String c r => digits_val (10 * acc + digit_val c) r
  end.

Fixpoint all_digits (s : string) : bool :=
  match s with
  | EmptyString => true
  | String c r => is_digit c && all_digits r
  end.

Definition digit_char (d : Z) : ascii := ascii_of_N (Z.to_N (48 + d mod 10)).

(** [n] written with exactly [w] decimal digits (the low-order [w] digits,
    zero-padded), as [padStart(w, '0')] of a number below [10^w]. *)
Fixpoint pad (w : nat) (n : Z) : string :=
  match w with
  | O => EmptyString
  | S w' => pad w' (n / 10) ++ String (digit_char n) EmptyString
  end.

End JSString.

(* ================================================================== *)
(** * Numbers *)

(** The operations on numbers that the screen uses: the literal [0], [NaN],
    [+], ToBoolean, [isNaN], [<=] and [<]. *)
Class JSNumber : Type := {
  num : Type;
  zero : num;
  nan : num;
  add : num -> num -> num;
  truthy : num -> bool;
  isNaN : num -> bool;
  leb : num -> num -> bool;
  ltb : num -> num -> bool
}.

(** JavaScript's Number type: binary64.  ToBoolean is false on [+0], [-0]
    and [NaN]; comparisons with [NaN] are false. *)
#[export] Instance Float64 : JSNumber := {|
  num := float;
  zero := 0%float;
  nan := PrimFloat.nan;
  add := PrimFloat.add;
  truthy := fun x => negb (PrimFloat.eqb x 0%float) && negb (PrimFloat.is_nan x);
  isNaN := PrimFloat.is_nan;
  leb := PrimFloat.leb;
  ltb := PrimFloat.ltb
|}.

(** Exact arithmetic: integers (amounts counted in indivisible units, no
    rounding) together with [NaN], which absorbs under [+] and compares
    false with everything. *)
Inductive xnum : Type :=
| Fin (z : Z)
| XNaN.

Definition xadd (a b : xnum) : xnum :=
  match a, b with
  | Fin x, Fin y => Fin (x + y)
  | _, _ => XNaN
  end.

Definition xtruthy (a : xnum) : bool :=
  match a with
  | Fin x => negb (x =? 0)
  | XNaN => false
  end.

Definition xisNaN (a : xnum) : bool :=
  match a with
  | Fin _ => false
  | XNaN => true
  end.

Definition xleb (a b : xnum) : bool :=
  match a, b with
  | Fin x, Fin y => x <=? y
  | _, _ => false
  end.

Definition xltb (a b : xnum) : bool :=
  match a, b with
  | Fin x, Fin y => x <? y
  | _, _ => false
  end.

Definition Exact : JSNumber := {|
  num := xnum;
  zero := Fin 0;
  nan := XNaN;
  add := xadd;
  truthy := xtruthy;
  isNaN := xisNaN;
  leb := xleb;
  ltb := xltb
|}.

(** What sets exact arithmetic apart from doubles: [+] is associative and
    commutative with [0] neutral, the only falsy number apart from [NaN] is
    [0] itself (no [-0]), and [NaN] does not arise from adding numbers. *)
Record ExactArith (N : JSNumber) : Prop := {
  add_assoc : forall x y z : num, add x (add y z) = add (add x y) z;
  add_comm : forall x y : num, add x y = add y x;
  add_zero_l : forall x : num, add zero x = x;
  falsy_zero : forall x : num, truthy x = false -> isNaN x = false -> x = zero;
  zero_not_nan : isNaN zero = false;
  add_not_nan : forall x y : num,
    isNaN x = false -> isNaN y = false -> isNaN (add x y) = false
}.

(** [Number(x)] on a value that is already a number. *)
Definition Number {N : JSNumber} (x : num) : num := x.

(** Left-to-right summation from [0]: the value of
    [xs.reduce((s, x) => s + x, 0)], defined by recursion on the list. *)
Fixpoint sum_from {N : JSNumber} (acc : num) (xs : list num) : num :=
  match xs with
  | [] => acc
  | x :: r => sum_from (add acc x) r
  end.

Definition sum_num {N : JSNumber} (xs : list num) : num := sum_from zero xs.

(* ================================================================== *)
(** * Dates *)

(** A [Date] object is its time value: milliseconds since
    1970-01-01T00:00:00Z.  Names follow the language specification's
    abstract operations.  Time values stay far inside the range of valid
    dates (8.64e15 ms either side of the epoch), so TimeClip is omitted. *)
Module JSDate.

Definition msPerDay : Z := 86400000.

Definition Day (t : Z) : Z := t / msPerDay.

Definition TimeWithinDay (t : Z) : Z := t mod msPerDay.

(** 0 = Sunday ... 6 = Saturday; the epoch was a Thursday. *)
Definition WeekDay (t : Z) : Z := (Day t + 4) mod 7.

(** Day number (days since the epoch) to proleptic Gregorian
    (year, month 1..12, day 1..31). *)
Definition civil_from_days (z0 : Z) : Z * Z * Z :=
  let z := z0 + 719468 in
  let era := z / 146097 in
  let doe := z - era * 146097 in
  let yoe := (doe - doe / 1460 + doe / 36524 - doe / 146096) / 365 in
  let y := yoe + era * 400 in
  let doy := doe - (365 * yoe + yoe / 4 - yoe / 100) in
  let mp := (5 * doy + 2) / 153 in
  let d := doy - (153 * mp + 2) / 5 + 1 in
  let m := if mp <? 10 then mp + 3 else mp - 9 in
  (if m <=? 2 then y + 1 else y, m, d).

(** The inverse: (year, month 1..12, day) to the day number. *)
Definition days_from_civil (y m d : Z) : Z :=
  let y' := if m <=? 2 then y - 1 else y in
  let era := y' / 400 in
  let yoe := y' - era * 400 in
  let mp := if 2 <? m then m - 3 else m + 9 in
  let doy := (153 * mp + 2) / 5 + d - 1 in
  let doe := yoe * 365 + yoe / 4 - yoe / 100 + doy in
  era * 146097 + doe - 719468.

Definition YearFromTime (t : Z) : Z :=
  let '(y, _, _) := civil_from_days (Day t) in y.

(** 0 = January ... 11 = December *)
Definition MonthFromTime (t : Z) : Z :=
  let '(_, m, _) := civil_from_days (Day t) in m - 1.

Definition DateFromTime (t : Z) : Z :=
  let '(_, _, d) := civil_from_days (Day t) in d.

(** [month] is 0-based and may lie outside 0..11; [date] may lie outside the
    month: both carry over. *)
Definition MakeDay (year month date : Z) : Z :=
  let ym := year + month / 12 in
  let mn := month mod 12 in
  days_from_civil ym (mn + 1) 1 + date - 1.

Definition MakeDate (day time : Z) : Z := day * msPerDay + time.

Definition is_leap (y : Z) : bool :=
  ((y mod 4 =? 0) && negb (y mod 100 =? 0)) || (y mod 400 =? 0).

Definition days_in_month (y m : Z) : Z :=
  if m =? 2 then (if is_leap y then 29 else 28)
  else if (m =? 4) || (m =? 6) || (m =? 9) || (m =? 11) then 30
  else 31.

(** [t.toISOString()]: YYYY-MM-DDTHH:mm:ss.sssZ in UTC, the year with a sign
    and six digits outside 0..9999. *)
Definition toISOString (t : Z) : string :=
  let '(y, m, d) := civil_from_days (Day t) in
  let ms := TimeWithinDay t in
  let year :=
    if (0 <=? y) && (y <=? 9999) then JSString.pad 4 y
    else (if y <? 0 then "-" else "+") ++ JSString.pad 6 (Z.abs y) in
  year ++ "-" ++ JSString.pad 2 m ++ "-" ++ JSString.pad 2 d
    ++ "T" ++ JSString.pad 2 (ms / 3600000)
    ++ ":" ++ JSString.pad 2 (ms / 60000 mod 60)
    ++ ":" ++ JSString.pad 2 (ms / 1000 mod 60)
    ++ "." ++ JSString.pad 3 (ms mod 1000) ++ "Z".

(** The date-only form YYYY-MM-DD of the standard date-time string format,
    for a day that exists in the calendar: read as midnight UTC. *)
Definition parse_date_only (s : string) : option Z :=
  match s with
  | String y1 (String y2 (String y3 (String y4 (String sep1
      (String m1 (String m2 (String sep2
      (String d1 (String d2 EmptyString))))))))) =>
      let ys := String y1 (String y2 (String y3 (String y4 EmptyString))) in
      let ms := String m1 (String m2 EmptyString) in
      let ds := String d1 (String d2 EmptyString) in
      if (Ascii.eqb sep1 "-" && Ascii.eqb sep2 "-"
          && JSString.all_digits ys && JSString.all_digits ms
          && JSString.all_digits ds)%bool
      then
        let y := JSString.digits_val 0 ys in
        let m := JSString.digits_val 0 ms in
        let d := JSString.digits_val 0 ds in
        if ((1 <=? m) && (m <=? 12) && (1 <=? d) && (d <=? days_in_month y m))%bool
        then Some (MakeDate (MakeDay y (m - 1) d) 0)
        else None
      else None
  | _ => None
  end.

Section Zone.

(** The local time zone adjustment in milliseconds: local time is UTC plus
    [LocalTZA].  A fixed offset (no daylight-saving change). *)
Variable LocalTZA : Z.

(** What the engine makes of a date string that is not a date-only
    YYYY-MM-DD of an existing day: the date-time forms of the standard format
    and the engine's own fallback formats.  [None] is an Invalid Date. *)
Variable parse_other : string -> option Z.

Definition LocalTime (t : Z) : Z := t + LocalTZA.

Definition UTC (t : Z) : Z := t - LocalTZA.

(** [new Date(s)] *)
Definition Date_of_string (s : string) : option Z :=
  match parse_date_only s with
  | Some t => Some t
  | None => parse_other s
  end.

(** [new Date(year, month, date)]: local midnight of that day. *)
Definition Date_of_fields (year month date : Z) : Z :=
  let yr := if (0 <=? year) && (year <=? 99) then 1900 + year else year in
  UTC (MakeDate (MakeDay yr month date) 0).

Definition getFullYear (t : Z) : Z := YearFromTime (LocalTime t).
Definition getMonth (t : Z) : Z := MonthFromTime (LocalTime t).
Definition getDate (t : Z) : Z := DateFromTime (LocalTime t).
Definition getDay (t : Z) : Z := WeekDay (LocalTime t).

(** [t.setDate(dt)]: the same local month and time of day, day [dt]. *)
Definition setDate (t dt : Z) : Z :=
  let lt := LocalTime t in
  UTC (MakeDate (MakeDay (YearFromTime lt) (MonthFromTime lt) dt)
                (TimeWithinDay lt)).

End Zone.

End JSDate.

(* ================================================================== *)
(** * Values and plain objects *)

Section Values.

Context {N : JSNumber}.

(** A string built by [+] is kept as the sequence of the pieces that were
    concatenated: the text of a number, the source text of the built-in
    function [Object.prototype[name]] (its exact wording is the engine's),
    the text of a plain object ([object Object]) and the word [undefined].
    Every piece is a non-empty text. *)
Inductive piece : Type :=
| PNum (x : num)
| PFun (name : string)
| PObj
| PUndefined.

(** The values that reach the totals object or are read from it. *)
Inductive jsval : Type :=
| JUndefined
| JNum (x : num)
| JStr (ps : list piece)
| JFun (name : string)
| JProtoObj.

Definition ToBoolean (v : jsval) : bool :=
  match v with
  | JUndefined => false
  | JNum x => truthy x
  | JStr ps => match ps with [] => false | _ :: _ => true end
  | JFun _ => true
  | JProtoObj => true
  end.

(** ToPrimitive gives a string for strings, functions and objects. *)
Definition stringy (v : jsval) : bool :=
  match v with
  | JStr _ | JFun _ | JProtoObj => true
  | JUndefined | JNum _ => false
  end.

Definition pieces_of (v : jsval) : list piece :=
  match v with
  | JUndefined => [PUndefined]
  | JNum x => [PNum x]
  | JStr ps => ps
  | JFun f => [PFun f]
  | JProtoObj => [PObj]
  end.

(** ToNumber of [undefined] and of a number; the others are never converted
    to a number by [+] (they concatenate). *)
Definition ToNumber (v : jsval) : num :=
  match v with
  | JNum x => x
  | _ => nan
  end.

(** The binary [+]: string concatenation as soon as one operand is a string,
    a function or an object, numeric addition otherwise. *)
Definition js_plus (a b : jsval) : jsval :=
  if stringy a || stringy b then JStr (pieces_of a ++ pieces_of b)
  else JNum (add (ToNumber a) (ToNumber b)).

(** A plain object ([{}] and what assignments add to it): its own
    properties, in the order in which they were created. *)
Definition jsobj : Type := list (string * jsval).

Fixpoint get_own (o : jsobj) (k : string) : option jsval :=
  match o with
  | [] => None
  | (k', v) :: r => if String.eqb k' k then Some v else get_own r k
  end.

(** The function-valued properties of [Object.prototype]. *)
Definition proto_functions : list string :=
  [ "constructor"; "hasOwnProperty"; "isPrototypeOf"; "propertyIsEnumerable";
    "toLocaleString"; "toString"; "valueOf";
    "__defineGetter__"; "__defineSetter__"; "__lookupGetter__";
    "__lookupSetter__" ].

Definition str_in (k : string) (ks : list string) : bool :=
  existsb (String.eqb k) ks.

(** Every property name that a fresh [{}] inherits. *)
Definition inherited (k : string) : bool :=
  String.eqb k "__proto__" || str_in k proto_functions.

(** [o[k]]: the own property, else the one inherited from
    [Object.prototype] (a built-in function, or the prototype itself for the
    accessor [__proto__]), else [undefined]. *)
Definition Get (o : jsobj) (k : string) : jsval :=
  match get_own o k with
  | Some v => v
  | None =>
      if String.eqb k "__proto__" then JProtoObj
      else if str_in k proto_functions then JFun k
      else JUndefined
  end.

Fixpoint set_own (o : jsobj) (k : string) (v : jsval) : jsobj :=
  match o with
  | [] => [(k, v)]
  | (k', v') :: r =>
      if String.eqb k' k then (k', v) :: r else (k', v') :: set_own r k v
  end.

(** [o[k] = v] for a primitive [v]: the [__proto__] setter ignores values
    that are neither an object nor [null]; any other key gets its own
    property overwritten in place, or created last. *)
Definition Set_ (o : jsobj) (k : string) (v : jsval) : jsobj :=
  if String.eqb k "__proto__" then o else set_own o k v.

(** A canonical array index: the decimal text, without leading zeros, of an
    integer from 0 to 2^32 - 2. *)
Definition array_index (k : string) : option Z :=
  match k with
  | EmptyString => None
  | String c r =>
      if JSString.all_digits k
         && (negb (Ascii.eqb c "0") || JSString.is_empty r)
      then
        let n := JSString.digits_val 0 k in
        if n <=? 4294967294 then Some n else None
      else None
  end.

Definition is_index_key (k : string) : bool :=
  match array_index k with
  | Some _ => true
  | None => false
  end.

Definition key_index (k : string) : Z :=
  match array_index k with
  | Some n => n
  | None => 0
  end.

Definition is_index (p : string * jsval) : bool := is_index_key (fst p).

Definition index_of (p : string * jsval) : Z := key_index (fst p).

Fixpoint insert_by_index (p : string * jsval) (ps : list (string * jsval))
  : list (string * jsval) :=
  match ps with
  | [] => [p]
  | q :: r =>
      if index_of p <=? index_of q then p :: q :: r
      else q :: insert_by_index p r
  end.

Definition sort_by_index (ps : list (string * jsval)) : list (string * jsval) :=
  fold_right insert_by_index [] ps.

(** [Object.entries(o)]: the array-index keys in ascending numeric order,
    then the other keys in creation order. *)
Definition Object_entries (o : jsobj) : list (string * jsval) :=
  sort_by_index (List.filter is_index o)
    ++ List.filter (fun p => negb (is_index p)) o.

Definition Object_keys (o : jsobj) : list string := map fst (Object_entries o).

Definition Object_values (o : jsobj) : list jsval := map snd (Object_entries o).

(** [vs.reduce((s, v) => s + v, 0)] *)
Definition sum_values (vs : list jsval) : jsval :=
  fold_left js_plus vs (JNum zero).

(** Ascending numeric order of keys. *)
Definition index_le (p q : string * jsval) : Prop := index_of p <= index_of q.

(** Own keys are pairwise distinct in every object. *)
Definition wf_obj (o : jsobj) : Prop := NoDup (map fst o).

End Values.

(* ================================================================== *)
(** * Expense rows, the store and the screen state *)

Module Expense.

(** A row of the table [expenses]:
    [id INTEGER PRIMARY KEY AUTOINCREMENT, amount REAL NOT NULL,
     category TEXT NOT NULL, note TEXT, date TEXT NOT NULL]. *)
Record t {N : JSNumber} : Type := mk {
  id : Z;
  amount : num;
  category : string;
  note : option string;
  date : string
}.

Arguments mk {N} id amount category note date.

End Expense.

Section Store.

Context {N : JSNumber}.

(** The table and the largest id handed out so far. *)
Record store : Type := mkStore {
  rows : list Expense.t;
  seq : Z
}.

(** The three statements the screen sends with [db.runAsync], with their
    bound parameters. *)
Inductive statement : Type :=
| INSERT (amount : num) (category : string) (note : option string) (date : string)
| UPDATE (amount : num) (category : string) (note : option string) (date : string) (id : Z)
| DELETE (id : Z).

Definition runAsync (q : statement) (db : store) : store :=
  match q with
  | INSERT a c n d =>
      mkStore (rows db ++ [Expense.mk (seq db + 1) a c n d]) (seq db + 1)
  | UPDATE a c n d i =>
      mkStore
        (map (fun r => if Expense.id r =? i then Expense.mk i a c n d else r)
             (rows db))
        (seq db)
  | DELETE i =>
      mkStore (List.filter (fun r => negb (Expense.id r =? i)) (rows db)) (seq db)
  end.

(** [ORDER BY date DESC, id DESC]: [a] comes before [b]. *)
Definition row_before (a b : Expense.t) : bool :=
  String.ltb (Expense.date b) (Expense.date a)
  || (String.eqb (Expense.date a) (Expense.date b)
      && (Expense.id b <=? Expense.id a)).

Fixpoint insert_row (a : Expense.t) (l : list Expense.t) : list Expense.t :=
  match l with
  | [] => [a]
  | b :: r => if row_before a b then a :: b :: r else b :: insert_row a r
  end.

(** [db.getAllAsync('SELECT * FROM expenses ORDER BY date DESC, id DESC;')] *)
Definition getAllAsync (db : store) : list Expense.t :=
  fold_right insert_row [] (rows db).

Inductive effect : Type :=
| Alert (msg : string)
| Run (q : statement).

End Store.

Module State.

(** The component's state: the database handle's contents and the
    [useState] cells. *)
Record t {N : JSNumber} : Type := mk {
  db : store;
  expenses : list Expense.t;
  amount : string;
  category : string;
  note : string;
  filter : string;
  editingExpense : option Expense.t;
  editAmount : string;
  editCategory : string;
  editNote : string;
  editDate : string
}.

Arguments mk {N} db expenses amount category note filter editingExpense
  editAmount editCategory editNote editDate.

End State.

(* ================================================================== *)
(** * The screen *)

Section Screen.

Context {N : JSNumber}.

(** The global [parseFloat]. *)
Variable parseFloat : string -> num.

Variable LocalTZA : Z.
Variable parse_other : string -> option Z.

Local Abbreviation Date_of_string := (JSDate.Date_of_string parse_other).
Local Abbreviation Date_of_fields := (JSDate.Date_of_fields LocalTZA).
Local Abbreviation getFullYear := (JSDate.getFullYear LocalTZA).
Local Abbreviation getMonth := (JSDate.getMonth LocalTZA).
Local Abbreviation getDate := (JSDate.getDate LocalTZA).
Local Abbreviation getDay := (JSDate.getDay LocalTZA).
Local Abbreviation setDate := (JSDate.setDate LocalTZA).

(** ** State setters *)

Definition with_db (v : store) (s : State.t) : State.t :=
  State.mk v (State.expenses s) (State.amount s) (State.category s)
    (State.note s) (State.filter s) (State.editingExpense s)
    (State.editAmount s) (State.editCategory s) (State.editNote s)
    (State.editDate s).

Definition setExpenses (v : list Expense.t) (s : State.t) : State.t :=
  State.mk (State.db s) v (State.amount s) (State.category s)
    (State.note s) (State.filter s) (State.editingExpense s)
    (State.editAmount s) (State.editCategory s) (State.editNote s)
    (State.editDate s).

Definition setAmount (v : string) (s : State.t) : State.t :=
  State.mk (State.db s) (State.expenses s) v (State.category s)
    (State.note s) (State.filter s) (State.editingExpense s)
    (State.editAmount s) (State.editCategory s) (State.editNote s)
    (State.editDate s).

Definition setCategory (v : string) (s : State.t) : State.t :=
  State.mk (State.db s) (State.expenses s) (State.amount s) v
    (State.note s) (State.filter s) (State.editingExpense s)
    (State.editAmount s) (State.editCategory s) (State.editNote s)
    (State.editDate s).

Definition setNote (v : string) (s : State.t) : State.t :=
  State.mk (State.db s) (State.expenses s) (State.amount s) (State.category s)
    v (State.filter s) (State.editingExpense s)
    (State.editAmount s) (State.editCategory s) (State.editNote s)
    (State.editDate s).

Definition setEditingExpense (v : option Expense.t) (s : State.t) : State.t :=
  State.mk (State.db s) (State.expenses s) (State.amount s) (State.category s)
    (State.note s) (State.filter s) v
    (State.editAmount s) (State.editCategory s) (State.editNote s)
    (State.editDate s).

(** ** Loading and the three mutations *)

(** Lines 45-50. *)
Definition loadExpenses (s : State.t) : State.t :=
  setExpenses (getAllAsync (State.db s)) s.

(** [trimmedNote || null] *)
Definition or_null (s : string) : option string :=
  if JSString.is_empty s then None else Some s.

(** Lines 52-80.  [now] is the clock reading of [new Date()]. *)
Definition addExpense (now : Z) (s : State.t) : State.t * list effect :=
  let amountNumber := parseFloat (State.amount s) in
  if isNaN amountNumber || leb amountNumber zero then
    (s, [Alert "Amount must be a positive number."])
  else
    let trimmedCategory := JSString.trim (State.category s) in
    let trimmedNote := JSString.trim (State.note s) in
    if JSString.is_empty trimmedCategory then
      (s, [Alert "Category is required."])
    else
      let today := JSString.slice0 10 (JSDate.toISOString now) in
      let q := INSERT amountNumber trimmedCategory (or_null trimmedNote) today in
      let s := with_db (runAsync q (State.db s)) s in
      let s := setAmount EmptyString s in
      let s := setCategory EmptyString s in
      let s := setNote EmptyString s in
      (loadExpenses s, [Run q]).

(** Lines 82-85. *)
Definition deleteExpense (id : Z) (s : State.t) : State.t * list effect :=
  let q := DELETE id in
  (loadExpenses (with_db (runAsync q (State.db s)) s), [Run q]).

(** Lines 167-201. *)
Definition saveEdit (s : State.t) : State.t * list effect :=
  match State.editingExpense s with
  | None => (s, [])
  | Some editing =>
      let amountNumber := parseFloat (State.editAmount s) in
      if isNaN amountNumber || leb amountNumber zero then
        (s, [Alert "Amount must be a positive number."])
      else
        let trimmedCategory := JSString.trim (State.editCategory s) in
        let trimmedNote := JSString.trim (State.editNote s) in
        let trimmedDate := JSString.trim (State.editDate s) in
        if JSString.is_empty trimmedCategory then
          (s, [Alert "Category is required."])
        else if JSString.is_empty trimmedDate then
          (s, [Alert "Date is required (YYYY-MM-DD)."])
        else
          let q := UPDATE amountNumber trimmedCategory (or_null trimmedNote)
                     trimmedDate (Expense.id editing) in
          let s := with_db (runAsync q (State.db s)) s in
          let s := setEditingExpense None s in
          (loadExpenses s, [Run q])
  end.

(** ** Filters (lines 87-124) *)

Definition getStartOfWeek (now : Z) : Z :=
  let today := now in
  let d := Date_of_fields (getFullYear today) (getMonth today) (getDate today) in
  let dayOfWeek := getDay d in
  let diffToMonday := (dayOfWeek + 6) mod 7 in
  setDate d (getDate d - diffToMonday).

Definition getStartOfMonth (now : Z) : Z :=
  let today := now in
  Date_of_fields (getFullYear today) (getMonth today) 1.

(** [d >= start && d <= today] on Date objects; every comparison with an
    Invalid Date is false. *)
Definition in_range (start today : Z) (e : Expense.t) : bool :=
  match Date_of_string (Expense.date e) with
  | Some d => (start <=? d) && (d <=? today)
  | None => false
  end.

(** The three readings of the clock in one recomputation are taken to be the
    same instant [now]. *)
Definition filteredExpenses (filter : string) (now : Z)
    (expenses : list Expense.t) : list Expense.t :=
  if String.eqb filter "all" then expenses
  else
    let today := now in
    if String.eqb filter "week" then
      let startOfWeek := getStartOfWeek now in
      List.filter (in_range startOfWeek today) expenses
    else if String.eqb filter "month" then
      let startOfMonth := getStartOfMonth now in
      List.filter (in_range startOfMonth today) expenses
    else expenses.

(** ** Totals (lines 129-156) *)

Definition totalSpending (filteredExpenses : list Expense.t) : num :=
  fold_left (fun sum e => add sum (Number (Expense.amount e)))
    filteredExpenses zero.

(** [e.category || 'Other'] *)
Definition cat_of (e : Expense.t) : string :=
  if JSString.is_empty (Expense.category e) then "Other" else Expense.category e.

(** The body of the [for ... of] loop, lines 137-139. *)
Definition add_to_totals (totals : jsobj) (e : Expense.t) : jsobj :=
  let cat := cat_of e in
  let totals :=
    if negb (ToBoolean (Get totals cat)) then Set_ totals cat (JNum zero)
    else totals in
  Set_ totals cat (js_plus (Get totals cat) (JNum (Number (Expense.amount e)))).

Definition totalsByCategory (filteredExpenses : list Expense.t) : jsobj :=
  fold_left add_to_totals filteredExpenses [].

Record segment : Type := mkSegment {
  name : string;
  population : jsval;
  color : string;
  legendFontColor : string;
  legendFontSize : Z
}.

Definition colors : list string :=
  ["#fbbf24"; "#3b82f6"; "#10b981"; "#f97316"; "#a855f7"].

(** [entries.map(f)] with the index passed to [f], from index [i] on. *)
Fixpoint map_index {A B : Type} (f : A -> nat -> B) (i : nat) (l : list A)
  : list B :=
  match l with
  | [] => []
  | x :: r => f x i :: map_index f (S i) r
  end.

Definition pieChartData (totalsByCategory : jsobj) : list segment :=
  let entries := Object_entries totalsByCategory in
  if Nat.eqb (List.length entries) 0 then []
  else
    map_index
      (fun (entry : string * jsval) (index : nat) =>
         let '(category, total) := entry in
         mkSegment category total
           (nth (Nat.modulo index (List.length colors)) colors EmptyString)
           "#e5e7eb" 12)
      0%nat entries.

End Screen.

(* ================================================================== *)
(** * Vocabulary of the properties *)

Section Vocabulary.

Context {N : JSNumber}.

(** The amount check of [addExpense] and [saveEdit]:
    [isNaN(amountNumber) || amountNumber <= 0]. *)
Definition amount_rejected (parseFloat : string -> num) (s : string) : bool :=
  let amountNumber := parseFloat s in
  isNaN amountNumber || leb amountNumber zero.

(** A string made of white space only (the empty string included). *)
Fixpoint all_ws (s : string) : bool :=
  match s with
  | EmptyString => true
  | String c r => JSString.is_ws c && all_ws r
  end.

(** The distinct elements of a list, in the order of their first
    occurrence. *)
Definition see (acc : list string) (k : string) : list string :=
  if str_in k acc then acc else (acc ++ [k])%list.

Definition first_seen (ks : list string) : list string := fold_left see ks [].

(** The amounts of the records that fall under the key [k], in list
    order. *)
Definition amounts_of (k : string) (l : list Expense.t) : list num :=
  map Expense.amount (List.filter (fun e => String.eqb (cat_of e) k) l).

(** One round of lines 138-139 on a bucket that holds [t]. *)
Definition bucket_step (t x : num) : num :=
  add (if truthy t then t else zero) x.

(** What lines 138-139 accumulate for one key: a left-to-right sum that
    starts again from [0] whenever the running subtotal is falsy. *)
Definition bucket_sum (xs : list num) : num := fold_left bucket_step xs zero.

(** No running subtotal of [x :: xs], short of the last, is falsy. *)
Fixpoint subtotals_truthy_from (acc : num) (xs : list num) : bool :=
  match xs with
  | [] => true
  | x :: r => truthy acc && subtotals_truthy_from (add acc x) r
  end.

Definition subtotals_truthy (xs : list num) : bool :=
  match xs with
  | [] => true
  | x :: r => subtotals_truthy_from (add zero x) r
  end.

(** The record invariants of the data model on the fields of a row:
    a positive amount, a category that is not blank, a date that is
    present. *)
Definition fields_ok (amount : num) (category date : string) : Prop :=
  ltb zero amount = true
  /\ JSString.is_empty (JSString.trim category) = false
  /\ JSString.is_empty date = false.

Definition row_ok (r : Expense.t) : Prop :=
  fields_ok (Expense.amount r) (Expense.category r) (Expense.date r).

(** The rows a statement writes satisfy the invariants. *)
Definition statement_ok (q : statement) : Prop :=
  match q with
  | INSERT a c _ d => fields_ok a c d
  | UPDATE a c _ d _ => fields_ok a c d
  | DELETE _ => True
  end.

(** The note a statement writes. *)
Definition note_written (q : statement) : option (option string) :=
  match q with
  | INSERT _ _ n _ => Some n
  | UPDATE _ _ n _ _ => Some n
  | DELETE _ => None
  end.

Definition statements (effs : list effect) : list statement :=
  flat_map (fun e => match e with Run q => [q] | Alert _ => [] end) effs.

End Vocabulary.

(* ================================================================== *)
(** * Sample data *)

Module Sample.

(** A stand-in for [parseFloat] that agrees with it on the four strings the
    samples use. *)
Definition parseFloat64 (s : string) : float :=
  if String.eqb s "12.5" then 12.5%float
  else if String.eqb s "40" then 40%float
  else if String.eqb s "0" then 0%float
  else PrimFloat.nan.

Definition lunch : Expense.t (N := Float64) :=
  Expense.mk 1 12.5%float "Food" (Some "lunch") "2024-01-01".

Definition db1 : store := mkStore [lunch] 1.

(** The add form as typed in, nothing being edited. *)
Definition adding (amount category note : string) : State.t :=
  State.mk db1 [lunch] amount category note "all" None
    EmptyString EmptyString EmptyString EmptyString.

(** The edit modal open on [lunch], with its four fields as typed in. *)
Definition editing (amount category note date : string) : State.t :=
  State.mk db1 [lunch] EmptyString EmptyString EmptyString "all" (Some lunch)
    amount category note date.

(** A category named by a course number, after a category named by a
    word. *)
Definition books_then_101 : list (Expense.t (N := Float64)) :=
  [ Expense.mk 1 30%float "Books" None "2024-01-01";
    Expense.mk 2 12.5%float "101" None "2024-01-02" ].

#[local] Set Warnings "-inexact-float".

(** Amounts 0.10, 0.20 and 2.20, the first and the last in one category. *)
Definition food_books_food : list (Expense.t (N := Float64)) :=
  [ Expense.mk 1 0.1%float "Food" None "2024-01-01";
    Expense.mk 2 0.2%float "Books" None "2024-01-02";
    Expense.mk 3 2.2%float "Food" None "2024-01-03" ].

#[local] Set Warnings "+inexact-float".

(** The same purchases in cents, in exact arithmetic. *)
Definition food_books_food_cents : list (Expense.t (N := Exact)) :=
  [ Expense.mk (N := Exact) 1 (Fin 10) "Food" None "2024-01-01";
    Expense.mk (N := Exact) 2 (Fin 20) "Books" None "2024-01-02";
    Expense.mk (N := Exact) 3 (Fin 220) "Food" None "2024-01-03" ].

(** Three purchases: 10 and 20 on Food, 5 on Books. *)
Definition three_rows : list (Expense.t (N := Float64)) :=
  [ Expense.mk 1 10%float "Food" None "2024-01-01";
    Expense.mk 2 20%float "Food" None "2024-01-10";
    Expense.mk 3 5%float "Books" None "2024-01-15" ].

(** Their amounts in whole units. *)
Definition three_rows_units (e : Expense.t (N := Float64)) : Z :=
  if Expense.id e =? 1 then 10 else if Expense.id e =? 2 then 20 else 5.

(** A stand-in for [toFixed(2)] that agrees with it on the totals of the
    samples. *)
Definition toFixed2_64 (x : float) : string :=
  if PrimFloat.eqb x 5%float then "5.00"
  else if PrimFloat.eqb x 12%float then "12.00"
  else if PrimFloat.eqb x 30%float then "30.00"
  else if PrimFloat.eqb x 35%float then "35.00"
  else "NaN".

(** Noon UTC on Wednesday 2024-01-17. *)
Definition wednesday_noon : Z := 1705492800000.

(** Categories named like properties of [Object.prototype]. *)
Definition proto_row : list (Expense.t (N := Float64)) :=
  [ Expense.mk 1 5%float "__proto__" None "2024-01-01" ].

Definition constructor_rows : list (Expense.t (N := Float64)) :=
  [ Expense.mk 1 5%float "constructor" None "2024-01-01";
    Expense.mk 2 7%float "constructor" None "2024-01-02" ].

(** A device five hours west of Greenwich, at 10:00 local time on Monday
    2024-01-01 (15:00 UTC), and a row dated that day. *)
Definition utc_minus_5 : Z := -18000000.

Definition monday_morning : Z := 1704121200000.

Definition dated_today : list (Expense.t (N := Float64)) :=
  [ Expense.mk 1 12.5%float "Food" None "2024-01-01" ].

End Sample.

(* ================================================================== *)
(** * The edit modal *)

Section Editing.

Context {N : JSNumber}.

(** [String(x)] on a number. *)
Variable String_of_num : num -> string.

Definition setEditAmount (v : string) (s : State.t) : State.t :=
  State.mk (State.db s) (State.expenses s) (State.amount s) (State.category s)
    (State.note s) (State.filter s) (State.editingExpense s)
    v (State.editCategory s) (State.editNote s) (State.editDate s).

Definition setEditCategory (v : string) (s : State.t) : State.t :=
  State.mk (State.db s) (State.expenses s) (State.amount s) (State.category s)
    (State.note s) (State.filter s) (State.editingExpense s)
    (State.editAmount s) v (State.editNote s) (State.editDate s).

Definition setEditNote (v : string) (s : State.t) : State.t :=
  State.mk (State.db s) (State.expenses s) (State.amount s) (State.category s)
    (State.note s) (State.filter s) (State.editingExpense s)
    (State.editAmount s) (State.editCategory s) v (State.editDate s).

Definition setEditDate (v : string) (s : State.t) : State.t :=
  State.mk (State.db s) (State.expenses s) (State.amount s) (State.category s)
    (State.note s) (State.filter s) (State.editingExpense s)
    (State.editAmount s) (State.editCategory s) (State.editNote s) v.

(** [expense.note || ''] *)
Definition note_or_empty (n : option string) : string :=
  match n with
  | Some t => if JSString.is_empty t then EmptyString else t
  | None => EmptyString
  end.

(** Lines 159-165. *)
Definition startEditing (expense : Expense.t) (s : State.t) : State.t :=
  let s := setEditingExpense (Some expense) s in
  let s := setEditAmount (String_of_num (Expense.amount expense)) s in
  let s := setEditCategory (Expense.category expense) s in
  let s := setEditNote (note_or_empty (Expense.note expense)) s in
  setEditDate (Expense.date expense) s.

(** The Cancel button and [onRequestClose] of the modal (lines 352, 393). *)
Definition cancelEdit (s : State.t) : State.t := setEditingExpense None s.

(** Line 349: [visible={!!editingExpense}]. *)
Definition modalVisible (s : State.t) : bool :=
  match State.editingExpense s with
  | Some _ => true
  | None => false
  end.

End Editing.

(* ================================================================== *)
(** * The totals box of the render (lines 266-303) *)

Section Summary.

Context {N : JSNumber}.

(** [x.toFixed(2)] on a number: its text with two decimals. *)
Variable toFixed2 : num -> string.

(** [v.toFixed(2)] on a value read from the totals object.  Numbers alone
    have the method: on a string [v.toFixed] is [undefined], and calling it
    throws a TypeError, written [None]. *)
Definition toFixed (v : jsval) : option string :=
  match v with
  | JNum x => Some (toFixed2 x)
  | JUndefined | JStr _ | JFun _ | JProtoObj => None
  end.

(** [l.map(f)] for a callback that may throw: the map throws as soon as a
    call does. *)
Fixpoint map_throwing {A B : Type} (f : A -> option B) (l : list A)
  : option (list B) :=
  match l with
  | [] => Some []
  | x :: r =>
      match f x with
      | None => None
      | Some y =>
          match map_throwing f r with
          | None => None
          | Some ys => Some (y :: ys)
          end
      end
  end.

(** What stands under the heading "By Category": the line "No expenses in
    this range." (line 278), or one line per entry with the category and
    the text of its total (lines 280-284). *)
Inductive categoryPart : Type :=
| NoExpensesInRange
| CategoryLines (lines : list (string * string)).

(** The totals box: the text of the grand total (line 271), the part under
    "By Category" (lines 277-285) and, if it is drawn, the data handed to
    the pie chart (lines 286-303). *)
Record summary : Type := mkSummary {
  totalAmount : string;
  byCategory : categoryPart;
  chartData : option (list segment)
}.

(** Lines 266-303, in the order of evaluation.  [None]: the render throws
    and none of it is shown. *)
Definition renderSummary (totalSpending : num) (totalsByCategory : jsobj)
    (pieChartData : list segment) : option summary :=
  let amount := toFixed2 totalSpending in
  let part :=
    if Nat.eqb (List.length (Object_keys totalsByCategory)) 0
    then Some NoExpensesInRange
    else
      option_map CategoryLines
        (map_throwing
           (fun entry : string * jsval =>
              let '(cat, total) := entry in
              option_map (pair cat) (toFixed total))
           (Object_entries totalsByCategory)) in
  match part with
  | None => None
  | Some part =>
      Some (mkSummary amount part
              (if Nat.ltb 0 (List.length pieChartData)
               then Some pieChartData else None))
  end.

End Summary.

(* ================================================================== *)
(** * Vocabulary of the further properties *)

Section MoreVocabulary.

Context {N : JSNumber}.

Definition ids (db : store) : list Z := map Expense.id (rows db).

(** The ids of the table are pairwise distinct and none exceeds the
    AUTOINCREMENT counter. *)
Definition store_ok (db : store) : Prop :=
  NoDup (ids db) /\ Forall (fun i => i <= seq db) (ids db).

(** A string without white space at either end. *)
Definition trimmed (s : string) : Prop := JSString.trim s = s.

(** The strings a statement writes. *)
Definition statement_trimmed (q : statement) : Prop :=
  match q with
  | INSERT _ c n _ =>
      trimmed c /\ match n with Some t => trimmed t /\ t <> EmptyString | None => True end
  | UPDATE _ c n d _ =>
      trimmed c /\ trimmed d
      /\ match n with Some t => trimmed t /\ t <> EmptyString | None => True end
  | DELETE _ => True
  end.


(** What a row needs for the edit form to hand it back unchanged: strings
    without white space at either end, a category and a date that are not
    empty, a note that is absent or not empty. *)
Definition row_canonical (r : Expense.t) : Prop :=
  trimmed (Expense.category r) /\ Expense.category r <> EmptyString
  /\ trimmed (Expense.date r) /\ Expense.date r <> EmptyString
  /\ match Expense.note r with
     | Some t => trimmed t /\ t <> EmptyString
     | None => True
     end.

(** [a] is shown above [b]: a later date, or the same date and no smaller
    id. *)
Definition shown_before (a b : Expense.t) : Prop := row_before a b = true.

(** The rows that [totalsByCategory] can record: assigning to [__proto__]
    adds no key to an object. *)
Definition not_proto (e : Expense.t) : bool :=
  negb (String.eqb (cat_of e) "__proto__").

(** Amounts counted in whole units, [unit z] being the number that holds
    [z] units: up to [bound] units, [unit 0] is [0], adding the numbers of
    two counts gives, without rounding, the number of their sum, and the
    number of a positive count is truthy. *)
Definition exact_units (unit : Z -> num) (bound : Z) : Prop :=
  unit 0 = zero
  /\ (forall a b, 0 <= a -> 0 <= b -> a + b <= bound ->
                  add (unit a) (unit b) = unit (a + b))
  /\ (forall a, 0 < a <= bound -> truthy (unit a) = true).

Fixpoint Zsum (zs : list Z) : Z :=
  match zs with
  | [] => 0
  | z :: r => z + Zsum r
  end.

(** The units of the records under the key [k], in list order. *)
Definition units_of (w : Expense.t -> Z) (k : string) (l : list Expense.t)
  : list Z :=
  map w (List.filter (fun e => String.eqb (cat_of e) k) l).

End MoreVocabulary.

(** The double that holds the whole number [z], for [0 <= z < 2^63]. *)
Definition whole (z : Z) : float := PrimFloat.of_uint63 (Uint63.of_Z z).

(** The whole numbers from [0] to [n]. *)
Definition upto (n : Z) : list Z :=
  map Z.of_nat (List.seq 0 (S (Z.to_nat n))).

(** Adding the doubles of two whole numbers whose sum is at most [n] gives
    the double of the sum, bit for bit; checked pair by pair. *)
Definition whole_sums_exact (n : Z) : bool :=
  forallb
    (fun a =>
       forallb
         (fun b =>
            PrimFloat.Leibniz.eqb (PrimFloat.add (whole a) (whole b))
              (whole (a + b)))
         (upto (n - a)))
    (upto n).

(** The double of every whole number from 1 to [n] is truthy. *)
Definition whole_truthy (n : Z) : bool :=
  forallb (fun a => (a =? 0) || truthy (JSNumber := Float64) (whole a))
    (upto n).


(* ================================================================== *)
(** * Facts about strings *)

Lemma trimStart_shape (s : string) :
  JSString.trimStart s = EmptyString
  \/ exists c r, JSString.trimStart s = String c r /\ JSString.is_ws c = false.
Proof.
  induction s as [|c r IH]; simpl.
  - now left.
  - destruct (JSString.is_ws c) eqn:Hc; [exact IH|].
    right. now exists c, r.
Qed.

Lemma trimEnd_keeps_head (c : ascii) (r : string) :
  JSString.is_ws c = false ->
  JSString.trimEnd (String c r) = String c (JSString.trimEnd r).
Proof.
  intros Hc. simpl. now rewrite Hc.
Qed.

Lemma trimEnd_idempotent (s : string) :
  JSString.trimEnd (JSString.trimEnd s) = JSString.trimEnd s.
Proof.
  induction s as [|c r IH]; simpl; [reflexivity|].
  destruct (JSString.is_ws c && JSString.is_empty (JSString.trimEnd r)) eqn:E.
  - reflexivity.
  - simpl. rewrite IH, E. reflexivity.
Qed.

Lemma trim_idempotent (s : string) :
  JSString.trim (JSString.trim s) = JSString.trim s.
Proof.
  unfold JSString.trim.
  destruct (trimStart_shape s) as [E | (c & r & E & Hc)]; rewrite E.
  - reflexivity.
  - rewrite (trimEnd_keeps_head c r Hc).
    cbn [JSString.trimStart]. rewrite Hc.
    rewrite <- (trimEnd_keeps_head c r Hc).
    apply trimEnd_idempotent.
Qed.

Lemma trim_blank (s : string) :
  JSString.is_empty (JSString.trim s) = all_ws s.
Proof.
  unfold JSString.trim.
  induction s as [|c r IH]; [reflexivity|].
  cbn [JSString.trimStart all_ws].
  destruct (JSString.is_ws c) eqn:Hc.
  - exact IH.
  - now rewrite (trimEnd_keeps_head c r Hc).
Qed.

Lemma append_nonempty (s : string) (c : ascii) (r : string) :
  JSString.is_empty (s ++ String c r) = false.
Proof.
  destruct s; reflexivity.
Qed.

Lemma pad_nonempty (w : nat) (n : Z) :
  JSString.is_empty (JSString.pad (S w) n) = false.
Proof.
  cbn [JSString.pad]. apply append_nonempty.
Qed.

Lemma slice0_nonempty (n : nat) (s : string) :
  JSString.is_empty s = false ->
  JSString.is_empty (JSString.slice0 (S n) s) = false.
Proof.
  destruct s as [|c r]; [discriminate|reflexivity].
Qed.

Lemma nonempty_append (s t : string) :
  JSString.is_empty s = false -> JSString.is_empty (s ++ t) = false.
Proof.
  destruct s; [discriminate|reflexivity].
Qed.

Lemma toISOString_nonempty (t : Z) :
  JSString.is_empty (JSDate.toISOString t) = false.
Proof.
  unfold JSDate.toISOString.
  destruct (JSDate.civil_from_days (JSDate.Day t)) as [[y m] d].
  apply nonempty_append.
  destruct ((0 <=? y) && (y <=? 9999)).
  - apply pad_nonempty.
  - destruct (y <? 0); reflexivity.
Qed.

(* ================================================================== *)
(** * Facts about numbers *)

(** A double that is not [NaN] and not [<= 0] is [> 0]. *)
Lemma Float64_positive (x : float) :
  isNaN (JSNumber := Float64) x = false ->
  leb (JSNumber := Float64) x zero = false ->
  ltb (JSNumber := Float64) zero x = true.
Proof.
  cbn [isNaN leb ltb zero Float64]. unfold PrimFloat.is_nan.
  rewrite eqb_spec, leb_spec, ltb_spec.
  change (Prim2SF 0) with (S754_zero false).
  destruct (Prim2SF x) as [s|s| |s m e]; cbn; try discriminate;
    destruct s; cbn; auto; discriminate.
Qed.

Lemma Exact_is_exact : ExactArith Exact.
Proof.
  split; cbn.
  - intros [x|] [y|] [z|]; cbn; try reflexivity. f_equal. lia.
  - intros [x|] [y|]; cbn; try reflexivity. f_equal. lia.
  - intros [x|]; reflexivity.
  - intros [x|]; cbn; [|discriminate].
    intros H _. apply negb_false_iff, Z.eqb_eq in H. now subst.
  - reflexivity.
  - intros [x|] [y|]; cbn; congruence.
Qed.

Lemma sum_from_app {N : JSNumber} (xs ys : list num) (acc : num) :
  sum_from acc (xs ++ ys) = sum_from (sum_from acc xs) ys.
Proof.
  revert acc. induction xs as [|x xs IH]; intros acc; cbn; [reflexivity|].
  apply IH.
Qed.

Lemma sum_num_snoc {N : JSNumber} (xs : list num) (x : num) :
  sum_num (xs ++ [x]) = add (sum_num xs) x.
Proof.
  unfold sum_num. now rewrite sum_from_app.
Qed.

(* ================================================================== *)
(** * The form handlers *)

Section Handlers.

Context {N : JSNumber}.
Variable parseFloat : string -> num.

Lemma addExpense_rejects (now : Z) (s : State.t) :
  amount_rejected parseFloat (State.amount s) = true
  \/ JSString.trim (State.category s) = EmptyString ->
  exists msg, addExpense parseFloat now s = (s, [Alert msg]).
Proof.
  unfold addExpense, amount_rejected. intros [H | H].
  - rewrite H. eauto.
  - destruct (_ || _); [eauto|]. rewrite H. cbn. eauto.
Qed.

Lemma saveEdit_rejects (s : State.t) (e : Expense.t) :
  State.editingExpense s = Some e ->
  amount_rejected parseFloat (State.editAmount s) = true
  \/ JSString.trim (State.editCategory s) = EmptyString
  \/ JSString.trim (State.editDate s) = EmptyString ->
  exists msg, saveEdit parseFloat s = (s, [Alert msg]).
Proof.
  unfold saveEdit, amount_rejected. intros -> [H | [H | H]].
  - rewrite H. eauto.
  - destruct (_ || _); [eauto|]. rewrite H. cbn. eauto.
  - destruct (_ || _); [eauto|].
    destruct (JSString.is_empty (JSString.trim (State.editCategory s))); [eauto|].
    rewrite H. cbn. eauto.
Qed.

(** What [addExpense] does once both checks pass. *)
Lemma addExpense_accepts (now : Z) (s : State.t) :
  amount_rejected parseFloat (State.amount s) = false ->
  JSString.is_empty (JSString.trim (State.category s)) = false ->
  let q := INSERT (parseFloat (State.amount s))
             (JSString.trim (State.category s))
             (or_null (JSString.trim (State.note s)))
             (JSString.slice0 10 (JSDate.toISOString now)) in
  snd (addExpense parseFloat now s) = [Run q]
  /\ State.db (fst (addExpense parseFloat now s)) = runAsync q (State.db s).
Proof.
  unfold addExpense, amount_rejected. intros -> ->. cbn. auto.
Qed.

(** What [saveEdit] does once the three checks pass. *)
Lemma saveEdit_accepts (s : State.t) (e : Expense.t) :
  State.editingExpense s = Some e ->
  amount_rejected parseFloat (State.editAmount s) = false ->
  JSString.is_empty (JSString.trim (State.editCategory s)) = false ->
  JSString.is_empty (JSString.trim (State.editDate s)) = false ->
  let q := UPDATE (parseFloat (State.editAmount s))
             (JSString.trim (State.editCategory s))
             (or_null (JSString.trim (State.editNote s)))
             (JSString.trim (State.editDate s)) (Expense.id e) in
  snd (saveEdit parseFloat s) = [Run q]
  /\ State.db (fst (saveEdit parseFloat s)) = runAsync q (State.db s).
Proof.
  unfold saveEdit, amount_rejected. intros -> -> -> ->. cbn. auto.
Qed.

(** Either handler sends at most one statement, and only after its checks
    have passed. *)
Lemma addExpense_statement (now : Z) (s : State.t) (q : statement) :
  In q (statements (snd (addExpense parseFloat now s))) ->
  amount_rejected parseFloat (State.amount s) = false
  /\ JSString.is_empty (JSString.trim (State.category s)) = false
  /\ q = INSERT (parseFloat (State.amount s))
             (JSString.trim (State.category s))
             (or_null (JSString.trim (State.note s)))
             (JSString.slice0 10 (JSDate.toISOString now)).
Proof.
  unfold addExpense, amount_rejected.
  destruct (_ || _); [intros []|].
  destruct (JSString.is_empty _); [intros []|].
  cbn. intros [<- | []]. auto.
Qed.

Lemma saveEdit_statement (s : State.t) (q : statement) :
  In q (statements (snd (saveEdit parseFloat s))) ->
  exists e, State.editingExpense s = Some e
  /\ amount_rejected parseFloat (State.editAmount s) = false
  /\ JSString.is_empty (JSString.trim (State.editCategory s)) = false
  /\ JSString.is_empty (JSString.trim (State.editDate s)) = false
  /\ q = UPDATE (parseFloat (State.editAmount s))
             (JSString.trim (State.editCategory s))
             (or_null (JSString.trim (State.editNote s)))
             (JSString.trim (State.editDate s)) (Expense.id e).
Proof.
  unfold saveEdit, amount_rejected.
  destruct (State.editingExpense s) as [e|]; [|intros []].
  destruct (_ || _); [intros []|].
  destruct (JSString.is_empty (JSString.trim (State.editCategory s))); [intros []|].
  destruct (JSString.is_empty (JSString.trim (State.editDate s))); [intros []|].
  cbn. intros [<- | []]. exists e. auto.
Qed.

Lemma or_null_blank (s : string) :
  or_null (JSString.trim s)
  = if all_ws s then None else Some (JSString.trim s).
Proof.
  unfold or_null. now rewrite trim_blank.
Qed.

End Handlers.

(** C7.  A submission of the add form, or of the edit form that is open on a
    row, whose amount parses to [NaN] or to a number [<= 0], or whose
    category is empty after trimming, or (on edit) whose date is empty after
    trimming, raises one alert and nothing else: no statement is sent, and
    the handler returns the state, store included, that it was given. *)
Theorem invalid_submission_aborts {N : JSNumber} (parseFloat : string -> num) :
  (forall (now : Z) (s : State.t),
      amount_rejected parseFloat (State.amount s) = true
      \/ JSString.trim (State.category s) = EmptyString ->
      exists msg, addExpense parseFloat now s = (s, [Alert msg]))
  /\ (forall (s : State.t) (e : Expense.t),
      State.editingExpense s = Some e ->
      amount_rejected parseFloat (State.editAmount s) = true
      \/ JSString.trim (State.editCategory s) = EmptyString
      \/ JSString.trim (State.editDate s) = EmptyString ->
      exists msg, saveEdit parseFloat s = (s, [Alert msg])).
Proof.
  split.
  - intros now s. apply addExpense_rejects.
  - intros s e. apply saveEdit_rejects.
Qed.

Lemma invalid_submission_aborts_witness :
  (exists msg,
      addExpense Sample.parseFloat64 0 (Sample.adding "abc" "Food" "x")
      = (Sample.adding "abc" "Food" "x", [Alert msg]))
  /\ (exists msg,
      saveEdit Sample.parseFloat64 (Sample.editing "12.5" "Food" "x" "  ")
      = (Sample.editing "12.5" "Food" "x" "  ", [Alert msg])).
Proof.
  split.
  - apply (proj1 (invalid_submission_aborts (N := Float64) Sample.parseFloat64)).
    left. reflexivity.
  - apply (proj2 (invalid_submission_aborts (N := Float64) Sample.parseFloat64)
             _ Sample.lunch); [reflexivity|].
    right. right. reflexivity.
Defined.

Lemma fields_ok_accepted (parseFloat : string -> float) (a c d : string) :
  amount_rejected parseFloat a = false ->
  JSString.is_empty (JSString.trim c) = false ->
  JSString.is_empty d = false ->
  fields_ok (parseFloat a) (JSString.trim c) d.
Proof.
  unfold amount_rejected. intros Ha Hc Hd.
  apply orb_false_iff in Ha as [Hnan Hle].
  repeat split.
  - now apply Float64_positive.
  - now rewrite trim_idempotent.
  - exact Hd.
Qed.

Lemma runAsync_row_ok (q : statement (N := Float64)) (db : store) :
  statement_ok q -> Forall row_ok (rows db) -> Forall row_ok (rows (runAsync q db)).
Proof.
  intros Hq Hdb. destruct q as [a c n d | a c n d i | i]; cbn in *.
  - apply Forall_app. split; [exact Hdb|]. constructor; [exact Hq|constructor].
  - apply Forall_map. eapply Forall_impl; [|exact Hdb].
    intros r Hr. destruct (Expense.id r =? i); [exact Hq|exact Hr].
  - rewrite Forall_forall in *. intros r Hr.
    apply filter_In in Hr. now apply Hdb.
Qed.

Lemma addExpense_statement_ok (parseFloat : string -> float) (now : Z)
    (s : State.t) (q : statement) :
  In q (statements (snd (addExpense parseFloat now s))) -> statement_ok q.
Proof.
  intros H. apply addExpense_statement in H as (Ha & Hc & ->).
  apply fields_ok_accepted; [exact Ha|exact Hc|].
  apply slice0_nonempty, toISOString_nonempty.
Qed.

Lemma saveEdit_statement_ok (parseFloat : string -> float)
    (s : State.t) (q : statement) :
  In q (statements (snd (saveEdit parseFloat s))) -> statement_ok q.
Proof.
  intros H. apply saveEdit_statement in H as (e & _ & Ha & Hc & Hd & ->).
  now apply fields_ok_accepted.
Qed.

(** The store only changes by the statements a handler reports. *)
Lemma addExpense_db {N : JSNumber} (parseFloat : string -> num) (now : Z)
    (s : State.t) :
  State.db (fst (addExpense parseFloat now s))
  = fold_left (fun db q => runAsync q db)
      (statements (snd (addExpense parseFloat now s))) (State.db s).
Proof.
  unfold addExpense.
  destruct (_ || _); [reflexivity|].
  destruct (JSString.is_empty _); reflexivity.
Qed.

Lemma saveEdit_db {N : JSNumber} (parseFloat : string -> num) (s : State.t) :
  State.db (fst (saveEdit parseFloat s))
  = fold_left (fun db q => runAsync q db)
      (statements (snd (saveEdit parseFloat s))) (State.db s).
Proof.
  unfold saveEdit.
  destruct (State.editingExpense s); [|reflexivity].
  destruct (_ || _); [reflexivity|].
  destruct (JSString.is_empty (JSString.trim (State.editCategory s))); [reflexivity|].
  destruct (JSString.is_empty (JSString.trim (State.editDate s))); reflexivity.
Qed.

Lemma fold_runAsync_row_ok (qs : list (statement (N := Float64))) (db : store) :
  (forall q, In q qs -> statement_ok q) ->
  Forall row_ok (rows db) ->
  Forall row_ok (rows (fold_left (fun db q => runAsync q db) qs db)).
Proof.
  revert db. induction qs as [|q qs IH]; intros db Hqs Hdb; cbn; [exact Hdb|].
  apply IH.
  - intros q' Hq'. apply Hqs. now right.
  - apply runAsync_row_ok; [|exact Hdb]. apply Hqs. now left.
Qed.

(** C8.  Every row that [addExpense] inserts and every row that [saveEdit]
    writes by its update has an amount [> 0], a category that is non-empty
    after trimming and a non-empty date; hence add, edit-save and delete
    all keep a store whose rows satisfy these invariants in that condition. *)
Theorem written_rows_satisfy_invariants (parseFloat : string -> float) :
  (forall now s q,
      In q (statements (snd (addExpense parseFloat now s))) -> statement_ok q)
  /\ (forall s q,
      In q (statements (snd (saveEdit parseFloat s))) -> statement_ok q)
  /\ (forall now s,
      Forall row_ok (rows (State.db s)) ->
      Forall row_ok (rows (State.db (fst (addExpense parseFloat now s)))))
  /\ (forall s,
      Forall row_ok (rows (State.db s)) ->
      Forall row_ok (rows (State.db (fst (saveEdit parseFloat s)))))
  /\ (forall i s,
      Forall row_ok (rows (State.db s)) ->
      Forall row_ok (rows (State.db (fst (deleteExpense i s))))).
Proof.
  repeat split.
  - apply addExpense_statement_ok.
  - apply saveEdit_statement_ok.
  - intros now s Hs. rewrite addExpense_db.
    apply fold_runAsync_row_ok; [|exact Hs].
    intros q. apply addExpense_statement_ok.
  - intros s Hs. rewrite saveEdit_db.
    apply fold_runAsync_row_ok; [|exact Hs].
    intros q. apply saveEdit_statement_ok.
  - intros i s Hs. cbn. rewrite Forall_forall in *. intros r Hr.
    apply filter_In in Hr. now apply Hs.
Qed.

Lemma written_rows_satisfy_invariants_witness :
  let s := Sample.adding "12.5" " Food " "lunch" in
  let q := INSERT (N := Float64) 12.5%float "Food" (Some "lunch") "1970-01-01" in
  statements (snd (addExpense Sample.parseFloat64 0 s)) = [q] /\ statement_ok q.
Proof.
  split; [reflexivity|].
  apply (proj1 (written_rows_satisfy_invariants Sample.parseFloat64)
           0 (Sample.adding "12.5" " Food " "lunch")).
  left. reflexivity.
Defined.

(** C10.  When a submission passes the checks, the one statement sent
    carries [null] for a note that is empty or all white space, and the
    trimmed note otherwise.  After an add, the table is the old table
    followed by one row with that note.  After a save, the table is the old
    table with every row that has the id of the edited expense replaced by
    one row with that id and that note, and every other row as it was; so
    a row with that id is left exactly when there was one, and it carries
    that note. *)
Theorem blank_note_stored_as_null {N : JSNumber} (parseFloat : string -> num) :
  (forall (now : Z) (s : State.t),
      amount_rejected parseFloat (State.amount s) = false ->
      JSString.is_empty (JSString.trim (State.category s)) = false ->
      let n := if all_ws (State.note s) then None
               else Some (JSString.trim (State.note s)) in
      exists a c d,
        snd (addExpense parseFloat now s) = [Run (INSERT a c n d)]
        /\ rows (State.db (fst (addExpense parseFloat now s)))
           = (rows (State.db s)
               ++ [Expense.mk (seq (State.db s) + 1) a c n d])%list)
  /\ (forall (s : State.t) (e : Expense.t),
      State.editingExpense s = Some e ->
      amount_rejected parseFloat (State.editAmount s) = false ->
      JSString.is_empty (JSString.trim (State.editCategory s)) = false ->
      JSString.is_empty (JSString.trim (State.editDate s)) = false ->
      let n := if all_ws (State.editNote s) then None
               else Some (JSString.trim (State.editNote s)) in
      exists a c d,
        snd (saveEdit parseFloat s) = [Run (UPDATE a c n d (Expense.id e))]
        /\ rows (State.db (fst (saveEdit parseFloat s)))
           = map (fun r => if Expense.id r =? Expense.id e
                           then Expense.mk (Expense.id e) a c n d else r)
               (rows (State.db s))
        /\ (forall r,
              In r (rows (State.db (fst (saveEdit parseFloat s)))) ->
              Expense.id r = Expense.id e -> Expense.note r = n)
        /\ ((exists r, In r (rows (State.db s))
                       /\ Expense.id r = Expense.id e)
            <-> In (Expense.mk (Expense.id e) a c n d)
                  (rows (State.db (fst (saveEdit parseFloat s)))))).
Proof.
  split.
  - intros now s Ha Hc n.
    destruct (addExpense_accepts parseFloat now s Ha Hc) as [Hq Hdb].
    rewrite or_null_blank in Hq, Hdb. fold n in Hq, Hdb.
    eexists _, _, _. split; [exact Hq|]. rewrite Hdb. reflexivity.
  - intros s e He Ha Hc Hd n.
    destruct (saveEdit_accepts parseFloat s e He Ha Hc Hd) as [Hq Hdb].
    rewrite or_null_blank in Hq, Hdb. fold n in Hq, Hdb.
    eexists _, _, _. split; [exact Hq|]. rewrite Hdb.
    split; [reflexivity|]. cbn. split.
    + intros r Hr Hid. apply in_map_iff in Hr as (r0 & <- & _).
      destruct (Expense.id r0 =? Expense.id e) eqn:E; [reflexivity|].
      cbn in Hid. rewrite Hid, Z.eqb_refl in E. discriminate.
    + rewrite in_map_iff. split.
      * intros (r & Hr & Hid). exists r. split; [|exact Hr].
        now rewrite Hid, Z.eqb_refl.
      * intros (r & Hr & Hin). exists r. split; [exact Hin|].
        destruct (Expense.id r =? Expense.id e) eqn:E.
        -- now apply Z.eqb_eq in E.
        -- now rewrite Hr.
Qed.

Lemma blank_note_stored_as_null_witness :
  (exists a c d,
      snd (addExpense Sample.parseFloat64 0 (Sample.adding "12.5" "Food" "  "))
      = [Run (INSERT a c None d)]
      /\ rows (State.db (fst (addExpense Sample.parseFloat64 0
                                (Sample.adding "12.5" "Food" "  "))))
         = [Sample.lunch; Expense.mk 2 a c None d])
  /\ (exists a c d,
      snd (saveEdit Sample.parseFloat64
             (Sample.editing "40" "Food" " dinner " "2024-01-02"))
      = [Run (UPDATE a c (Some "dinner") d 1)]
      /\ rows (State.db (fst (saveEdit Sample.parseFloat64
                   (Sample.editing "40" "Food" " dinner " "2024-01-02"))))
         = [Expense.mk 1 a c (Some "dinner") d]).
Proof.
  split.
  - apply (proj1 (blank_note_stored_as_null (N := Float64) Sample.parseFloat64)
             0 (Sample.adding "12.5" "Food" "  ")); reflexivity.
  - destruct (proj2 (blank_note_stored_as_null (N := Float64)
                       Sample.parseFloat64)
                (Sample.editing "40" "Food" " dinner " "2024-01-02")
                Sample.lunch eq_refl eq_refl eq_refl eq_refl)
      as (a & c & d & Hq & Hrows & _).
    exists a, c, d. split; [exact Hq|exact Hrows].
Defined.

(* ================================================================== *)
(** * Filtering and the grand total *)

Section FilterFacts.

Context {N : JSNumber}.
Variable LocalTZA : Z.
Variable parse_other : string -> option Z.

Lemma totalSpending_from (l : list Expense.t) (acc : num) :
  fold_left (fun sum e => add sum (Number (Expense.amount e))) l acc
  = sum_from acc (map Expense.amount l).
Proof.
  revert acc. induction l as [|e l IH]; intros acc; cbn; [reflexivity|].
  apply IH.
Qed.

(** C1.  [totalSpending] of the empty list is [0]; of any list, filtered or
    not, it is the sum of the [amount] fields of exactly the records of that
    list, added from left to right starting from [0]; in particular a
    further record adds its amount to the total. *)
Theorem totalSpending_is_sum :
  totalSpending [] = zero
  /\ (forall l : list Expense.t,
        totalSpending l = sum_num (map Expense.amount l))
  /\ (forall (l : list Expense.t) (e : Expense.t),
        totalSpending (l ++ [e]) = add (totalSpending l) (Expense.amount e))
  /\ (forall filter now (expenses : list Expense.t),
        totalSpending (filteredExpenses LocalTZA parse_other filter now expenses)
        = sum_num (map Expense.amount
             (filteredExpenses LocalTZA parse_other filter now expenses))).
Proof.
  assert (H : forall l : list Expense.t,
             totalSpending l = sum_num (map Expense.amount l)).
  { intros l. apply totalSpending_from. }
  repeat split.
  - exact H.
  - intros l e. rewrite !H, map_app. apply sum_num_snoc.
  - intros. apply H.
Qed.

(** C3.  Under the filter [all] the result is the list [expenses] itself:
    the same records in the same order. *)
Theorem filter_all_is_identity (now : Z) (expenses : list Expense.t) :
  filteredExpenses LocalTZA parse_other "all" now expenses = expenses.
Proof.
  unfold filteredExpenses. rewrite String.eqb_refl. reflexivity.
Qed.

(** C9.  A filter value that is none of [all], [week], [month] falls through
    to the last [return expenses]: the full list, unchanged. *)
Theorem unknown_filter_is_identity (filter : string) (now : Z)
    (expenses : list Expense.t) :
  filter <> "all" -> filter <> "week" -> filter <> "month" ->
  filteredExpenses LocalTZA parse_other filter now expenses = expenses.
Proof.
  intros Ha Hw Hm. unfold filteredExpenses.
  apply String.eqb_neq in Ha, Hw, Hm. rewrite Ha, Hw, Hm. reflexivity.
Qed.

End FilterFacts.

Lemma unknown_filter_is_identity_witness :
  filteredExpenses 0 (fun _ => None) "year" 0 [Sample.lunch] = [Sample.lunch].
Proof.
  apply (unknown_filter_is_identity 0 (fun _ => None) "year" 0 [Sample.lunch]);
    discriminate.
Defined.

(* ================================================================== *)
(** * Plain objects *)

Local Open Scope list_scope.

Lemma str_in_iff (k : string) (ks : list string) :
  str_in k ks = true <-> In k ks.
Proof.
  unfold str_in. rewrite existsb_exists. split.
  - intros (x & Hx & E). apply String.eqb_eq in E. now subst.
  - intros H. exists k. split; [exact H|apply String.eqb_refl].
Qed.

Lemma str_in_false_iff (k : string) (ks : list string) :
  str_in k ks = false <-> ~ In k ks.
Proof.
  rewrite <- str_in_iff. destruct (str_in k ks); split; congruence.
Qed.

Lemma str_in_app (k : string) (xs ys : list string) :
  str_in k (xs ++ ys) = str_in k xs || str_in k ys.
Proof.
  unfold str_in. apply existsb_app.
Qed.

Section ObjectFacts.

Context {N : JSNumber}.

Implicit Types (o : jsobj) (k : string) (v : jsval).

Lemma get_own_set_own_same o k v : get_own (set_own o k v) k = Some v.
Proof.
  induction o as [|[k' v'] o IH]; cbn.
  - now rewrite String.eqb_refl.
  - destruct (String.eqb k' k) eqn:E; cbn; rewrite E; [reflexivity|exact IH].
Qed.

Lemma get_own_set_own_other o k k' v :
  k' <> k -> get_own (set_own o k v) k' = get_own o k'.
Proof.
  intros Hne. induction o as [|[k0 v0] o IH]; cbn.
  - apply String.eqb_neq in Hne. rewrite String.eqb_sym in Hne.
    now rewrite Hne.
  - destruct (String.eqb k0 k) eqn:E; cbn.
    + apply String.eqb_eq in E. subst k0.
      apply String.eqb_neq in Hne. rewrite String.eqb_sym in Hne.
      now rewrite Hne.
    + now rewrite IH.
Qed.

Lemma get_own_keys o k :
  str_in k (map fst o) = match get_own o k with Some _ => true | None => false end.
Proof.
  induction o as [|[k' v'] o IH]; cbn; [reflexivity|].
  rewrite (String.eqb_sym k k').
  destruct (String.eqb k' k); [reflexivity|exact IH].
Qed.

Lemma keys_set_own o k v :
  map fst (set_own o k v)
  = if str_in k (map fst o) then map fst o else map fst o ++ [k].
Proof.
  induction o as [|[k' v'] o IH]; [reflexivity|].
  cbn [set_own map fst]. unfold str_in in *. cbn [existsb].
  rewrite (String.eqb_sym k k').
  destruct (String.eqb k' k); cbn [map fst orb]; [reflexivity|].
  rewrite IH. now destruct (existsb (String.eqb k) (map fst o)).
Qed.

Lemma get_own_In o k v : get_own o k = Some v -> In (k, v) o.
Proof.
  induction o as [|[k' v'] o IH]; cbn; [discriminate|].
  destruct (String.eqb k' k) eqn:E.
  - apply String.eqb_eq in E. intros [= ->]. left. now subst.
  - intros H. right. now apply IH.
Qed.

Lemma In_get_own o k v : wf_obj o -> In (k, v) o -> get_own o k = Some v.
Proof.
  unfold wf_obj. induction o as [|[k' v'] o IH]; cbn; [intros _ []|].
  intros Hnd [H | H]; inversion Hnd as [|? ? Hnotin Hnd']; subst.
  - injection H as -> ->. now rewrite String.eqb_refl.
  - destruct (String.eqb k' k) eqn:E; [|now apply IH].
    apply String.eqb_eq in E. subst k'. exfalso. apply Hnotin.
    change k with (fst (k, v)). now apply in_map.
Qed.

(** ** The order of [Object.entries] *)

Lemma insert_by_index_perm (p : string * jsval) (ps : list (string * jsval)) :
  Permutation (insert_by_index p ps) (p :: ps).
Proof.
  induction ps as [|q ps IH]; cbn; [reflexivity|].
  destruct (index_of p <=? index_of q); [reflexivity|].
  rewrite IH. apply perm_swap.
Qed.

Lemma sort_by_index_perm (ps : list (string * jsval)) :
  Permutation (sort_by_index ps) ps.
Proof.
  induction ps as [|p ps IH]; cbn; [reflexivity|].
  rewrite insert_by_index_perm. now constructor.
Qed.

Lemma filter_split_perm {A : Type} (f : A -> bool) (l : list A) :
  Permutation (List.filter f l ++ List.filter (fun x => negb (f x)) l) l.
Proof.
  induction l as [|x l IH]; cbn; [reflexivity|].
  destruct (f x); cbn.
  - now constructor.
  - rewrite <- Permutation_middle. now constructor.
Qed.

Lemma Object_entries_perm o : Permutation (Object_entries o) o.
Proof.
  unfold Object_entries. rewrite sort_by_index_perm. apply filter_split_perm.
Qed.

Lemma insert_by_index_HdRel (a p : string * jsval) (ps : list (string * jsval)) :
  index_le a p -> HdRel index_le a ps -> HdRel index_le a (insert_by_index p ps).
Proof.
  intros Hap Hps. destruct ps as [|q ps]; cbn.
  - now constructor.
  - destruct (index_of p <=? index_of q); constructor; [exact Hap|].
    now inversion Hps.
Qed.

Lemma insert_by_index_sorted (p : string * jsval) (ps : list (string * jsval)) :
  Sorted index_le ps -> Sorted index_le (insert_by_index p ps).
Proof.
  induction ps as [|q ps IH]; cbn; intros Hs.
  - repeat constructor.
  - inversion Hs as [|? ? Hs' Hhd]; subst.
    destruct (index_of p <=? index_of q) eqn:E.
    + constructor; [exact Hs|]. constructor. unfold index_le. lia.
    + constructor; [now apply IH|].
      apply insert_by_index_HdRel; [|exact Hhd]. unfold index_le. lia.
Qed.

Lemma sort_by_index_sorted (ps : list (string * jsval)) :
  Sorted index_le (sort_by_index ps).
Proof.
  induction ps as [|p ps IH]; cbn; [constructor|].
  now apply insert_by_index_sorted.
Qed.

Lemma filter_all {A : Type} (f : A -> bool) (l : list A) :
  Forall (fun x => f x = true) l -> List.filter f l = l.
Proof.
  induction 1 as [|x l Hx _ IH]; cbn; [reflexivity|]. now rewrite Hx, IH.
Qed.

Lemma filter_none {A : Type} (f : A -> bool) (l : list A) :
  Forall (fun x => f x = false) l -> List.filter f l = [].
Proof.
  induction 1 as [|x l Hx _ IH]; cbn; [reflexivity|]. now rewrite Hx.
Qed.

Lemma sort_by_index_all_index (ps : list (string * jsval)) :
  Forall (fun p => is_index p = true) (sort_by_index (List.filter is_index ps)).
Proof.
  apply Forall_forall. intros p Hp.
  apply (Permutation_in _ (sort_by_index_perm _)) in Hp.
  now apply filter_In in Hp.
Qed.

Lemma Object_entries_index_part o :
  List.filter is_index (Object_entries o)
  = sort_by_index (List.filter is_index o).
Proof.
  unfold Object_entries. rewrite filter_app.
  rewrite (filter_all _ _ (sort_by_index_all_index o)).
  rewrite (filter_none is_index (List.filter (fun p => negb (is_index p)) o)).
  - apply app_nil_r.
  - apply Forall_forall. intros p Hp. apply filter_In in Hp as [_ Hp].
    now apply negb_true_iff.
Qed.

Lemma Object_entries_other_part o :
  List.filter (fun p => negb (is_index p)) (Object_entries o)
  = List.filter (fun p => negb (is_index p)) o.
Proof.
  unfold Object_entries. rewrite filter_app.
  rewrite (filter_none (fun p => negb (is_index p))
             (sort_by_index (List.filter is_index o))).
  - cbn [app]. apply filter_all. apply Forall_forall. intros p Hp.
    now apply filter_In in Hp.
  - eapply Forall_impl; [|apply sort_by_index_all_index].
    cbn. intros p ->. reflexivity.
Qed.

Lemma Object_entries_split o :
  Object_entries o
  = List.filter is_index (Object_entries o)
      ++ List.filter (fun p => negb (is_index p)) (Object_entries o).
Proof.
  rewrite Object_entries_index_part, Object_entries_other_part. reflexivity.
Qed.

Lemma filter_map_fst (f : string -> bool) (ps : list (string * jsval)) :
  List.filter f (map fst ps) = map fst (List.filter (fun p => f (fst p)) ps).
Proof.
  induction ps as [|p ps IH]; cbn; [reflexivity|].
  destruct (f (fst p)); cbn; now rewrite IH.
Qed.

Lemma Sorted_map_index (ps : list (string * jsval)) :
  Sorted index_le ps -> Sorted Z.le (map key_index (map fst ps)).
Proof.
  induction 1 as [|p ps _ IH Hhd]; cbn; constructor; [exact IH|].
  destruct Hhd; cbn; constructor. assumption.
Qed.

Lemma Object_entries_wf o : wf_obj o -> wf_obj (Object_entries o).
Proof.
  unfold wf_obj. intros H.
  eapply Permutation_NoDup; [|exact H].
  apply Permutation_map. symmetry. apply Object_entries_perm.
Qed.

End ObjectFacts.

(* ================================================================== *)
(** * The chart segments *)

Section ChartFacts.

Context {N : JSNumber}.

Lemma pieChartData_unfold (m : jsobj) :
  pieChartData m
  = map_index
      (fun (entry : string * jsval) (index : nat) =>
         let '(category, total) := entry in
         mkSegment category total
           (nth (Nat.modulo index (List.length colors)) colors EmptyString)
           "#e5e7eb" 12)
      0%nat (Object_entries m).
Proof.
  unfold pieChartData. now destruct (Object_entries m).
Qed.

Lemma map_index_label_value (i : nat) (l : list (string * jsval)) :
  map (fun s => (name s, population s))
    (map_index
       (fun (entry : string * jsval) (index : nat) =>
          let '(category, total) := entry in
          mkSegment category total
            (nth (Nat.modulo index (List.length colors)) colors EmptyString)
            "#e5e7eb" 12)
       i l)
  = l.
Proof.
  revert i. induction l as [|[k v] l IH]; intros i; cbn; [reflexivity|].
  f_equal. apply IH.
Qed.

Lemma pieChartData_entries (m : jsobj) :
  map (fun s => (name s, population s)) (pieChartData m) = Object_entries m.
Proof.
  rewrite pieChartData_unfold. apply map_index_label_value.
Qed.

Lemma pieChartData_names (m : jsobj) :
  map name (pieChartData m) = Object_keys m.
Proof.
  unfold Object_keys. rewrite <- pieChartData_entries, map_map. reflexivity.
Qed.

(** C5.  For a category-to-total mapping (an object; its keys are pairwise
    distinct), the segments are, label and value, the entries of the
    mapping: one segment for each key and no other, its value that key's
    total; and there is no segment exactly when the mapping has no key. *)
Theorem pieChartData_one_segment_per_category (m : jsobj) :
  wf_obj m ->
  map (fun s => (name s, population s)) (pieChartData m) = Object_entries m
  /\ Permutation (map name (pieChartData m)) (map fst m)
  /\ NoDup (map name (pieChartData m))
  /\ (forall k v,
        get_own m k = Some v
        <-> exists s, In s (pieChartData m) /\ name s = k /\ population s = v)
  /\ (pieChartData m = [] <-> m = []).
Proof.
  intros Hwf.
  assert (Hperm : Permutation (map name (pieChartData m)) (map fst m)).
  { rewrite pieChartData_names. unfold Object_keys.
    apply Permutation_map, Object_entries_perm. }
  split; [apply pieChartData_entries|].
  split; [exact Hperm|].
  split; [eapply Permutation_NoDup; [symmetry; exact Hperm|exact Hwf]|].
  split.
  - intros k v. split.
    + intros H. apply get_own_In in H.
      apply (Permutation_in _ (Permutation_sym (Object_entries_perm m))) in H.
      rewrite <- pieChartData_entries in H.
      apply in_map_iff in H as (s & [= <- <-] & Hs). now exists s.
    + intros (s & Hs & <- & <-). apply In_get_own; [exact Hwf|].
      apply (Permutation_in _ (Object_entries_perm m)).
      rewrite <- pieChartData_entries.
      apply in_map_iff. now exists s.
  - split.
    + intros H. apply (f_equal (map name)) in H. cbn in H.
      rewrite H in Hperm. apply Permutation_nil in Hperm.
      now apply map_eq_nil in Hperm.
    + intros ->. reflexivity.
Qed.

End ChartFacts.

Lemma pieChartData_one_segment_per_category_witness :
  let m : jsobj (N := Float64) :=
    [("Food", JNum 30%float); ("Books", JNum 5%float)] in
  map (fun s => (name s, population s)) (pieChartData m) = m
  /\ (pieChartData m = [] <-> m = []).
Proof.
  intros m.
  assert (Hwf : wf_obj m).
  { unfold wf_obj, m. cbn. repeat constructor; cbn; intuition discriminate. }
  destruct (pieChartData_one_segment_per_category m Hwf)
    as (H1 & _ & _ & _ & H5).
  split; [exact H1|exact H5].
Defined.

(* ================================================================== *)
(** * The keys of the totals *)

Section TotalsKeys.

Context {N : JSNumber}.

Lemma first_seen_fold (ks : list string) : first_seen ks = fold_left see ks [].
Proof. reflexivity. Qed.

Lemma see_fold_In (ks acc : list string) (k : string) :
  In k (fold_left see ks acc) <-> In k acc \/ In k ks.
Proof.
  revert acc. induction ks as [|x ks IH]; intros acc; cbn; [tauto|].
  rewrite IH. unfold see. destruct (str_in x acc) eqn:E.
  - apply str_in_iff in E. split; [tauto|]. intros [H | [<- | H]]; auto.
  - rewrite in_app_iff. cbn. tauto.
Qed.

Lemma see_fold_NoDup (ks acc : list string) :
  NoDup acc -> NoDup (fold_left see ks acc).
Proof.
  revert acc. induction ks as [|x ks IH]; intros acc Hacc; cbn; [exact Hacc|].
  apply IH. unfold see. destruct (str_in x acc) eqn:E; [exact Hacc|].
  apply str_in_false_iff in E.
  apply NoDup_app; [exact Hacc|repeat constructor; intros []|].
  intros y Hy [<- | []]. contradiction.
Qed.

Lemma first_seen_In (ks : list string) (k : string) :
  In k (first_seen ks) <-> In k ks.
Proof.
  rewrite first_seen_fold, see_fold_In. cbn. tauto.
Qed.

Lemma first_seen_NoDup (ks : list string) : NoDup (first_seen ks).
Proof.
  rewrite first_seen_fold. apply see_fold_NoDup. constructor.
Qed.

Lemma add_to_totals_keys (T : jsobj) (e : Expense.t) :
  cat_of e <> "__proto__" ->
  map fst (add_to_totals T e) = see (map fst T) (cat_of e).
Proof.
  intros Hc. apply String.eqb_neq in Hc.
  unfold add_to_totals, Set_, see. rewrite Hc.
  destruct (negb (ToBoolean (Get T (cat_of e)))).
  - rewrite !keys_set_own.
    destruct (str_in (cat_of e) (map fst T)) eqn:E; [now rewrite E|].
    rewrite str_in_app. cbn. rewrite String.eqb_refl, orb_true_r.
    reflexivity.
  - apply keys_set_own.
Qed.

Lemma totals_keys_from (l : list Expense.t) (T : jsobj) :
  (forall e, In e l -> cat_of e <> "__proto__") ->
  map fst (fold_left add_to_totals l T)
  = fold_left see (map cat_of l) (map fst T).
Proof.
  revert T. induction l as [|e l IH]; intros T Hl; cbn; [reflexivity|].
  rewrite IH by (intros e' He'; apply Hl; now right).
  rewrite add_to_totals_keys by (apply Hl; now left).
  reflexivity.
Qed.

(** The own keys, in creation order, are the categories in first-seen
    order. *)
Lemma totals_keys (l : list Expense.t) :
  (forall e, In e l -> cat_of e <> "__proto__") ->
  map fst (totalsByCategory l) = first_seen (map cat_of l).
Proof.
  intros Hl. unfold totalsByCategory. now rewrite totals_keys_from.
Qed.

Lemma totals_wf (l : list Expense.t) :
  (forall e, In e l -> cat_of e <> "__proto__") ->
  wf_obj (totalsByCategory l).
Proof.
  intros Hl. unfold wf_obj. rewrite totals_keys by exact Hl.
  apply first_seen_NoDup.
Qed.

Lemma Object_keys_perm (o : jsobj) : Permutation (Object_keys o) (map fst o).
Proof.
  unfold Object_keys. apply Permutation_map, Object_entries_perm.
Qed.

Lemma Object_keys_other_part (o : jsobj) :
  List.filter (fun k => negb (is_index_key k)) (Object_keys o)
  = List.filter (fun k => negb (is_index_key k)) (map fst o).
Proof.
  unfold Object_keys. rewrite !filter_map_fst.
  f_equal. apply Object_entries_other_part.
Qed.

Lemma Object_keys_split (o : jsobj) :
  Object_keys o
  = List.filter is_index_key (Object_keys o)
      ++ List.filter (fun k => negb (is_index_key k)) (Object_keys o).
Proof.
  unfold Object_keys. rewrite !filter_map_fst, <- map_app.
  f_equal. apply Object_entries_split.
Qed.

Lemma Object_keys_index_sorted (o : jsobj) :
  Sorted Z.le (map key_index (List.filter is_index_key (Object_keys o))).
Proof.
  unfold Object_keys. rewrite filter_map_fst.
  apply Sorted_map_index.
  change (fun p : string * jsval => is_index_key (fst p)) with is_index.
  rewrite Object_entries_index_part. apply sort_by_index_sorted.
Qed.

(** C6, as the code has it.  When no category is [__proto__], the keys of
    [totalsByCategory] are the categories of the filtered records ([Other]
    for an empty one), each once; those that are not array indices are
    listed in first-seen order; those that are array indices come before
    them, in ascending numeric order.  So when no category is an array
    index, the keys are listed in first-seen order. *)
Theorem totalsByCategory_key_order (l : list Expense.t) :
  (forall e, In e l -> cat_of e <> "__proto__") ->
  let keys := Object_keys (totalsByCategory l) in
  let seen := first_seen (map cat_of l) in
  Permutation keys seen
  /\ List.filter (fun k => negb (is_index_key k)) keys
     = List.filter (fun k => negb (is_index_key k)) seen
  /\ keys = List.filter is_index_key keys
              ++ List.filter (fun k => negb (is_index_key k)) keys
  /\ Sorted Z.le (map key_index (List.filter is_index_key keys))
  /\ ((forall e, In e l -> is_index_key (cat_of e) = false) -> keys = seen).
Proof.
  intros Hl keys seen.
  assert (Hk : map fst (totalsByCategory l) = seen) by now apply totals_keys.
  assert (Hother : List.filter (fun k => negb (is_index_key k)) keys
                   = List.filter (fun k => negb (is_index_key k)) seen).
  { unfold keys. now rewrite Object_keys_other_part, Hk. }
  split; [unfold keys; rewrite <- Hk; apply Object_keys_perm|].
  split; [exact Hother|].
  split; [apply Object_keys_split|].
  split; [apply Object_keys_index_sorted|].
  intros Hidx.
  assert (Hseen : Forall (fun k => negb (is_index_key k) = true) seen).
  { apply Forall_forall. intros k Hk'. unfold seen in Hk'.
    apply (proj1 (first_seen_In _ _)) in Hk'.
    apply in_map_iff in Hk' as (e & <- & He). now rewrite Hidx. }
  unfold keys at 1. rewrite Object_keys_split. fold keys. rewrite Hother.
  rewrite (filter_all _ _ Hseen).
  rewrite filter_none; [reflexivity|].
  apply Forall_forall. intros k Hk'.
  assert (Hin : In k seen).
  { apply (Permutation_in k (Object_keys_perm (totalsByCategory l))) in Hk'.
    now rewrite Hk in Hk'. }
  rewrite Forall_forall in Hseen. apply Hseen in Hin.
  now apply negb_true_iff.
Qed.

End TotalsKeys.

Lemma totalsByCategory_key_order_witness :
  let keys := Object_keys (totalsByCategory Sample.food_books_food) in
  keys = List.filter is_index_key keys
           ++ List.filter (fun k => negb (is_index_key k)) keys
  /\ keys = first_seen (map cat_of Sample.food_books_food).
Proof.
  assert (H : forall e, In e Sample.food_books_food -> cat_of e <> "__proto__").
  { intros e [<- | [<- | [<- | []]]]; discriminate. }
  destruct (totalsByCategory_key_order Sample.food_books_food H)
    as (_ & _ & H3 & _ & H5).
  split; [exact H3|].
  apply H5. intros e [<- | [<- | [<- | []]]]; reflexivity.
Defined.

(** C6 fails as stated: with the categories [Books] and then [101], the
    key [101], an array index, is listed first. *)
Lemma key_order_counterexample :
  first_seen (map cat_of Sample.books_then_101) = ["Books"; "101"]
  /\ Object_keys (totalsByCategory Sample.books_then_101) = ["101"; "Books"]
  /\ Object_keys (totalsByCategory Sample.books_then_101)
     <> first_seen (map cat_of Sample.books_then_101).
Proof.
  repeat split. intros H. vm_compute in H. discriminate.
Qed.

(* ================================================================== *)
(** * The bucket values *)

Section TotalsValues.

Context {N : JSNumber}.

Lemma inherited_false (k : string) :
  inherited k = false ->
  String.eqb k "__proto__" = false /\ str_in k proto_functions = false.
Proof.
  unfold inherited. apply orb_false_iff.
Qed.

Lemma inherited_not_proto (k : string) :
  inherited k = false -> k <> "__proto__".
Proof.
  intros H. apply inherited_false in H as [H _]. now apply String.eqb_neq.
Qed.

(** One round of the loop, seen from each key. *)
Lemma add_to_totals_other (T : jsobj) (e : Expense.t) (k : string) :
  k <> cat_of e -> get_own (add_to_totals T e) k = get_own T k.
Proof.
  intros Hk. unfold add_to_totals, Set_.
  destruct (String.eqb (cat_of e) "__proto__").
  - now destruct (negb _).
  - destruct (negb _); now rewrite !get_own_set_own_other.
Qed.

Lemma add_to_totals_new (T : jsobj) (e : Expense.t) :
  inherited (cat_of e) = false ->
  get_own T (cat_of e) = None ->
  get_own (add_to_totals T e) (cat_of e)
  = Some (JNum (add zero (Expense.amount e))).
Proof.
  intros Hc Hg. apply inherited_false in Hc as [Hp Hf].
  unfold add_to_totals, Set_, Get. rewrite Hp, Hg, Hf. cbn [ToBoolean negb].
  rewrite !get_own_set_own_same. reflexivity.
Qed.

Lemma add_to_totals_old (T : jsobj) (e : Expense.t) (t : num) :
  inherited (cat_of e) = false ->
  get_own T (cat_of e) = Some (JNum t) ->
  get_own (add_to_totals T e) (cat_of e)
  = Some (JNum (bucket_step t (Expense.amount e))).
Proof.
  intros Hc Hg. apply inherited_false in Hc as [Hp Hf].
  unfold add_to_totals, Set_, Get, bucket_step.
  rewrite Hp, Hg. cbn [ToBoolean].
  destruct (truthy t); cbn [negb].
  - rewrite get_own_set_own_same, Hg. reflexivity.
  - rewrite !get_own_set_own_same. reflexivity.
Qed.

Lemma amounts_of_snoc (k : string) (l : list Expense.t) (e : Expense.t) :
  amounts_of k (l ++ [e])
  = amounts_of k l
      ++ (if String.eqb (cat_of e) k then [Expense.amount e] else []).
Proof.
  unfold amounts_of. rewrite filter_app, map_app. cbn.
  now destruct (String.eqb (cat_of e) k).
Qed.

Lemma bucket_sum_snoc (xs : list num) (x : num) :
  bucket_sum (xs ++ [x]) = bucket_step (bucket_sum xs) x.
Proof.
  unfold bucket_sum. now rewrite fold_left_app.
Qed.

Lemma bucket_sum_single (x : num) : bucket_sum [x] = add zero x.
Proof.
  unfold bucket_sum, bucket_step. cbn. now destruct (truthy zero).
Qed.

Lemma amounts_of_absent (k : string) (l : list Expense.t) :
  str_in k (map cat_of l) = false -> amounts_of k l = [].
Proof.
  intros H. apply str_in_false_iff in H. unfold amounts_of.
  rewrite filter_none; [reflexivity|].
  apply Forall_forall. intros e He. apply String.eqb_neq.
  intros E. apply H. rewrite <- E. now apply in_map.
Qed.

(** What each bucket holds after the loop: for a category that occurs, the
    amounts of its records accumulated by [bucket_step]; nothing for a
    category that does not occur. *)
Lemma totals_lookup (l : list Expense.t) :
  (forall e, In e l -> inherited (cat_of e) = false) ->
  forall k,
    get_own (totalsByCategory l) k
    = if str_in k (map cat_of l)
      then Some (JNum (bucket_sum (amounts_of k l)))
      else None.
Proof.
  induction l as [|e l IH] using rev_ind; intros Hl k; [reflexivity|].
  assert (Hl' : forall e', In e' l -> inherited (cat_of e') = false).
  { intros e' He'. apply Hl, in_or_app. now left. }
  assert (He : inherited (cat_of e) = false).
  { apply Hl, in_or_app. right. now left. }
  specialize (IH Hl').
  unfold totalsByCategory in *. rewrite fold_left_app. cbn [fold_left].
  rewrite map_app, str_in_app, amounts_of_snoc. cbn [map str_in existsb].
  rewrite orb_false_r, (String.eqb_sym k).
  destruct (String.eqb (cat_of e) k) eqn:E.
  - apply String.eqb_eq in E. subst k. rewrite orb_true_r.
    specialize (IH (cat_of e)).
    destruct (str_in (cat_of e) (map cat_of l)) eqn:Hin.
    + rewrite (add_to_totals_old _ _ _ He IH). now rewrite bucket_sum_snoc.
    + rewrite (add_to_totals_new _ _ He IH).
      rewrite (amounts_of_absent _ _ Hin). cbn [app].
      now rewrite bucket_sum_single.
  - apply String.eqb_neq in E.
    rewrite add_to_totals_other by congruence.
    rewrite orb_false_r, app_nil_r. apply IH.
Qed.

(** The accumulation is the plain left-to-right sum as long as it never
    starts again... *)
Lemma bucket_from_no_restart (xs : list num) (acc : num) :
  subtotals_truthy_from acc xs = true ->
  fold_left bucket_step xs acc = sum_from acc xs.
Proof.
  revert acc. induction xs as [|x xs IH]; intros acc; cbn; [reflexivity|].
  intros H. apply andb_true_iff in H as [Ht H].
  unfold bucket_step at 2. rewrite Ht. now apply IH.
Qed.

Lemma bucket_sum_no_restart (xs : list num) :
  subtotals_truthy xs = true -> bucket_sum xs = sum_num xs.
Proof.
  destruct xs as [|x xs]; [reflexivity|]. cbn [subtotals_truthy].
  intros H. unfold bucket_sum, sum_num. cbn [fold_left sum_from].
  replace (bucket_step zero x) with (add zero x)
    by (unfold bucket_step; now destruct (truthy zero)).
  now apply bucket_from_no_restart.
Qed.

(** ... and in exact arithmetic, where starting again from [0] only happens
    at [0]. *)
Lemma bucket_from_exact (xs : list num) (acc : num) :
  ExactArith N ->
  isNaN acc = false ->
  Forall (fun x => isNaN x = false) xs ->
  fold_left bucket_step xs acc = sum_from acc xs.
Proof.
  intros HN. revert acc.
  induction xs as [|x xs IH]; intros acc Hacc Hxs; cbn; [reflexivity|].
  inversion Hxs as [|? ? Hx Hxs']; subst.
  assert (E : bucket_step acc x = add acc x).
  { unfold bucket_step. destruct (truthy acc) eqn:Ht; [reflexivity|].
    now rewrite (falsy_zero N HN acc Ht Hacc). }
  rewrite E. apply IH; [|exact Hxs'].
  now apply (add_not_nan N HN).
Qed.

Lemma bucket_sum_exact (xs : list num) :
  ExactArith N ->
  Forall (fun x => isNaN x = false) xs ->
  bucket_sum xs = sum_num xs.
Proof.
  intros HN Hxs. apply bucket_from_exact; [exact HN| |exact Hxs].
  apply (zero_not_nan N HN).
Qed.

Lemma amounts_of_not_nan (k : string) (l : list Expense.t) :
  (forall e, In e l -> isNaN (Expense.amount e) = false) ->
  Forall (fun x => isNaN x = false) (amounts_of k l).
Proof.
  intros Hl. apply Forall_forall. intros x Hx.
  apply in_map_iff in Hx as (e & <- & He).
  apply filter_In in He as [He _]. now apply Hl.
Qed.

End TotalsValues.

(* ================================================================== *)
(** * Sums over the buckets, in exact arithmetic *)

Section ExactSums.

Context {N : JSNumber}.
Hypothesis exact : ExactArith N.

Lemma add_zero_r (x : num) : add x zero = x.
Proof.
  rewrite (add_comm N exact). apply (add_zero_l N exact).
Qed.

Lemma sum_from_acc (xs : list num) (acc : num) :
  sum_from acc xs = add acc (sum_num xs).
Proof.
  unfold sum_num. revert acc.
  induction xs as [|x xs IH]; intros acc; cbn.
  - now rewrite add_zero_r.
  - rewrite (IH (add acc x)), (IH (add zero x)).
    now rewrite (add_zero_l N exact), (add_assoc N exact).
Qed.

Lemma sum_num_cons (x : num) (xs : list num) :
  sum_num (x :: xs) = add x (sum_num xs).
Proof.
  unfold sum_num at 1. cbn. rewrite sum_from_acc.
  now rewrite (add_zero_l N exact).
Qed.

Lemma sum_num_zeros (ks : list string) :
  sum_num (map (fun _ : string => zero) ks) = zero.
Proof.
  induction ks as [|k ks IH]; [reflexivity|].
  cbn [map]. rewrite sum_num_cons, IH. apply (add_zero_l N exact).
Qed.

(** Adding [a] to the term of one key adds [a] to the sum over distinct
    keys. *)
Lemma sum_num_bump (c : string) (a : num) (f : string -> num) (ks : list string) :
  NoDup ks -> In c ks ->
  sum_num (map (fun k => if String.eqb c k then add a (f k) else f k) ks)
  = add a (sum_num (map f ks)).
Proof.
  induction 1 as [|k ks Hk Hnd IH]; [intros []|].
  intros Hin. cbn [map]. rewrite !sum_num_cons.
  destruct (String.eqb c k) eqn:E.
  - apply String.eqb_eq in E. subst k.
    rewrite <- (add_assoc N exact). do 3 f_equal.
    apply map_ext_in. intros k Hk'.
    destruct (String.eqb c k) eqn:E; [|reflexivity].
    apply String.eqb_eq in E. now subst k.
  - destruct Hin as [-> | Hin]; [now rewrite String.eqb_refl in E|].
    rewrite (IH Hin).
    rewrite !(add_assoc N exact). f_equal. apply (add_comm N exact).
Qed.

Lemma amounts_of_cons (k : string) (e : Expense.t) (l : list Expense.t) :
  amounts_of k (e :: l)
  = if String.eqb (cat_of e) k then Expense.amount e :: amounts_of k l
    else amounts_of k l.
Proof.
  unfold amounts_of. cbn. now destruct (String.eqb (cat_of e) k).
Qed.

(** The buckets partition the records: summing the per-category sums over
    any duplicate-free list of keys that covers the categories gives the
    sum of all amounts. *)
Lemma partition_sum (l : list Expense.t) (ks : list string) :
  NoDup ks ->
  (forall e, In e l -> In (cat_of e) ks) ->
  sum_num (map (fun k => sum_num (amounts_of k l)) ks)
  = sum_num (map Expense.amount l).
Proof.
  intros Hnd. induction l as [|e l IH]; intros Hl.
  - cbn. apply sum_num_zeros.
  - cbn [map]. rewrite sum_num_cons, <- IH by (intros e' He'; apply Hl; now right).
    rewrite <- (sum_num_bump (cat_of e)); [|exact Hnd|apply Hl; now left].
    f_equal. apply map_ext. intros k. rewrite amounts_of_cons.
    destruct (String.eqb (cat_of e) k); [apply sum_num_cons|reflexivity].
Qed.

End ExactSums.

Lemma sum_values_numbers {N : JSNumber} (xs : list num) (acc : num) :
  fold_left js_plus (map JNum xs) (JNum acc) = JNum (sum_from acc xs).
Proof.
  revert acc. induction xs as [|x xs IH]; intros acc; cbn; [reflexivity|].
  apply IH.
Qed.

(* ================================================================== *)
(** * Sums over the buckets, for amounts in whole units *)

Lemma Zsum_nonneg (zs : list Z) :
  Forall (fun z => 0 <= z) zs -> 0 <= Zsum zs.
Proof.
  induction 1 as [|z zs Hz _ IH]; cbn; lia.
Qed.

Lemma Zsum_app (xs ys : list Z) : Zsum (xs ++ ys) = Zsum xs + Zsum ys.
Proof.
  induction xs as [|x xs IH]; cbn; lia.
Qed.

Lemma Zsum_bump (c : string) (a : Z) (f : string -> Z) (ks : list string) :
  NoDup ks -> In c ks ->
  Zsum (map (fun k => if String.eqb c k then a + f k else f k) ks)
  = a + Zsum (map f ks).
Proof.
  induction 1 as [|k ks Hk Hnd IH]; [intros []|].
  intros Hin. cbn [map Zsum]. fold (Zsum (map f ks)).
  fold (Zsum (map (fun k => if String.eqb c k then a + f k else f k) ks)).
  destruct (String.eqb c k) eqn:E.
  - apply String.eqb_eq in E. subst k.
    assert (Hsame : map (fun k => if String.eqb c k then a + f k else f k) ks
                    = map f ks).
    { apply map_ext_in. intros k Hk'.
      destruct (String.eqb c k) eqn:E; [|reflexivity].
      apply String.eqb_eq in E. now subst k. }
    rewrite Hsame. lia.
  - destruct Hin as [-> | Hin]; [now rewrite String.eqb_refl in E|].
    rewrite (IH Hin). lia.
Qed.

Section UnitSums.

Context {N : JSNumber}.
Variable unit : Z -> num.
Variable bound : Z.
Hypothesis units : exact_units unit bound.
Variable w : Expense.t -> Z.

Lemma sum_from_units (zs : list Z) (s : Z) :
  0 <= s -> Forall (fun z => 0 <= z) zs -> s + Zsum zs <= bound ->
  sum_from (unit s) (map unit zs) = unit (s + Zsum zs).
Proof.
  destruct units as (_ & Hadd & _). revert s.
  induction zs as [|z zs IH]; intros s Hs Hzs Hb; cbn.
  - now rewrite Z.add_0_r.
  - inversion Hzs as [|? ? Hz Hzs']; subst.
    pose proof (Zsum_nonneg zs Hzs') as Hn. cbn in Hb.
    fold (Zsum zs) in Hb |- *.
    rewrite Hadd by lia. rewrite IH by (try assumption; lia).
    f_equal. lia.
Qed.

Lemma sum_num_units (zs : list Z) :
  Forall (fun z => 0 <= z) zs -> Zsum zs <= bound ->
  sum_num (map unit zs) = unit (Zsum zs).
Proof.
  intros Hzs Hb. unfold sum_num.
  destruct units as (H0 & _ & _). rewrite <- H0.
  now rewrite sum_from_units by (try assumption; lia).
Qed.

Lemma subtotals_truthy_from_units (zs : list Z) (s : Z) :
  0 < s -> Forall (fun z => 0 < z) zs -> s + Zsum zs <= bound ->
  subtotals_truthy_from (unit s) (map unit zs) = true.
Proof.
  destruct units as (_ & Hadd & Ht). revert s.
  induction zs as [|z zs IH]; intros s Hs Hzs Hb; cbn; [reflexivity|].
  inversion Hzs as [|? ? Hz Hzs']; subst.
  assert (Hn : 0 <= Zsum zs).
  { apply Zsum_nonneg. eapply Forall_impl; [|exact Hzs']. cbn. intros; lia. }
  cbn in Hb. fold (Zsum zs) in Hb.
  rewrite Ht by lia. rewrite Hadd by lia. cbn [andb].
  apply IH; [lia|exact Hzs'|lia].
Qed.

Lemma subtotals_truthy_units (zs : list Z) :
  Forall (fun z => 0 < z) zs -> Zsum zs <= bound ->
  subtotals_truthy (map unit zs) = true.
Proof.
  destruct zs as [|z zs]; [reflexivity|]. intros Hzs Hb.
  inversion Hzs as [|? ? Hz Hzs']; subst.
  assert (Hn : 0 <= Zsum zs).
  { apply Zsum_nonneg. eapply Forall_impl; [|exact Hzs']. cbn. intros; lia. }
  cbn in Hb. fold (Zsum zs) in Hb.
  cbn [map subtotals_truthy].
  destruct units as (H0 & Hadd & _).
  rewrite <- H0, Hadd by lia. cbn [Z.add].
  now apply subtotals_truthy_from_units.
Qed.

Lemma units_of_cons (k : string) (e : Expense.t) (l : list Expense.t) :
  units_of w k (e :: l)
  = if String.eqb (cat_of e) k then w e :: units_of w k l else units_of w k l.
Proof.
  unfold units_of. cbn. now destruct (String.eqb (cat_of e) k).
Qed.

(** The buckets partition the records, in units. *)
Lemma units_partition (l : list Expense.t) (ks : list string) :
  NoDup ks ->
  (forall e, In e l -> In (cat_of e) ks) ->
  Zsum (map (fun k => Zsum (units_of w k l)) ks) = Zsum (map w l).
Proof.
  intros Hnd. induction l as [|e l IH]; intros Hl.
  - cbn. induction ks as [|k ks IHk]; [reflexivity|].
    inversion Hnd; subst. cbn. now rewrite IHk.
  - cbn [map Zsum]. fold (Zsum (map w l)).
    rewrite <- IH by (intros e' He'; apply Hl; now right).
    rewrite <- (Zsum_bump (cat_of e)); [|exact Hnd|apply Hl; now left].
    f_equal. apply map_ext. intros k. rewrite units_of_cons.
    now destruct (String.eqb (cat_of e) k).
Qed.

Lemma units_of_pos (l : list Expense.t) (k : string) :
  (forall e, In e l -> 0 < w e) -> Forall (fun z => 0 < z) (units_of w k l).
Proof.
  intros Hl. apply Forall_forall. intros z Hz.
  apply in_map_iff in Hz as (e & <- & He).
  apply filter_In in He as [He _]. now apply Hl.
Qed.

Lemma units_of_le (l : list Expense.t) (k : string) :
  (forall e, In e l -> 0 < w e) -> Zsum (units_of w k l) <= Zsum (map w l).
Proof.
  induction l as [|e l IH]; intros Hl; [cbn; lia|].
  rewrite units_of_cons. cbn [map Zsum]. fold (Zsum (map w l)).
  assert (H : Zsum (units_of w k l) <= Zsum (map w l))
    by (apply IH; intros e' He'; apply Hl; now right).
  assert (He : 0 < w e) by (apply Hl; now left).
  destruct (String.eqb (cat_of e) k); cbn; fold (Zsum (units_of w k l)); lia.
Qed.

Lemma amounts_of_units (l : list Expense.t) (k : string) :
  (forall e, In e l -> Expense.amount e = unit (w e)) ->
  amounts_of k l = map unit (units_of w k l).
Proof.
  intros Hl. unfold amounts_of, units_of. rewrite map_map.
  apply map_ext_in. intros e He. apply filter_In in He as [He _].
  now apply Hl.
Qed.

End UnitSums.

(** ** The buckets and the grand total *)

Lemma bucket_values_listed {N : JSNumber} (l : list Expense.t) :
  (forall e, In e l -> cat_of e <> "__proto__") ->
  (forall k v, get_own (totalsByCategory l) k = Some v ->
               v = JNum (sum_num (amounts_of k l))) ->
  sum_values (Object_values (totalsByCategory l))
  = JNum (sum_num (map (fun k => sum_num (amounts_of k l))
                     (Object_keys (totalsByCategory l)))).
Proof.
  intros Hproto Hsum.
  assert (Hvals : Object_values (totalsByCategory l)
                  = map JNum (map (fun k => sum_num (amounts_of k l))
                                (Object_keys (totalsByCategory l)))).
  { unfold Object_values, Object_keys. rewrite !map_map.
    apply map_ext_in. intros [k v] Hp. cbn.
    apply Hsum, In_get_own; [now apply totals_wf|].
    now apply (Permutation_in _ (Object_entries_perm _)). }
  rewrite Hvals. unfold sum_values. now rewrite sum_values_numbers.
Qed.

Lemma totals_keys_cover {N : JSNumber} (l : list Expense.t) :
  (forall e, In e l -> cat_of e <> "__proto__") ->
  forall k, In k (Object_keys (totalsByCategory l))
            <-> exists e, In e l /\ cat_of e = k.
Proof.
  intros Hproto k. split.
  - intros H. apply (Permutation_in k (Object_keys_perm _)) in H.
    rewrite (totals_keys l Hproto) in H.
    apply (proj1 (first_seen_In _ _)), in_map_iff in H as (e & E & He).
    now exists e.
  - intros (e & He & <-).
    apply (Permutation_in _ (Permutation_sym (Object_keys_perm _))).
    rewrite (totals_keys l Hproto).
    apply first_seen_In. now apply in_map.
Qed.

(** In exact arithmetic on amounts other than [NaN], each bucket value is
    the sum of the amounts of its category and the bucket values add up to
    [totalSpending]. *)
Lemma buckets_add_up_in_exact_arithmetic {N : JSNumber} (l : list Expense.t) :
  ExactArith N ->
  (forall e, In e l -> inherited (cat_of e) = false) ->
  (forall e, In e l -> isNaN (Expense.amount e) = false) ->
  (forall k v, get_own (totalsByCategory l) k = Some v ->
               v = JNum (sum_num (amounts_of k l)))
  /\ sum_values (Object_values (totalsByCategory l)) = JNum (totalSpending l).
Proof.
  intros HN Hl Hnan.
  assert (Hproto : forall e, In e l -> cat_of e <> "__proto__").
  { intros e He. apply inherited_not_proto. now apply Hl. }
  assert (Hexact : forall k v, get_own (totalsByCategory l) k = Some v ->
                     v = JNum (sum_num (amounts_of k l))).
  { intros k v. rewrite (totals_lookup l Hl k).
    destruct (str_in k (map cat_of l)); [|discriminate]. intros [= <-].
    rewrite bucket_sum_exact; [reflexivity|exact HN|].
    now apply amounts_of_not_nan. }
  split; [exact Hexact|].
  rewrite (bucket_values_listed l Hproto Hexact). f_equal.
  rewrite (partition_sum HN).
  - symmetry. apply totalSpending_from.
  - eapply Permutation_NoDup;
      [symmetry; apply Object_keys_perm|now apply totals_wf].
  - intros e He. apply (totals_keys_cover l Hproto). now exists e.
Qed.

Example cents_add_up :
  sum_values (Object_values (totalsByCategory Sample.food_books_food_cents))
  = JNum (totalSpending Sample.food_books_food_cents)
  /\ totalSpending Sample.food_books_food_cents = Fin 250.
Proof.
  split; [|reflexivity].
  apply (buckets_add_up_in_exact_arithmetic (N := Exact)
           Sample.food_books_food_cents Exact_is_exact);
    intros e [<- | [<- | [<- | []]]]; reflexivity.
Qed.

(** ** Doubles on whole numbers *)

Lemma upto_In (n a : Z) : 0 <= a <= n -> In a (upto n).
Proof.
  intros Ha. unfold upto. apply in_map_iff. exists (Z.to_nat a).
  split; [lia|]. apply in_seq. lia.
Qed.

Lemma whole_sums_exact_spec (n : Z) :
  whole_sums_exact n = true ->
  forall a b, 0 <= a -> 0 <= b -> a + b <= n ->
              PrimFloat.add (whole a) (whole b) = whole (a + b).
Proof.
  unfold whole_sums_exact. intros H a b Ha Hb Hab.
  rewrite forallb_forall in H.
  specialize (H a (upto_In n a ltac:(lia))). rewrite forallb_forall in H.
  specialize (H b (upto_In (n - a) b ltac:(lia))).
  now apply FloatAxioms.Leibniz.eqb_spec in H.
Qed.

Lemma whole_truthy_spec (n : Z) :
  whole_truthy n = true ->
  forall a, 0 < a <= n -> truthy (JSNumber := Float64) (whole a) = true.
Proof.
  unfold whole_truthy. intros H a Ha.
  rewrite forallb_forall in H.
  specialize (H a (upto_In n a ltac:(lia))).
  apply orb_true_iff in H as [H | H]; [apply Z.eqb_eq in H; lia|exact H].
Qed.

Lemma whole_sums_exact_1000 : whole_sums_exact 1000 = true.
Proof.
  vm_compute. reflexivity.
Qed.

Lemma whole_truthy_1000 : whole_truthy 1000 = true.
Proof.
  vm_compute. reflexivity.
Qed.

(** Up to 1000, doubles add whole numbers without rounding. *)
Lemma Float64_whole_exact : exact_units (N := Float64) whole 1000.
Proof.
  split; [reflexivity|]. split.
  - exact (whole_sums_exact_spec 1000 whole_sums_exact_1000).
  - exact (whole_truthy_spec 1000 whole_truthy_1000).
Qed.

(** C2, as the code has it.  Take a filtered list in which no category is a
    property name that a plain object inherits.  A bucket exists for
    exactly the categories of the records ([Other] standing for an empty
    category).  If no running subtotal of a bucket is [0] or [NaN], each
    bucket value is the sum, from left to right, of the amounts of the
    records of its category, and the bucket values add up to the sum, in
    key order, of those per-category sums.  If moreover the amounts are
    positive whole multiples of a unit, and sums of such multiples up to
    the grand total are formed without rounding, the bucket values add up
    to [totalSpending].  For other amounts the regrouping can change the
    last bits of the sum. *)
Theorem totalsByCategory_buckets {N : JSNumber} (l : list Expense.t) :
  (forall e, In e l -> inherited (cat_of e) = false) ->
  let totals := totalsByCategory l in
  (forall k, In k (Object_keys totals) <-> exists e, In e l /\ cat_of e = k)
  /\ ((forall k, subtotals_truthy (amounts_of k l) = true) ->
      (forall k v, get_own totals k = Some v ->
                   v = JNum (sum_num (amounts_of k l)))
      /\ sum_values (Object_values totals)
         = JNum (sum_num (map (fun k => sum_num (amounts_of k l))
                            (Object_keys totals))))
  /\ (forall (unit : Z -> num) (bound : Z) (w : Expense.t -> Z),
      exact_units unit bound ->
      (forall e, In e l -> 0 < w e /\ Expense.amount e = unit (w e)) ->
      Zsum (map w l) <= bound ->
      (forall k v, get_own totals k = Some v ->
                   v = JNum (sum_num (amounts_of k l)))
      /\ sum_values (Object_values totals) = JNum (totalSpending l)).
Proof.
  intros Hl totals.
  assert (Hproto : forall e, In e l -> cat_of e <> "__proto__").
  { intros e He. apply inherited_not_proto. now apply Hl. }
  assert (Hkeys : forall k,
             In k (Object_keys totals) <-> exists e, In e l /\ cat_of e = k)
    by apply (totals_keys_cover l Hproto).
  assert (Hlook : forall k v, get_own totals k = Some v ->
                    v = JNum (bucket_sum (amounts_of k l))).
  { intros k v. unfold totals. rewrite (totals_lookup l Hl k).
    destruct (str_in k (map cat_of l)); congruence. }
  assert (Hplain : (forall k, subtotals_truthy (amounts_of k l) = true) ->
            (forall k v, get_own totals k = Some v ->
                         v = JNum (sum_num (amounts_of k l)))
            /\ sum_values (Object_values totals)
               = JNum (sum_num (map (fun k => sum_num (amounts_of k l))
                                  (Object_keys totals)))).
  { intros Ht.
    assert (Hsum : forall k v, get_own totals k = Some v ->
                     v = JNum (sum_num (amounts_of k l))).
    { intros k v Hv. rewrite (Hlook k v Hv).
      now rewrite bucket_sum_no_restart. }
    split; [exact Hsum|]. now apply bucket_values_listed. }
  split; [exact Hkeys|]. split; [exact Hplain|].
  intros unit bound w Hu Hw Hb.
  assert (Hpos : forall e, In e l -> 0 < w e) by (intros e He; now apply Hw).
  assert (Hamt : forall e, In e l -> Expense.amount e = unit (w e))
    by (intros e He; now apply Hw).
  assert (Hle : forall k, Zsum (units_of w k l) <= bound).
  { intros k. pose proof (units_of_le w l k Hpos). lia. }
  assert (Ht : forall k, subtotals_truthy (amounts_of k l) = true).
  { intros k. rewrite (amounts_of_units unit w l k Hamt).
    apply (subtotals_truthy_units unit bound Hu);
      [now apply units_of_pos|apply Hle]. }
  destruct (Hplain Ht) as [Hsum Hvals].
  split; [exact Hsum|]. rewrite Hvals. f_equal.
  assert (Hnd : NoDup (Object_keys totals)).
  { eapply Permutation_NoDup;
      [symmetry; apply Object_keys_perm|now apply totals_wf]. }
  assert (Hcover : forall e, In e l -> In (cat_of e) (Object_keys totals)).
  { intros e He. apply Hkeys. now exists e. }
  assert (Hparts : map (fun k => sum_num (amounts_of k l)) (Object_keys totals)
                   = map unit (map (fun k => Zsum (units_of w k l))
                                 (Object_keys totals))).
  { rewrite map_map. apply map_ext. intros k.
    rewrite (amounts_of_units unit w l k Hamt).
    apply (sum_num_units unit bound Hu); [|apply Hle].
    eapply Forall_impl; [|apply (units_of_pos w l k Hpos)]. cbn. intros; lia. }
  rewrite Hparts.
  rewrite (sum_num_units unit bound Hu).
  - rewrite (units_partition w l _ Hnd Hcover).
    unfold totalSpending. rewrite totalSpending_from.
    fold (sum_num (map Expense.amount l)).
    replace (map Expense.amount l) with (map unit (map w l))
      by (rewrite map_map; apply map_ext_in; intros e He;
          symmetry; now apply Hamt).
    symmetry. apply (sum_num_units unit bound Hu); [|exact Hb].
    apply Forall_forall. intros z Hz. apply in_map_iff in Hz as (e & <- & He).
    specialize (Hpos e He). lia.
  - apply Forall_forall. intros z Hz. apply in_map_iff in Hz as (k & <- & _).
    apply Zsum_nonneg.
    eapply Forall_impl; [|apply (units_of_pos w l k Hpos)]. cbn. intros; lia.
  - rewrite (units_partition w l _ Hnd Hcover). exact Hb.
Qed.

Lemma totalsByCategory_buckets_witness :
  (get_own (totalsByCategory Sample.food_books_food) "Books"
   = Some (JNum (sum_num (amounts_of "Books" Sample.food_books_food))))
  /\ sum_values (Object_values (totalsByCategory Sample.three_rows))
     = JNum (totalSpending Sample.three_rows)
  /\ totalSpending Sample.three_rows = 35%float.
Proof.
  split; [|split; [|reflexivity]].
  - assert (H : forall e, In e Sample.food_books_food ->
                          inherited (cat_of e) = false).
    { intros e [<- | [<- | [<- | []]]]; reflexivity. }
    destruct (totalsByCategory_buckets Sample.food_books_food H)
      as (_ & H2 & _).
    assert (Ht : forall k,
               subtotals_truthy (amounts_of k Sample.food_books_food) = true).
    { intros k. unfold Sample.food_books_food.
      rewrite !amounts_of_cons.
      change (amounts_of k []) with (@nil float).
      cbn [cat_of Expense.category Expense.amount JSString.is_empty].
      destruct (String.eqb "Food" k), (String.eqb "Books" k); reflexivity. }
    rewrite <- (proj1 (H2 Ht) "Books" _ eq_refl).
    reflexivity.
  - assert (H : forall e, In e Sample.three_rows ->
                          inherited (cat_of e) = false).
    { intros e [<- | [<- | [<- | []]]]; reflexivity. }
    destruct (totalsByCategory_buckets Sample.three_rows H) as (_ & _ & H3).
    apply (H3 whole 1000 Sample.three_rows_units Float64_whole_exact).
    + intros e [<- | [<- | [<- | []]]]; split; reflexivity.
    + vm_compute. discriminate.
Defined.

(** C2 fails as stated: for amounts 0.10 (Food), 0.20 (Books) and 2.20
    (Food), [totalSpending] is [0.1 + 0.2 + 2.2 = 2.5] while the buckets
    [0.1 + 2.2] and [0.2] add up to the next double above 2.5. *)
Lemma bucket_total_counterexample :
  totalSpending Sample.food_books_food = 2.5%float
  /\ (exists x,
        sum_values (Object_values (totalsByCategory Sample.food_books_food))
        = JNum x
        /\ PrimFloat.ltb 2.5%float x = true)
  /\ sum_values (Object_values (totalsByCategory Sample.food_books_food))
     <> JNum (totalSpending Sample.food_books_food).
Proof.
  split; [reflexivity|]. split.
  - eexists. split; reflexivity.
  - intros H.
    assert (E : match sum_values
                        (Object_values (totalsByCategory Sample.food_books_food))
                with
                | JNum x => PrimFloat.eqb x (totalSpending Sample.food_books_food)
                | _ => false
                end = false) by reflexivity.
    rewrite H in E. vm_compute in E. discriminate.
Qed.

(** The totals of three sample rows, and of the rows of their week when the
    clock is UTC. *)
Example three_rows_totals :
  totalSpending Sample.three_rows = 35%float
  /\ totalsByCategory Sample.three_rows
     = [("Food", JNum 30%float); ("Books", JNum 5%float)]
  /\ map name (pieChartData (totalsByCategory Sample.three_rows))
     = ["Food"; "Books"]
  /\ map Expense.id
       (filteredExpenses 0 (fun _ => None) "week" Sample.wednesday_noon
          Sample.three_rows)
     = [3].
Proof.
  repeat split.
Qed.

(** What the hypothesis on inherited names keeps out: a row whose category
    is [__proto__] gets no bucket, and the bucket of the category
    [constructor] is a text, not a number. *)
Example inherited_names_break_buckets :
  totalsByCategory Sample.proto_row = []
  /\ totalSpending Sample.proto_row = 5%float
  /\ totalsByCategory Sample.constructor_rows
     = [("constructor",
         JStr [PFun "constructor"; PNum 5%float; PNum 7%float])].
Proof.
  repeat split.
Qed.

(* ================================================================== *)
(** * Today's rows under the week and month filters *)

(** ** The calendar *)

(** [days_from_civil] undoes [civil_from_days]. *)
Lemma civil_round_trip (z : Z) :
  let '(y, m, d) := JSDate.civil_from_days z in JSDate.days_from_civil y m d = z.
Proof.
  unfold JSDate.civil_from_days, JSDate.days_from_civil.
  set (z1 := z + 719468).
  set (era := z1 / 146097).
  set (doe := z1 - era * 146097).
  assert (Hdoe : 0 <= doe < 146097).
  { unfold doe, era. pose proof (Z.mod_pos_bound z1 146097 ltac:(lia)).
    pose proof (Z.div_mod z1 146097 ltac:(lia)). lia. }
  set (yoe := (doe - doe / 1460 + doe / 36524 - doe / 146096) / 365).
  assert (Hyoe : 0 <= yoe <= 399).
  { unfold yoe. clearbody doe. Z.to_euclidean_division_equations. lia. }
  set (doy := doe - (365 * yoe + yoe / 4 - yoe / 100)).
  set (mp := (5 * doy + 2) / 153).
  assert (Hdoy : 0 <= doy <= 365).
  { unfold doy, yoe. clearbody doe. Z.to_euclidean_division_equations. lia. }
  assert (Hmp : 0 <= mp <= 11).
  { unfold mp. clearbody doy. Z.to_euclidean_division_equations. lia. }
  assert (Hera : (yoe + era * 400) / 400 = era).
  { clearbody yoe era. Z.to_euclidean_division_equations. lia. }
  clearbody mp.
  destruct (mp <? 10) eqn:E1.
  - apply Z.ltb_lt in E1.
    destruct (mp + 3 <=? 2) eqn:E2; [apply Z.leb_le in E2; lia|].
    destruct (2 <? mp + 3) eqn:E3; [|apply Z.ltb_ge in E3; lia].
    rewrite Hera. replace (yoe + era * 400 - era * 400) with yoe by lia.
    replace (mp + 3 - 3) with mp by lia. unfold doy, doe, z1. lia.
  - apply Z.ltb_ge in E1.
    destruct (mp - 9 <=? 2) eqn:E2; [|apply Z.leb_gt in E2; lia].
    destruct (2 <? mp - 9) eqn:E3; [apply Z.ltb_lt in E3; lia|].
    replace (yoe + era * 400 + 1 - 1) with (yoe + era * 400) by lia.
    rewrite Hera. replace (yoe + era * 400 - era * 400) with yoe by lia.
    replace (mp - 9 + 9) with mp by lia. unfold doy, doe, z1. lia.
Qed.

Lemma is_leap_shift (y k : Z) : JSDate.is_leap (y + k * 400) = JSDate.is_leap y.
Proof.
  unfold JSDate.is_leap.
  replace ((y + k * 400) mod 4) with (y mod 4)
    by (Z.to_euclidean_division_equations; lia).
  replace ((y + k * 400) mod 100) with (y mod 100)
    by (Z.to_euclidean_division_equations; lia).
  replace ((y + k * 400) mod 400) with (y mod 400)
    by (Z.to_euclidean_division_equations; lia).
  reflexivity.
Qed.

(** [civil_from_days] yields a month and a day that exist. *)
Lemma civil_valid (z : Z) :
  let '(y, m, d) := JSDate.civil_from_days z in
  1 <= m <= 12 /\ 1 <= d <= JSDate.days_in_month y m.
Proof.
  unfold JSDate.civil_from_days.
  set (z1 := z + 719468).
  set (era := z1 / 146097).
  set (doe := z1 - era * 146097).
  assert (Hdoe : 0 <= doe < 146097).
  { unfold doe, era. pose proof (Z.mod_pos_bound z1 146097 ltac:(lia)).
    pose proof (Z.div_mod z1 146097 ltac:(lia)). lia. }
  clearbody doe. clearbody era.
  set (yoe := (doe - doe / 1460 + doe / 36524 - doe / 146096) / 365).
  set (doy := doe - (365 * yoe + yoe / 4 - yoe / 100)).
  assert (Hyoe : 0 <= yoe <= 399).
  { unfold yoe. Z.to_euclidean_division_equations. lia. }
  assert (Hdoy : 0 <= doy <= 365).
  { unfold doy, yoe. Z.to_euclidean_division_equations. lia. }
  assert (Hleap : doy = 365 -> JSDate.is_leap (yoe + 1) = true).
  { intros E. unfold JSDate.is_leap.
    assert (((yoe + 1) mod 4 = 0 /\ (yoe + 1) mod 100 <> 0) \/ (yoe + 1) mod 400 = 0) as [[H4 H100]|H400].
    { unfold doy, yoe in *. Z.to_euclidean_division_equations. lia. }
    - apply Z.eqb_eq in H4. apply Z.eqb_neq in H100. now rewrite H4, H100.
    - apply Z.eqb_eq in H400. rewrite H400. apply orb_true_r. }
  clearbody doy. clearbody yoe.
  set (mp := (5 * doy + 2) / 153).
  assert (Hmp : 0 <= mp <= 11 /\ 153 * mp <= 5 * doy + 2 < 153 * mp + 153).
  { unfold mp. Z.to_euclidean_division_equations. lia. }
  set (m := if mp <? 10 then mp + 3 else mp - 9).
  assert (Hm : m = mp + 3 /\ mp < 10 \/ m = mp - 9 /\ 10 <= mp).
  { unfold m. destruct (Z.ltb_spec mp 10); lia. }
  clearbody m. clearbody mp.
  split; [lia|]. split; [Z.to_euclidean_division_equations; lia|].
  unfold JSDate.days_in_month.
  destruct (Z.eqb_spec m 2) as [E2|E2].
  - destruct (Z.leb_spec m 2); [|lia].
    replace (yoe + era * 400 + 1) with (yoe + 1 + era * 400) by lia.
    rewrite is_leap_shift.
    destruct (JSDate.is_leap (yoe + 1)) eqn:E.
    + Z.to_euclidean_division_equations; lia.
    + assert (doy <> 365) by (intros E'; specialize (Hleap E'); congruence).
      Z.to_euclidean_division_equations; lia.
  - destruct (Z.eqb_spec m 4), (Z.eqb_spec m 6), (Z.eqb_spec m 9),
      (Z.eqb_spec m 11); cbn [orb];
      Z.to_euclidean_division_equations; lia.
Qed.

Lemma days_from_civil_day (y m d : Z) :
  JSDate.days_from_civil y m d = JSDate.days_from_civil y m 1 + d - 1.
Proof.
  unfold JSDate.days_from_civil. lia.
Qed.

Lemma days_from_civil_year_low (y m d : Z) :
  1 <= m <= 12 -> 1 <= d <= 31 -> y <= 1969 -> JSDate.days_from_civil y m d < 0.
Proof.
  intros Hm Hd Hy. unfold JSDate.days_from_civil.
  destruct (Z.leb_spec m 2), (Z.ltb_spec 2 m); try lia;
    Z.to_euclidean_division_equations; lia.
Qed.

Lemma days_from_civil_year_high (y m d : Z) :
  1 <= m <= 12 -> 1 <= d <= 31 -> 10000 <= y ->
  2932897 <= JSDate.days_from_civil y m d.
Proof.
  intros Hm Hd Hy. unfold JSDate.days_from_civil.
  destruct (Z.leb_spec m 2), (Z.ltb_spec 2 m); try lia;
    Z.to_euclidean_division_equations; lia.
Qed.

Lemma days_in_month_le_31 (y m : Z) : JSDate.days_in_month y m <= 31.
Proof.
  unfold JSDate.days_in_month.
  destruct (m =? 2); [destruct (JSDate.is_leap y); lia|].
  destruct (_ || _); lia.
Qed.

Lemma civil_year_range (z : Z) :
  0 <= z < 2932897 ->
  let '(y, _, _) := JSDate.civil_from_days z in 1970 <= y <= 9999.
Proof.
  intros Hz.
  pose proof (civil_round_trip z) as Hrt. pose proof (civil_valid z) as Hv.
  destruct (JSDate.civil_from_days z) as [[y m] d].
  destruct Hv as [Hm Hd]. pose proof (days_in_month_le_31 y m).
  destruct (Z.le_gt_cases y 1969) as [Hlo|Hlo].
  - pose proof (days_from_civil_year_low y m d Hm ltac:(lia) Hlo). lia.
  - destruct (Z.le_gt_cases 10000 y) as [Hhi|Hhi]; [|lia].
    pose proof (days_from_civil_year_high y m d Hm ltac:(lia) Hhi). lia.
Qed.

Lemma MakeDay_same_month (t dd : Z) :
  JSDate.MakeDay (JSDate.YearFromTime t) (JSDate.MonthFromTime t) dd
  = JSDate.Day t - JSDate.DateFromTime t + dd.
Proof.
  unfold JSDate.MakeDay, JSDate.YearFromTime, JSDate.MonthFromTime,
    JSDate.DateFromTime.
  pose proof (civil_round_trip (JSDate.Day t)) as Hrt.
  pose proof (civil_valid (JSDate.Day t)) as Hv.
  destruct (JSDate.civil_from_days (JSDate.Day t)) as [[y m] d].
  destruct Hv as [Hm _].
  rewrite (Z.div_small (m - 1) 12), (Z.mod_small (m - 1) 12) by lia.
  replace (y + 0) with y by lia. replace (m - 1 + 1) with m by lia.
  rewrite (days_from_civil_day y m d) in Hrt. lia.
Qed.

Lemma Day_of_midnight (D : Z) : JSDate.Day (D * JSDate.msPerDay) = D.
Proof.
  unfold JSDate.Day. apply Z.div_mul. discriminate.
Qed.

Lemma TimeWithinDay_of_midnight (D : Z) :
  JSDate.TimeWithinDay (D * JSDate.msPerDay) = 0.
Proof.
  unfold JSDate.TimeWithinDay. apply Z.mod_mul. discriminate.
Qed.

Lemma midnight_le (t : Z) : JSDate.Day t * JSDate.msPerDay <= t.
Proof.
  unfold JSDate.Day. rewrite Z.mul_comm. apply Z.mul_div_le. reflexivity.
Qed.

(** ** In UTC *)

Lemma UTC_fields_of_today (now : Z) :
  0 <= now < 253402300800000 ->
  JSDate.Date_of_fields 0 (JSDate.getFullYear 0 now) (JSDate.getMonth 0 now)
    (JSDate.getDate 0 now)
  = JSDate.Day now * JSDate.msPerDay.
Proof.
  intros Hnow.
  unfold JSDate.Date_of_fields, JSDate.getFullYear, JSDate.getMonth,
    JSDate.getDate, JSDate.LocalTime, JSDate.UTC, JSDate.MakeDate.
  rewrite !Z.add_0_r.
  assert (Hy : 1970 <= JSDate.YearFromTime now <= 9999).
  { assert (HD : 0 <= JSDate.Day now < 2932897).
    { unfold JSDate.Day, JSDate.msPerDay. Z.to_euclidean_division_equations. lia. }
    pose proof (civil_year_range _ HD) as H. unfold JSDate.YearFromTime.
    now destruct (JSDate.civil_from_days (JSDate.Day now)) as [[y m] d]. }
  replace ((0 <=? JSDate.YearFromTime now) && (JSDate.YearFromTime now <=? 99))
    with false
    by (symmetry; apply andb_false_iff; right; apply Z.leb_gt; lia).
  rewrite MakeDay_same_month. lia.
Qed.

Lemma UTC_getStartOfWeek (now : Z) :
  0 <= now < 253402300800000 ->
  exists diff, 0 <= diff <= 6
    /\ getStartOfWeek 0 now = (JSDate.Day now - diff) * JSDate.msPerDay.
Proof.
  intros Hnow. unfold getStartOfWeek. rewrite (UTC_fields_of_today now Hnow).
  set (d0 := JSDate.Day now * JSDate.msPerDay).
  exists ((JSDate.getDay 0 d0 + 6) mod 7). split.
  - pose proof (Z.mod_pos_bound (JSDate.getDay 0 d0 + 6) 7 ltac:(lia)). lia.
  - unfold JSDate.setDate, JSDate.getDate, JSDate.LocalTime, JSDate.UTC,
      JSDate.MakeDate.
    rewrite !Z.add_0_r, MakeDay_same_month. unfold d0.
    rewrite Day_of_midnight, TimeWithinDay_of_midnight. lia.
Qed.

Lemma UTC_getStartOfMonth (now : Z) :
  0 <= now < 253402300800000 ->
  getStartOfMonth 0 now <= JSDate.Day now * JSDate.msPerDay.
Proof.
  intros Hnow. unfold getStartOfMonth.
  unfold JSDate.Date_of_fields, JSDate.getFullYear, JSDate.getMonth,
    JSDate.LocalTime, JSDate.UTC, JSDate.MakeDate.
  rewrite !Z.add_0_r.
  assert (Hy : 1970 <= JSDate.YearFromTime now <= 9999).
  { assert (HD : 0 <= JSDate.Day now < 2932897).
    { unfold JSDate.Day, JSDate.msPerDay. Z.to_euclidean_division_equations. lia. }
    pose proof (civil_year_range _ HD) as H. unfold JSDate.YearFromTime.
    now destruct (JSDate.civil_from_days (JSDate.Day now)) as [[y m] d]. }
  replace ((0 <=? JSDate.YearFromTime now) && (JSDate.YearFromTime now <=? 99))
    with false
    by (symmetry; apply andb_false_iff; right; apply Z.leb_gt; lia).
  rewrite MakeDay_same_month.
  assert (1 <= JSDate.DateFromTime now).
  { unfold JSDate.DateFromTime. pose proof (civil_valid (JSDate.Day now)) as Hv.
    destruct (JSDate.civil_from_days (JSDate.Day now)) as [[y m] d]. lia. }
  unfold JSDate.msPerDay. lia.
Qed.

(** ** Dates as text *)

Lemma N_of_digit_char (n : Z) :
  N_of_ascii (JSString.digit_char n) = Z.to_N (48 + n mod 10).
Proof.
  unfold JSString.digit_char. apply N_ascii_embedding.
  pose proof (Z.mod_pos_bound n 10 ltac:(lia)). lia.
Qed.

Lemma is_digit_digit_char (n : Z) :
  JSString.is_digit (JSString.digit_char n) = true.
Proof.
  unfold JSString.is_digit. rewrite N_of_digit_char.
  pose proof (Z.mod_pos_bound n 10 ltac:(lia)).
  apply andb_true_iff. split; apply N.leb_le; lia.
Qed.

Lemma digit_val_digit_char (n : Z) :
  JSString.digit_val (JSString.digit_char n) = n mod 10.
Proof.
  unfold JSString.digit_val. rewrite N_of_digit_char.
  pose proof (Z.mod_pos_bound n 10 ltac:(lia)). lia.
Qed.

Lemma iso_date_parses (y m d : Z) :
  0 <= y <= 9999 -> 1 <= m <= 12 -> 1 <= d <= JSDate.days_in_month y m ->
  JSDate.parse_date_only
    (JSString.pad 4 y ++ "-" ++ JSString.pad 2 m ++ "-" ++ JSString.pad 2 d)%string
  = Some (JSDate.MakeDate (JSDate.MakeDay y (m - 1) d) 0).
Proof.
  intros Hy Hm Hd. pose proof (days_in_month_le_31 y m) as H31.
  cbn [JSString.pad append]. unfold JSDate.parse_date_only.
  cbn [JSString.all_digits JSString.digits_val].
  rewrite !is_digit_digit_char, !digit_val_digit_char.
  change (Ascii.eqb "-" "-") with true. cbn [andb].
  replace (10 * (10 * (10 * (10 * 0 + (y / 10 / 10 / 10) mod 10)
                       + (y / 10 / 10) mod 10) + (y / 10) mod 10) + y mod 10)
    with y by (Z.to_euclidean_division_equations; lia).
  replace (10 * (10 * 0 + (m / 10) mod 10) + m mod 10)
    with m by (Z.to_euclidean_division_equations; lia).
  replace (10 * (10 * 0 + (d / 10) mod 10) + d mod 10)
    with d by (Z.to_euclidean_division_equations; lia).
  replace ((1 <=? m) && (m <=? 12) && (1 <=? d) && (d <=? JSDate.days_in_month y m))
    with true; [reflexivity|].
  symmetry. repeat (apply andb_true_iff; split); apply Z.leb_le; lia.
Qed.

Lemma iso_date_of_now (now : Z) :
  0 <= now < 253402300800000 ->
  JSDate.parse_date_only (JSString.slice0 10 (JSDate.toISOString now))
  = Some (JSDate.Day now * JSDate.msPerDay).
Proof.
  intros Hnow.
  assert (HD : 0 <= JSDate.Day now < 2932897).
  { unfold JSDate.Day, JSDate.msPerDay. Z.to_euclidean_division_equations. lia. }
  pose proof (civil_year_range _ HD) as Hy.
  pose proof (civil_round_trip (JSDate.Day now)) as Hrt.
  pose proof (civil_valid (JSDate.Day now)) as Hv.
  unfold JSDate.toISOString.
  destruct (JSDate.civil_from_days (JSDate.Day now)) as [[y m] d].
  destruct Hv as [Hm Hd].
  replace ((0 <=? y) && (y <=? 9999)) with true
    by (symmetry; apply andb_true_iff; split; apply Z.leb_le; lia).
  match goal with
  | |- JSDate.parse_date_only (JSString.slice0 10 ?s) = _ =>
      replace (JSString.slice0 10 s)
        with (JSString.pad 4 y ++ "-" ++ JSString.pad 2 m ++ "-"
                ++ JSString.pad 2 d)%string
        by reflexivity
  end.
  rewrite iso_date_parses by lia.
  unfold JSDate.MakeDay, JSDate.MakeDate.
  rewrite (Z.div_small (m - 1) 12), (Z.mod_small (m - 1) 12) by lia.
  replace (y + 0) with y by lia. replace (m - 1 + 1) with m by lia.
  rewrite (days_from_civil_day y m d) in Hrt.
  f_equal. lia.
Qed.

(** Where the clock is UTC, from 1970 to the end of the year 9999, a row
    that carries today's date as [addExpense] writes it passes both the
    [week] and the [month] filter. *)
Lemma today_included_in_UTC {N : JSNumber} (parse_other : string -> option Z)
    (now : Z) (l : list Expense.t) (e : Expense.t) :
  0 <= now < 253402300800000 ->
  In e l ->
  Expense.date e = JSString.slice0 10 (JSDate.toISOString now) ->
  In e (filteredExpenses 0 parse_other "week" now l)
  /\ In e (filteredExpenses 0 parse_other "month" now l).
Proof.
  intros Hnow He Hdate.
  assert (Hparse : JSDate.Date_of_string parse_other (Expense.date e)
                   = Some (JSDate.Day now * JSDate.msPerDay)).
  { unfold JSDate.Date_of_string. now rewrite Hdate, iso_date_of_now. }
  pose proof (midnight_le now) as Hle.
  unfold filteredExpenses. cbn [String.eqb Ascii.eqb Bool.eqb].
  split; apply filter_In; (split; [exact He|]); unfold in_range; rewrite Hparse;
    apply andb_true_iff; split; apply Z.leb_le; try exact Hle.
  - destruct (UTC_getStartOfWeek now Hnow) as (diff & Hdiff & ->).
    unfold JSDate.msPerDay. lia.
  - now apply UTC_getStartOfMonth.
Qed.

(** C4 at a failing input.  The device is five hours west of Greenwich and
    it is Monday 2024-01-01, 10:00 local time (15:00 UTC): the calendar
    date is 2024-01-01 both in UTC, which is the date [addExpense] would
    store now, and in local time.  [new Date("2024-01-01")] is midnight
    UTC, five hours before the local midnight from which both
    [getStartOfWeek] and [getStartOfMonth] count, so a row dated today is
    filtered out under [week] and under [month]. *)
Theorem today_excluded_west_of_UTC (parse_other : string -> option Z) :
  let tz := Sample.utc_minus_5 in
  let now := Sample.monday_morning in
  JSString.slice0 10 (JSDate.toISOString now) = "2024-01-01"
  /\ (JSDate.getFullYear tz now, JSDate.getMonth tz now, JSDate.getDate tz now)
     = (2024, 0, 1)
  /\ JSDate.getDay tz now = 1
  /\ map Expense.date Sample.dated_today = ["2024-01-01"]
  /\ getStartOfWeek tz now = now - 10 * 3600000
  /\ getStartOfMonth tz now = now - 10 * 3600000
  /\ JSDate.Date_of_string parse_other "2024-01-01" = Some (now - 15 * 3600000)
  /\ filteredExpenses tz parse_other "week" now Sample.dated_today = []
  /\ filteredExpenses tz parse_other "month" now Sample.dated_today = [].
Proof.
  repeat split.
Qed.


(* ================================================================== *)
(** * The list that is shown *)


Lemma string_compare_refl (s : string) : String.compare s s = Eq.
Proof.
  induction s as [|c s IH]; cbn; [reflexivity|].
  unfold Ascii.compare. now rewrite N.compare_refl.
Qed.


Section Shown.

Context {N : JSNumber}.



Lemma insert_row_perm (a : Expense.t) (l : list Expense.t) :
  Permutation (insert_row a l) (a :: l).
Proof.
  induction l as [|b l IH]; cbn; [reflexivity|].
  destruct (row_before a b); [reflexivity|].
  rewrite IH. apply perm_swap.
Qed.


Lemma getAllAsync_perm (db : store) : Permutation (getAllAsync db) (rows db).
Proof.
  unfold getAllAsync. induction (rows db) as [|a l IH]; cbn; [reflexivity|].
  rewrite insert_row_perm. now constructor.
Qed.



End Shown.

Section StoreFacts.

Context {N : JSNumber}.

Lemma ids_update (a : num) (c : string) (n : option string) (d : string)
    (i : Z) (l : list Expense.t) :
  map Expense.id
    (map (fun r => if Expense.id r =? i then Expense.mk i a c n d else r) l)
  = map Expense.id l.
Proof.
  rewrite map_map. apply map_ext. intros r.
  destruct (Expense.id r =? i) eqn:E; [|reflexivity].
  apply Z.eqb_eq in E. now rewrite E.
Qed.

Lemma ids_delete (i : Z) (l : list Expense.t) :
  map Expense.id (List.filter (fun r => negb (Expense.id r =? i)) l)
  = List.filter (fun j => negb (j =? i)) (map Expense.id l).
Proof.
  induction l as [|r l IH]; cbn; [reflexivity|].
  destruct (Expense.id r =? i); cbn; now rewrite IH.
Qed.

Lemma runAsync_store_ok (q : statement) (db : store) :
  store_ok db -> store_ok (runAsync q db).
Proof.
  unfold store_ok, ids. intros [Hnd Hle].
  destruct q as [a c n d | a c n d i | i]; cbn.
  - rewrite map_app. cbn. split.
    + apply NoDup_app; [exact Hnd|repeat constructor; intros []|].
      intros j Hj [<- | []]. rewrite Forall_forall in Hle.
      specialize (Hle _ Hj). lia.
    + apply Forall_app. split.
      * eapply Forall_impl; [|exact Hle]. cbn. intros; lia.
      * repeat constructor. lia.
  - now rewrite ids_update.
  - rewrite ids_delete. split.
    + now apply NoDup_filter.
    + rewrite Forall_forall in *. intros j Hj.
      apply filter_In in Hj. now apply Hle.
Qed.

Lemma fold_runAsync_store_ok (qs : list statement) (db : store) :
  store_ok db -> store_ok (fold_left (fun db q => runAsync q db) qs db).
Proof.
  revert db. induction qs as [|q qs IH]; intros db H; cbn; [exact H|].
  now apply IH, runAsync_store_ok.
Qed.

End StoreFacts.

(** X2.  Ids stay unique.  If the ids of the table are pairwise distinct and
    none exceeds the AUTOINCREMENT counter, the same holds after
    [addExpense], after [saveEdit] and after [deleteExpense], whatever the
    forms contain; and an INSERT gives the new row an id that no row of the
    table has, one above the counter. *)
Theorem handlers_keep_ids_unique {N : JSNumber} (parseFloat : string -> num)
    (s : State.t) :
  store_ok (State.db s) ->
  (forall now, store_ok (State.db (fst (addExpense parseFloat now s))))
  /\ store_ok (State.db (fst (saveEdit parseFloat s)))
  /\ (forall i, store_ok (State.db (fst (deleteExpense i s))))
  /\ (forall a c n d,
        ~ In (seq (State.db s) + 1) (ids (State.db s))
        /\ ids (runAsync (INSERT a c n d) (State.db s))
           = ids (State.db s) ++ [seq (State.db s) + 1]).
Proof.
  intros H. split; [|split; [|split]].
  - intros now. rewrite addExpense_db. now apply fold_runAsync_store_ok.
  - rewrite saveEdit_db. now apply fold_runAsync_store_ok.
  - intros i. cbn. apply (runAsync_store_ok (DELETE i)) in H. exact H.
  - intros a c n d. split.
    + intros Hin. destruct H as [_ H]. rewrite Forall_forall in H.
      specialize (H _ Hin). lia.
    + unfold ids. cbn. now rewrite map_app.
Qed.

Lemma handlers_keep_ids_unique_witness :
  store_ok (State.db (fst (addExpense Sample.parseFloat64 0
                             (Sample.adding "12.5" "Food" "x"))))
  /\ ids (State.db (fst (addExpense Sample.parseFloat64 0
                             (Sample.adding "12.5" "Food" "x")))) = [1; 2].
Proof.
  split; [|reflexivity].
  assert (H : store_ok (State.db (Sample.adding "12.5" "Food" "x"))).
  { split; cbn.
    - repeat constructor. intros [].
    - constructor; [lia|constructor]. }
  exact (proj1 (handlers_keep_ids_unique Sample.parseFloat64 _ H) 0).
Defined.

Section HandlerEffects.

Context {N : JSNumber}.
Variable parseFloat : string -> num.



End HandlerEffects.


(* ================================================================== *)
(** * What an accepted submission changes *)

Section Submissions.

Context {N : JSNumber}.
Variable parseFloat : string -> num.


(** X6.  An accepted [saveEdit] keeps the ids of the table, in the same
    order, and the counter; every row whose id is not that of the edited
    expense is in the table afterwards exactly if it was before.  If the
    edited expense is no longer in the table (it was deleted while the form
    was open) the table keeps its rows: nothing is inserted.  The form is
    closed, and the add form, the filter and the texts of the edit form are
    left alone. *)
Theorem saveEdit_rewrites_one_id (s : State.t) (e : Expense.t) :
  State.editingExpense s = Some e ->
  amount_rejected parseFloat (State.editAmount s) = false ->
  JSString.is_empty (JSString.trim (State.editCategory s)) = false ->
  JSString.is_empty (JSString.trim (State.editDate s)) = false ->
  let s' := fst (saveEdit parseFloat s) in
  ids (State.db s') = ids (State.db s)
  /\ seq (State.db s') = seq (State.db s)
  /\ (forall r, Expense.id r <> Expense.id e ->
                (In r (rows (State.db s')) <-> In r (rows (State.db s))))
  /\ (~ In (Expense.id e) (ids (State.db s)) ->
      rows (State.db s') = rows (State.db s))
  /\ State.editingExpense s' = None
  /\ (State.amount s', State.category s', State.note s', State.filter s',
      State.editAmount s', State.editCategory s', State.editNote s',
      State.editDate s')
     = (State.amount s, State.category s, State.note s, State.filter s,
        State.editAmount s, State.editCategory s, State.editNote s,
        State.editDate s).
Proof.
  intros He Ha Hc Hd. cbv zeta.
  destruct (saveEdit_accepts parseFloat s e He Ha Hc Hd) as [_ Hdb].
  rewrite Hdb.
  split; [apply ids_update|]. split; [reflexivity|].
  split; [|split; [|split]].
  - intros r Hne. cbn. rewrite in_map_iff. split.
    + intros (r0 & E & Hr0).
      destruct (Expense.id r0 =? Expense.id e) eqn:Eid.
      * subst r. cbn in Hne. contradiction.
      * now subst r0.
    + intros Hr. exists r. split; [|exact Hr].
      apply Z.eqb_neq in Hne. now rewrite Hne.
  - intros Hi. cbn.
    rewrite <- (map_id (rows (State.db s))) at 2.
    apply map_ext_in. intros r Hr.
    destruct (Expense.id r =? Expense.id e) eqn:Eid; [|reflexivity].
    apply Z.eqb_eq in Eid. exfalso. apply Hi. unfold ids.
    rewrite <- Eid. now apply in_map.
  - unfold saveEdit, amount_rejected in *. now rewrite He, Ha, Hc, Hd.
  - unfold saveEdit, amount_rejected in *. now rewrite He, Ha, Hc, Hd.
Qed.

(** X7.  The checks run in a fixed order and the first that fails names the
    alert: the amount before the category, the category before the date
    (the date only on edit).  So a bad amount is reported even when the
    category is blank as well.  A statement is sent exactly when every
    check passes, and [saveEdit] with no expense open does nothing at all,
    whatever the fields hold. *)
Theorem validation_reports_first_failure (s : State.t) :
  (forall now,
      (amount_rejected parseFloat (State.amount s) = true ->
       snd (addExpense parseFloat now s)
       = [Alert "Amount must be a positive number."])
      /\ (amount_rejected parseFloat (State.amount s) = false ->
          JSString.is_empty (JSString.trim (State.category s)) = true ->
          snd (addExpense parseFloat now s) = [Alert "Category is required."])
      /\ ((exists q, In (Run q) (snd (addExpense parseFloat now s)))
          <-> amount_rejected parseFloat (State.amount s) = false
              /\ JSString.is_empty (JSString.trim (State.category s)) = false))
  /\ (forall e,
        State.editingExpense s = Some e ->
        (amount_rejected parseFloat (State.editAmount s) = true ->
         snd (saveEdit parseFloat s)
         = [Alert "Amount must be a positive number."])
        /\ (amount_rejected parseFloat (State.editAmount s) = false ->
            JSString.is_empty (JSString.trim (State.editCategory s)) = true ->
            snd (saveEdit parseFloat s) = [Alert "Category is required."])
        /\ (amount_rejected parseFloat (State.editAmount s) = false ->
            JSString.is_empty (JSString.trim (State.editCategory s)) = false ->
            JSString.is_empty (JSString.trim (State.editDate s)) = true ->
            snd (saveEdit parseFloat s)
            = [Alert "Date is required (YYYY-MM-DD)."])
        /\ ((exists q, In (Run q) (snd (saveEdit parseFloat s)))
            <-> amount_rejected parseFloat (State.editAmount s) = false
                /\ JSString.is_empty (JSString.trim (State.editCategory s))
                   = false
                /\ JSString.is_empty (JSString.trim (State.editDate s))
                   = false))
  /\ (State.editingExpense s = None -> saveEdit parseFloat s = (s, [])).
Proof.
  split; [|split].
  - intros now. unfold addExpense, amount_rejected.
    destruct (_ || _).
    + split; [reflexivity|]. split; [discriminate|].
      split; [intros [q [H|[]]]; discriminate|intros [H _]; discriminate].
    + destruct (JSString.is_empty _).
      * split; [discriminate|]. split; [reflexivity|].
        split; [intros [q [H|[]]]; discriminate|intros [_ H]; discriminate].
      * split; [discriminate|]. split; [discriminate|].
        split; [now split|]. intros _. eexists. left. reflexivity.
  - intros e He. unfold saveEdit, amount_rejected. rewrite He.
    destruct (_ || _).
    + split; [reflexivity|]. split; [discriminate|]. split; [discriminate|].
      split; [intros [q [H|[]]]; discriminate|intros [H _]; discriminate].
    + destruct (JSString.is_empty (JSString.trim (State.editCategory s))).
      * split; [discriminate|]. split; [reflexivity|]. split; [discriminate|].
        split; [intros [q [H|[]]]; discriminate|].
        intros (_ & H & _); discriminate.
      * destruct (JSString.is_empty (JSString.trim (State.editDate s))).
        -- split; [discriminate|]. split; [discriminate|].
           split; [reflexivity|].
           split; [intros [q [H|[]]]; discriminate|].
           intros (_ & _ & H); discriminate.
        -- split; [discriminate|]. split; [discriminate|].
           split; [discriminate|].
           split; [now repeat split|]. intros _. eexists. left. reflexivity.
  - unfold saveEdit. now intros ->.
Qed.

Lemma or_null_trimmed (x : string) :
  match or_null (JSString.trim x) with
  | Some t => trimmed t /\ t <> EmptyString
  | None => True
  end.
Proof.
  unfold or_null. destruct (JSString.is_empty (JSString.trim x)) eqn:E;
    [exact I|].
  split; [apply trim_idempotent|].
  intros H. rewrite H in E. discriminate.
Qed.

(** X8.  Whatever [addExpense] or [saveEdit] writes carries no white space
    at either end of its category, of its date (on edit) and of its note,
    and a note that is written is not the empty string. *)
Theorem written_strings_are_trimmed (s : State.t) (q : statement) :
  (forall now, In q (statements (snd (addExpense parseFloat now s))) ->
               statement_trimmed q)
  /\ (In q (statements (snd (saveEdit parseFloat s))) -> statement_trimmed q).
Proof.
  split.
  - intros now H. apply addExpense_statement in H as (_ & _ & ->). cbn.
    split; [apply trim_idempotent|apply or_null_trimmed].
  - intros H. apply saveEdit_statement in H as (e & _ & _ & _ & _ & ->). cbn.
    split; [apply trim_idempotent|].
    split; [apply trim_idempotent|apply or_null_trimmed].
Qed.

End Submissions.


Lemma saveEdit_rewrites_one_id_witness :
  ids (State.db (fst (saveEdit Sample.parseFloat64
                        (Sample.editing "40" "Food" "x" "2024-01-02"))))
  = ids (State.db (Sample.editing "40" "Food" "x" "2024-01-02")).
Proof.
  exact (proj1 (saveEdit_rewrites_one_id (N := Float64) Sample.parseFloat64
                  (Sample.editing "40" "Food" "x" "2024-01-02") Sample.lunch
                  eq_refl eq_refl eq_refl eq_refl)).
Defined.

(* ================================================================== *)
(** * Opening the edit form and saving it untouched *)

Lemma same_id_same_row {N : JSNumber} (l : list Expense.t) (a b : Expense.t) :
  NoDup (map Expense.id l) -> In a l -> In b l ->
  Expense.id a = Expense.id b -> a = b.
Proof.
  induction l as [|r l IH]; cbn; [intros _ []|].
  intros Hnd Ha Hb E. inversion Hnd as [|? ? Hnotin Hnd']; subst.
  destruct Ha as [-> | Ha], Hb as [-> | Hb].
  - reflexivity.
  - exfalso. apply Hnotin. rewrite E. now apply in_map.
  - exfalso. apply Hnotin. rewrite <- E. now apply in_map.
  - now apply IH.
Qed.

Lemma trimmed_nonempty (x : string) :
  trimmed x -> x <> EmptyString ->
  JSString.is_empty (JSString.trim x) = false.
Proof.
  unfold trimmed. intros -> H. destruct x; [contradiction|reflexivity].
Qed.

Lemma note_round_trip (n : option string) :
  match n with Some t => trimmed t /\ t <> EmptyString | None => True end ->
  or_null (JSString.trim (note_or_empty n)) = n.
Proof.
  destruct n as [[|c t]|]; [intros [_ H]; contradiction| |reflexivity].
  intros [Ht _]. unfold trimmed in Ht.
  change (note_or_empty (Some (String c t))) with (String c t).
  unfold or_null. rewrite !Ht. reflexivity.
Qed.

(** X9.  Opening the edit form on a row of the table and saving at once
    rewrites the row with its own values, so the table keeps its rows.
    This needs unique ids, a row whose strings carry no outer white space,
    with a category and a date that are not empty and a note that is absent
    or not empty, and an amount that is positive and that [parseFloat]
    reads back from its [String] text.  The form is closed afterwards. *)
Theorem edit_without_change_keeps_store {N : JSNumber}
    (String_of_num : num -> string) (parseFloat : string -> num)
    (s : State.t) (e : Expense.t) :
  store_ok (State.db s) ->
  In e (rows (State.db s)) ->
  row_canonical e ->
  parseFloat (String_of_num (Expense.amount e)) = Expense.amount e ->
  isNaN (Expense.amount e) = false ->
  leb (Expense.amount e) zero = false ->
  let r := saveEdit parseFloat (startEditing String_of_num e s) in
  snd r = [Run (UPDATE (Expense.amount e) (Expense.category e)
                  (Expense.note e) (Expense.date e) (Expense.id e))]
  /\ rows (State.db (fst r)) = rows (State.db s)
  /\ State.editingExpense (fst r) = None.
Proof.
  intros [Hnd _] Hin (Hc & Hc' & Hd & Hd' & Hn) Hparse Hnan Hle. cbv zeta.
  set (s1 := startEditing String_of_num e s).
  assert (He : State.editingExpense s1 = Some e) by reflexivity.
  assert (Ha : amount_rejected parseFloat (State.editAmount s1) = false).
  { unfold amount_rejected. change (State.editAmount s1)
      with (String_of_num (Expense.amount e)).
    now rewrite Hparse, Hnan, Hle. }
  assert (Hcat : JSString.is_empty (JSString.trim (State.editCategory s1)) = false)
    by now apply trimmed_nonempty.
  assert (Hdate : JSString.is_empty (JSString.trim (State.editDate s1)) = false)
    by now apply trimmed_nonempty.
  destruct (saveEdit_accepts parseFloat s1 e He Ha Hcat Hdate) as [Hq Hdb].
  change (State.editAmount s1) with (String_of_num (Expense.amount e)) in *.
  change (State.editCategory s1) with (Expense.category e) in *.
  change (State.editDate s1) with (Expense.date e) in *.
  change (State.editNote s1) with (note_or_empty (Expense.note e)) in *.
  change (State.db s1) with (State.db s) in *.
  pose proof (note_round_trip (Expense.note e) Hn) as Hnote.
  rewrite Hparse, Hc, Hd, Hnote in Hq, Hdb.
  split; [exact Hq|]. split.
  - rewrite Hdb. cbn.
    rewrite <- (map_id (rows (State.db s))) at 2.
    apply map_ext_in. intros r Hr.
    destruct (Expense.id r =? Expense.id e) eqn:Eid; [|reflexivity].
    apply Z.eqb_eq in Eid.
    rewrite (same_id_same_row _ r e Hnd Hr Hin Eid). now destruct e.
  - unfold saveEdit, amount_rejected in *. rewrite He.
    change (State.editAmount s1) with (String_of_num (Expense.amount e)).
    change (State.editCategory s1) with (Expense.category e).
    change (State.editDate s1) with (Expense.date e).
    unfold trimmed in Hc, Hd. rewrite Hparse, Hnan, Hle, Hc, Hd. cbn [orb].
    destruct (Expense.category e); [contradiction|].
    destruct (Expense.date e); [contradiction|]. reflexivity.
Qed.

Lemma edit_without_change_keeps_store_witness :
  let r := saveEdit Sample.parseFloat64
             (startEditing (fun _ => "12.5") Sample.lunch
                (Sample.adding EmptyString EmptyString EmptyString)) in
  snd r = [Run (UPDATE 12.5%float "Food" (Some "lunch") "2024-01-01" 1)]
  /\ rows (State.db (fst r)) = [Sample.lunch]
  /\ State.editingExpense (fst r) = None.
Proof.
  apply (edit_without_change_keeps_store (N := Float64) (fun _ => "12.5")
           Sample.parseFloat64 (Sample.adding EmptyString EmptyString EmptyString) Sample.lunch).
  - split; cbn; [repeat constructor; intros []|constructor; [lia|constructor]].
  - now left.
  - repeat split; discriminate.
  - reflexivity.
  - reflexivity.
  - reflexivity.
Defined.

(** X10.  [startEditing] opens the edit form and touches neither the table,
    the list on screen, the add form nor the filter.  After Cancel the
    table and the list are as before and a save does nothing.  A save
    leaves the form open exactly when it stopped at an alert, the state
    being then the one it was given; with the form open, it closes the
    form exactly when it sent its UPDATE. *)
Theorem edit_form_opens_and_closes {N : JSNumber}
    (String_of_num : num -> string) (parseFloat : string -> num)
    (s : State.t) :
  (forall e,
      let s1 := startEditing String_of_num e s in
      modalVisible s1 = true
      /\ (State.db s1, State.expenses s1, State.amount s1, State.category s1,
          State.note s1, State.filter s1)
         = (State.db s, State.expenses s, State.amount s, State.category s,
            State.note s, State.filter s)
      /\ saveEdit parseFloat (cancelEdit s1) = (cancelEdit s1, [])
      /\ State.db (cancelEdit s1) = State.db s
      /\ State.expenses (cancelEdit s1) = State.expenses s)
  /\ (modalVisible (fst (saveEdit parseFloat s)) = true
      <-> exists msg, saveEdit parseFloat s = (s, [Alert msg])
                      /\ modalVisible s = true)
  /\ (modalVisible s = true ->
      modalVisible (fst (saveEdit parseFloat s)) = false
      <-> exists q, snd (saveEdit parseFloat s) = [Run q]).
Proof.
  split; [|split].
  - intros e. cbv zeta. repeat split.
  - unfold saveEdit, modalVisible.
    destruct (State.editingExpense s) as [e|] eqn:He.
    + destruct (_ || _).
      { cbn [fst]. rewrite He. split; [eauto|reflexivity]. }
      destruct (JSString.is_empty (JSString.trim (State.editCategory s))).
      { cbn [fst]. rewrite He. split; [eauto|reflexivity]. }
      destruct (JSString.is_empty (JSString.trim (State.editDate s))).
      { cbn [fst]. rewrite He. split; [eauto|reflexivity]. }
      cbn. split; [discriminate|]. intros (msg & H & _). discriminate.
    + cbn [fst]. rewrite He. split; [discriminate|].
      intros (msg & H & _). discriminate.
  - unfold saveEdit, modalVisible.
    destruct (State.editingExpense s) as [e|] eqn:He; [|discriminate].
    intros _.
    destruct (_ || _).
    { cbn [fst snd]. rewrite He. split; [discriminate|].
      intros [q H]. discriminate. }
    destruct (JSString.is_empty (JSString.trim (State.editCategory s))).
    { cbn [fst snd]. rewrite He. split; [discriminate|].
      intros [q H]. discriminate. }
    destruct (JSString.is_empty (JSString.trim (State.editDate s))).
    { cbn [fst snd]. rewrite He. split; [discriminate|].
      intros [q H]. discriminate. }
    cbn. split; [eauto|reflexivity].
Qed.

(* ================================================================== *)
(** * The start of the week and of the month, in any zone *)

(** [civil_from_days] undoes [days_from_civil] on the days that exist. *)
Lemma civil_of_days_from_civil (y m d : Z) :
  1 <= m <= 12 -> 1 <= d <= JSDate.days_in_month y m ->
  JSDate.civil_from_days (JSDate.days_from_civil y m d) = (y, m, d).
Proof.
  intros Hm Hd.
  unfold JSDate.days_from_civil.
  set (y' := if m <=? 2 then y - 1 else y).
  set (era := y' / 400).
  set (yoe := y' - era * 400).
  set (mp := if 2 <? m then m - 3 else m + 9).
  assert (Hyoe : 0 <= yoe <= 399).
  { unfold yoe, era. pose proof (Z.mod_pos_bound y' 400 ltac:(lia)).
    pose proof (Z.div_mod y' 400 ltac:(lia)). lia. }
  assert (Hmp : 0 <= mp <= 11 /\ (m = mp + 3 /\ mp <= 9 \/ m = mp - 9 /\ 10 <= mp)).
  { unfold mp. destruct (Z.ltb_spec 2 m); lia. }
  assert (Hleap : JSDate.is_leap y = JSDate.is_leap (yoe + (if m <=? 2 then 1 else 0))).
  { rewrite <- (is_leap_shift (yoe + (if m <=? 2 then 1 else 0)) era).
    f_equal. unfold yoe, y'. destruct (m <=? 2); lia. }
  set (doy := (153 * mp + 2) / 5 + d - 1).
  assert (Hdoy1 : 0 <= doy <= 365 /\ 153 * mp <= 5 * doy + 2 < 153 * mp + 153).
  { unfold doy. unfold JSDate.days_in_month in Hd.
    destruct (Z.eqb_spec m 2) as [E2|E2].
    - assert (1 <= d <= 29) by (destruct (JSDate.is_leap y); lia).
      clear Hd Hleap. clearbody mp yoe era y'.
      Z.to_euclidean_division_equations. lia.
    - destruct (Z.eqb_spec m 4), (Z.eqb_spec m 6), (Z.eqb_spec m 9),
        (Z.eqb_spec m 11); cbn [orb] in Hd; clear Hleap;
        clearbody mp yoe era y';
        Z.to_euclidean_division_equations; lia. }
  assert (Hdoy2 : doy = 365 -> JSDate.is_leap (yoe + 1) = true).
  { intros E. unfold doy in E.
    assert (H31 : 1 <= d <= 31) by (pose proof (days_in_month_le_31 y m); lia).
    assert (m = 2 /\ d = 29) as [-> ->]
      by (clear Hleap Hd; clearbody mp yoe era y';
          Z.to_euclidean_division_equations; lia).
    cbn in Hleap, Hd. rewrite <- Hleap.
    destruct (JSDate.is_leap y); [reflexivity|lia]. }
  assert (Hdoy : 0 <= doy <= 365 /\ 153 * mp <= 5 * doy + 2 < 153 * mp + 153
                 /\ (doy = 365 -> JSDate.is_leap (yoe + 1) = true))
    by (destruct Hdoy1; auto).
  assert (Hdoyeq : doy = (153 * mp + 2) / 5 + d - 1) by reflexivity.
  clearbody doy.
  set (doe := yoe * 365 + yoe / 4 - yoe / 100 + doy).
  assert (Hdoe : 0 <= doe <= 146096).
  { unfold doe. destruct Hdoy as (Hr & _ & Hl).
    destruct (Z.eq_dec doy 365) as [E|E].
    - specialize (Hl E). unfold JSDate.is_leap in Hl.
      destruct (Z.eqb_spec ((yoe + 1) mod 4) 0), (Z.eqb_spec ((yoe + 1) mod 100) 0),
        (Z.eqb_spec ((yoe + 1) mod 400) 0); cbn in Hl; try discriminate;
        Z.to_euclidean_division_equations; lia.
    - Z.to_euclidean_division_equations; lia. }
  unfold JSDate.civil_from_days.
  replace (era * 146097 + doe - 719468 + 719468) with (era * 146097 + doe) by lia.
  assert (E1 : (era * 146097 + doe) / 146097 = era).
  { clearbody doe era. Z.to_euclidean_division_equations. lia. }
  rewrite E1. replace (era * 146097 + doe - era * 146097) with doe by lia.
  assert (E2 : (doe - doe / 1460 + doe / 36524 - doe / 146096) / 365 = yoe).
  { unfold doe in *. destruct Hdoy as (Hr & _ & Hl).
    destruct (Z.eq_dec doy 365) as [E|E].
    - specialize (Hl E). unfold JSDate.is_leap in Hl.
      destruct (Z.eqb_spec ((yoe + 1) mod 4) 0), (Z.eqb_spec ((yoe + 1) mod 100) 0),
        (Z.eqb_spec ((yoe + 1) mod 400) 0); cbn in Hl; try discriminate;
        clear Hleap; clearbody yoe; 
        Z.to_euclidean_division_equations; lia.
    - clear Hleap Hl. clearbody yoe. Z.to_euclidean_division_equations; lia. }
  rewrite E2.
  replace (doe - (365 * yoe + yoe / 4 - yoe / 100)) with doy by (unfold doe; lia).
  assert (E3 : (5 * doy + 2) / 153 = mp).
  { destruct Hdoy as (_ & Hr & _). clearbody mp. Z.to_euclidean_division_equations. lia. }
  rewrite E3.
  assert (Hy : y = yoe + era * 400 + (if m <=? 2 then 1 else 0)).
  { unfold yoe, y'. destruct (m <=? 2); lia. }
  destruct Hmp as [_ [[Em Hlt] | [Em Hge]]].
  - destruct (Z.ltb_spec mp 10); [|lia].
    destruct (Z.leb_spec (mp + 3) 2); [lia|].
    destruct (Z.leb_spec m 2); [lia|].
    f_equal; [f_equal|]; lia.
  - destruct (Z.ltb_spec mp 10); [lia|].
    destruct (Z.leb_spec (mp - 9) 2); [|lia].
    destruct (Z.leb_spec m 2); [|lia].
    f_equal; [f_equal|]; lia.
Qed.

Lemma civil_year_lower (z : Z) :
  0 <= z -> let '(y, _, _) := JSDate.civil_from_days z in 1970 <= y.
Proof.
  intros Hz.
  pose proof (civil_round_trip z) as Hrt. pose proof (civil_valid z) as Hv.
  destruct (JSDate.civil_from_days z) as [[y m] d].
  destruct Hv as [Hm Hd]. pose proof (days_in_month_le_31 y m).
  destruct (Z.le_gt_cases y 1969) as [Hlo|Hlo]; [|lia].
  pose proof (days_from_civil_year_low y m d Hm ltac:(lia) Hlo). lia.
Qed.

Lemma Day_nonneg (t : Z) : 0 <= t -> 0 <= JSDate.Day t.
Proof.
  intros H. unfold JSDate.Day, JSDate.msPerDay. now apply Z.div_pos.
Qed.

Section AnyZone.

Variable LocalTZA : Z.

(** [new Date(y, m, dd)] for the local year and month of [t]. *)
Lemma Date_of_fields_this_month (t dd : Z) :
  0 <= t + LocalTZA ->
  JSDate.Date_of_fields LocalTZA (JSDate.getFullYear LocalTZA t)
    (JSDate.getMonth LocalTZA t) dd
  = (JSDate.Day (t + LocalTZA) - JSDate.DateFromTime (t + LocalTZA) + dd)
      * JSDate.msPerDay - LocalTZA.
Proof.
  intros Ht.
  unfold JSDate.Date_of_fields, JSDate.getFullYear, JSDate.getMonth,
    JSDate.LocalTime, JSDate.UTC, JSDate.MakeDate.
  assert (Hy : 1970 <= JSDate.YearFromTime (t + LocalTZA)).
  { pose proof (civil_year_lower _ (Day_nonneg _ Ht)) as H.
    unfold JSDate.YearFromTime.
    now destruct (JSDate.civil_from_days (JSDate.Day (t + LocalTZA)))
      as [[y m] d]. }
  replace ((0 <=? JSDate.YearFromTime (t + LocalTZA))
           && (JSDate.YearFromTime (t + LocalTZA) <=? 99))
    with false
    by (symmetry; apply andb_false_iff; right; apply Z.leb_gt; lia).
  rewrite MakeDay_same_month. lia.
Qed.

Lemma local_midnight (D : Z) :
  JSDate.LocalTime LocalTZA (D * JSDate.msPerDay - LocalTZA)
  = D * JSDate.msPerDay.
Proof.
  unfold JSDate.LocalTime. lia.
Qed.

Lemma getStartOfWeek_value (now : Z) :
  0 <= now + LocalTZA ->
  getStartOfWeek LocalTZA now
  = (JSDate.Day (now + LocalTZA)
     - ((JSDate.Day (now + LocalTZA) + 4) mod 7 + 6) mod 7)
      * JSDate.msPerDay - LocalTZA.
Proof.
  intros Hnow. set (D := JSDate.Day (now + LocalTZA)).
  assert (Hd0 : JSDate.Date_of_fields LocalTZA (JSDate.getFullYear LocalTZA now)
                  (JSDate.getMonth LocalTZA now) (JSDate.getDate LocalTZA now)
                = D * JSDate.msPerDay - LocalTZA).
  { rewrite (Date_of_fields_this_month now _ Hnow).
    unfold JSDate.getDate, JSDate.LocalTime. fold D. f_equal. f_equal. lia. }
  unfold getStartOfWeek. rewrite Hd0.
  unfold JSDate.setDate, JSDate.getDate, JSDate.getDay, JSDate.WeekDay,
    JSDate.UTC, JSDate.MakeDate.
  rewrite !local_midnight, MakeDay_same_month.
  rewrite !Day_of_midnight, TimeWithinDay_of_midnight. lia.
Qed.

Lemma getStartOfWeek_is_last_monday_aux (now : Z) :
  0 <= now + LocalTZA ->
  getStartOfWeek LocalTZA now <= now
  /\ now - getStartOfWeek LocalTZA now < 7 * JSDate.msPerDay.
Proof.
  intros Hnow. rewrite (getStartOfWeek_value now Hnow).
  set (D := JSDate.Day (now + LocalTZA)).
  pose proof (midnight_le (now + LocalTZA)) as Hle. fold D in Hle.
  assert (Hlt : now + LocalTZA < (D + 1) * JSDate.msPerDay).
  { unfold D, JSDate.Day, JSDate.msPerDay.
    Z.to_euclidean_division_equations. lia. }
  clearbody D. unfold JSDate.msPerDay in *.
  split; Z.to_euclidean_division_equations; lia.
Qed.

Lemma getStartOfMonth_is_first_of_month_aux (now : Z) :
  0 <= now + LocalTZA ->
  getStartOfMonth LocalTZA now <= now
  /\ now - getStartOfMonth LocalTZA now < 31 * JSDate.msPerDay.
Proof.
  intros Hnow. unfold getStartOfMonth.
  rewrite (Date_of_fields_this_month now 1 Hnow).
  set (D := JSDate.Day (now + LocalTZA)).
  pose proof (civil_valid D) as Hv.
  pose proof (midnight_le (now + LocalTZA)) as Hle. fold D in Hle.
  assert (Hlt : now + LocalTZA < (D + 1) * JSDate.msPerDay).
  { unfold D, JSDate.Day, JSDate.msPerDay.
    Z.to_euclidean_division_equations. lia. }
  unfold JSDate.DateFromTime. fold D.
  destruct (JSDate.civil_from_days D) as [[y m] d].
  destruct Hv as [Hm Hd]. pose proof (days_in_month_le_31 y m) as H31.
  unfold JSDate.msPerDay in *. lia.
Qed.

(** X11.  In a zone with a fixed offset, from 1970 on in local time,
    [getStartOfWeek] is a local midnight that falls on a Monday, is not
    after the clock and is less than seven days before it: the most recent
    Monday, today included. *)
Theorem getStartOfWeek_is_last_monday (now : Z) :
  0 <= now + LocalTZA ->
  let w := getStartOfWeek LocalTZA now in
  JSDate.getDay LocalTZA w = 1
  /\ JSDate.TimeWithinDay (JSDate.LocalTime LocalTZA w) = 0
  /\ w <= now
  /\ now - w < 7 * JSDate.msPerDay.
Proof.
  intros Hnow. cbv zeta. rewrite (getStartOfWeek_value now Hnow).
  set (D := JSDate.Day (now + LocalTZA)).
  unfold JSDate.getDay, JSDate.WeekDay. rewrite local_midnight.
  rewrite Day_of_midnight, TimeWithinDay_of_midnight.
  pose proof (midnight_le (now + LocalTZA)) as Hle. fold D in Hle.
  assert (Hlt : now + LocalTZA < (D + 1) * JSDate.msPerDay).
  { unfold D, JSDate.Day, JSDate.msPerDay.
    Z.to_euclidean_division_equations. lia. }
  clearbody D. unfold JSDate.msPerDay in *.
  split; [Z.to_euclidean_division_equations; lia|].
  split; [reflexivity|].
  split; Z.to_euclidean_division_equations; lia.
Qed.

(** X12.  In a zone with a fixed offset, from 1970 on in local time,
    [getStartOfMonth] is the local midnight of day 1 of the month and year
    of the clock; it is not after the clock and less than 31 days before
    it. *)
Theorem getStartOfMonth_is_first_of_month (now : Z) :
  0 <= now + LocalTZA ->
  let m := getStartOfMonth LocalTZA now in
  JSDate.getDate LocalTZA m = 1
  /\ JSDate.getMonth LocalTZA m = JSDate.getMonth LocalTZA now
  /\ JSDate.getFullYear LocalTZA m = JSDate.getFullYear LocalTZA now
  /\ JSDate.TimeWithinDay (JSDate.LocalTime LocalTZA m) = 0
  /\ m <= now
  /\ now - m < 31 * JSDate.msPerDay.
Proof.
  intros Hnow. cbv zeta. unfold getStartOfMonth.
  rewrite (Date_of_fields_this_month now 1 Hnow).
  unfold JSDate.getDate, JSDate.getMonth, JSDate.getFullYear,
    JSDate.DateFromTime, JSDate.MonthFromTime, JSDate.YearFromTime.
  rewrite !local_midnight, Day_of_midnight, TimeWithinDay_of_midnight.
  unfold JSDate.LocalTime.
  set (D := JSDate.Day (now + LocalTZA)).
  pose proof (civil_round_trip D) as Hrt. pose proof (civil_valid D) as Hv.
  pose proof (midnight_le (now + LocalTZA)) as Hle. fold D in Hle.
  assert (Hlt : now + LocalTZA < (D + 1) * JSDate.msPerDay).
  { unfold D, JSDate.Day, JSDate.msPerDay.
    Z.to_euclidean_division_equations. lia. }
  destruct (JSDate.civil_from_days D) as [[y m] d].
  destruct Hv as [Hm Hd]. pose proof (days_in_month_le_31 y m) as H31.
  rewrite (days_from_civil_day y m d) in Hrt.
  replace (D - d + 1) with (JSDate.days_from_civil y m 1) by lia.
  rewrite (civil_of_days_from_civil y m 1) by lia.
  replace (JSDate.days_from_civil y m 1) with (D - d + 1) by lia.
  unfold JSDate.msPerDay in *.
  repeat split; lia.
Qed.

End AnyZone.

Lemma getStartOfWeek_is_last_monday_witness :
  JSDate.getDay Sample.utc_minus_5
    (getStartOfWeek Sample.utc_minus_5 Sample.wednesday_noon) = 1
  /\ getStartOfWeek Sample.utc_minus_5 Sample.wednesday_noon
     <= Sample.wednesday_noon.
Proof.
  destruct (getStartOfWeek_is_last_monday Sample.utc_minus_5
              Sample.wednesday_noon) as (H1 & _ & H3 & _).
  - vm_compute. discriminate.
  - split; [exact H1|exact H3].
Defined.

Lemma getStartOfMonth_is_first_of_month_witness :
  JSDate.getDate Sample.utc_minus_5
    (getStartOfMonth Sample.utc_minus_5 Sample.wednesday_noon) = 1
  /\ getStartOfMonth Sample.utc_minus_5 Sample.wednesday_noon
     <= Sample.wednesday_noon.
Proof.
  destruct (getStartOfMonth_is_first_of_month Sample.utc_minus_5
              Sample.wednesday_noon) as (H1 & _ & _ & _ & H5 & _).
  - vm_compute. discriminate.
  - split; [exact H1|exact H5].
Defined.

(* ================================================================== *)
(** * What the filters keep *)

Section FilterSelection.

Context {N : JSNumber}.
Variable LocalTZA : Z.
Variable parse_other : string -> option Z.

Lemma filteredExpenses_as_filter (filter : string) (now : Z)
    (l : list Expense.t) :
  exists keep, filteredExpenses LocalTZA parse_other filter now l
               = List.filter keep l.
Proof.
  unfold filteredExpenses.
  destruct (String.eqb filter "all").
  - exists (fun _ => true). symmetry. apply filter_all.
    now apply Forall_forall.
  - destruct (String.eqb filter "week"); [eauto|].
    destruct (String.eqb filter "month"); [eauto|].
    exists (fun _ => true). symmetry. apply filter_all.
    now apply Forall_forall.
Qed.

Lemma filter_idempotent {A : Type} (f : A -> bool) (l : list A) :
  List.filter f (List.filter f l) = List.filter f l.
Proof.
  apply filter_all. apply Forall_forall. intros x Hx.
  now apply filter_In in Hx.
Qed.

Lemma filter_StronglySorted {A : Type} (R : A -> A -> Prop) (f : A -> bool)
    (l : list A) :
  StronglySorted R l -> StronglySorted R (List.filter f l).
Proof.
  induction 1 as [|x l Hs IH Hx]; cbn; [constructor|].
  destruct (f x); [|exact IH].
  constructor; [exact IH|].
  apply Forall_forall. intros y Hy. apply filter_In in Hy as [Hy _].
  rewrite Forall_forall in Hx. now apply Hx.
Qed.

(** X13.  Whatever the filter, the clock and the zone, [filteredExpenses]
    keeps a sublist of the list it is given, chosen row by row: it adds no
    row, does not lengthen the list, keeps the order of the query if the
    list has it, and filtering its result again with the same filter and
    clock changes nothing. *)
Theorem filteredExpenses_only_removes (filter : string) (now : Z)
    (l : list Expense.t) :
  let shown := filteredExpenses LocalTZA parse_other filter now l in
  (exists keep, shown = List.filter keep l)
  /\ (forall e, In e shown -> In e l)
  /\ (List.length shown <= List.length l)%nat
  /\ (StronglySorted shown_before l -> StronglySorted shown_before shown)
  /\ filteredExpenses LocalTZA parse_other filter now shown = shown.
Proof.
  cbv zeta.
  destruct (filteredExpenses_as_filter filter now l) as [keep Hk].
  split; [eauto|]. split; [|split; [|split]].
  - rewrite Hk. intros e He. now apply filter_In in He.
  - rewrite Hk. apply filter_length_le.
  - rewrite Hk. apply filter_StronglySorted.
  - unfold filteredExpenses.
    destruct (String.eqb filter "all"); [reflexivity|].
    destruct (String.eqb filter "week"); [apply filter_idempotent|].
    destruct (String.eqb filter "month"); [apply filter_idempotent|].
    reflexivity.
Qed.

(** X14.  In a zone with a fixed offset, from 1970 on in local time, every
    row that the [week] filter shows has a date that [new Date] can read,
    not after the clock and less than seven days before it; every row that
    the [month] filter shows has such a date less than 31 days before the
    clock.  Rows whose date cannot be read, and rows dated in the future,
    are never shown by either. *)
Theorem week_and_month_windows (now : Z) (l : list Expense.t) (e : Expense.t) :
  0 <= now + LocalTZA ->
  (In e (filteredExpenses LocalTZA parse_other "week" now l) ->
   exists d, JSDate.Date_of_string parse_other (Expense.date e) = Some d
             /\ now - 7 * JSDate.msPerDay < d <= now)
  /\ (In e (filteredExpenses LocalTZA parse_other "month" now l) ->
      exists d, JSDate.Date_of_string parse_other (Expense.date e) = Some d
                /\ now - 31 * JSDate.msPerDay < d <= now).
Proof.
  intros Hnow.
  destruct (getStartOfWeek_is_last_monday_aux LocalTZA now Hnow) as [Hw1 Hw2].
  destruct (getStartOfMonth_is_first_of_month_aux LocalTZA now Hnow) as [Hm1 Hm2].
  unfold filteredExpenses. cbn [String.eqb Ascii.eqb Bool.eqb].
  split; intros H; apply filter_In in H as [_ H]; unfold in_range in H;
    destruct (JSDate.Date_of_string parse_other (Expense.date e)) as [d|];
    try discriminate; exists d; (split; [reflexivity|]);
    apply andb_true_iff in H as [H1 H2];
    apply Z.leb_le in H1, H2; lia.
Qed.

End FilterSelection.

Lemma week_and_month_windows_witness :
  exists d,
    JSDate.Date_of_string (fun _ => None) "2024-01-15" = Some d
    /\ Sample.wednesday_noon - 7 * JSDate.msPerDay < d <= Sample.wednesday_noon.
Proof.
  apply (proj1 (week_and_month_windows (N := Float64) 0 (fun _ => None)
                  Sample.wednesday_noon Sample.three_rows
                  (Expense.mk (N := Float64) 3 5%float "Books" None "2024-01-15")
                  ltac:(vm_compute; discriminate))).
  vm_compute. left. reflexivity.
Defined.

(* ================================================================== *)
(** * The date a new row is stamped with *)

Lemma stamp_text (now : Z) :
  0 <= now < 253402300800000 ->
  let '(y, m, d) := JSDate.civil_from_days (JSDate.Day now) in
  JSString.slice0 10 (JSDate.toISOString now)
  = (JSString.pad 4 y ++ "-" ++ JSString.pad 2 m ++ "-" ++ JSString.pad 2 d)%string.
Proof.
  intros Hnow.
  assert (HD : 0 <= JSDate.Day now < 2932897).
  { unfold JSDate.Day, JSDate.msPerDay. Z.to_euclidean_division_equations. lia. }
  pose proof (civil_year_range _ HD) as Hy.
  unfold JSDate.toISOString.
  destruct (JSDate.civil_from_days (JSDate.Day now)) as [[y m] d].
  replace ((0 <=? y) && (y <=? 9999)) with true
    by (symmetry; apply andb_true_iff; split; apply Z.leb_le; lia).
  reflexivity.
Qed.

Section Stamp.

Context {N : JSNumber}.
Variable parseFloat : string -> num.
Variable parse_other : string -> option Z.

(** X15.  From 1970 to the end of the year 9999, the date that [addExpense]
    stamps on a new row is the UTC calendar date of the clock, written as
    four, two and two digits with hyphens; [new Date] reads it back as the
    midnight (UTC) that opens the UTC day of the clock. *)
Theorem stamped_date_reads_back (now : Z) (s : State.t) (q : statement) :
  0 <= now < 253402300800000 ->
  In q (statements (snd (addExpense parseFloat now s))) ->
  exists a c n date,
    q = INSERT a c n date
    /\ (let '(y, m, d) := JSDate.civil_from_days (JSDate.Day now) in
        date = (JSString.pad 4 y ++ "-" ++ JSString.pad 2 m ++ "-"
                  ++ JSString.pad 2 d)%string)
    /\ JSDate.Date_of_string parse_other date
       = Some (JSDate.Day now * JSDate.msPerDay)
    /\ JSDate.Day now * JSDate.msPerDay <= now
       < JSDate.Day now * JSDate.msPerDay + JSDate.msPerDay.
Proof.
  intros Hnow Hq. apply addExpense_statement in Hq as (_ & _ & ->).
  eexists _, _, _, _. split; [reflexivity|].
  split; [apply (stamp_text now Hnow)|]. split.
  - unfold JSDate.Date_of_string. now rewrite iso_date_of_now.
  - unfold JSDate.Day, JSDate.msPerDay. Z.to_euclidean_division_equations. lia.
Qed.

(** X16.  Where the clock is UTC, from 1970 to the end of the year 9999, the
    row that an accepted [addExpense] has just written is shown under every
    filter, [week] and [month] included, at the time of the write. *)
Theorem added_row_is_shown_in_UTC (now : Z) (s : State.t) (filter : string) :
  0 <= now < 253402300800000 ->
  amount_rejected parseFloat (State.amount s) = false ->
  JSString.is_empty (JSString.trim (State.category s)) = false ->
  exists r,
    Expense.id r = seq (State.db s) + 1
    /\ In r (filteredExpenses 0 parse_other filter now
               (State.expenses (fst (addExpense parseFloat now s)))).
Proof.
  intros Hnow Ha Hc.
  set (r := Expense.mk (seq (State.db s) + 1) (parseFloat (State.amount s))
              (JSString.trim (State.category s))
              (or_null (JSString.trim (State.note s)))
              (JSString.slice0 10 (JSDate.toISOString now))).
  exists r. split; [reflexivity|].
  assert (Hin : In r (State.expenses (fst (addExpense parseFloat now s)))).
  { unfold addExpense, amount_rejected in *. rewrite Ha, Hc. cbn [fst].
    apply (Permutation_in _ (Permutation_sym (getAllAsync_perm _))).
    cbn. apply in_or_app. right. now left. }
  destruct (today_included_in_UTC parse_other now _ r Hnow Hin eq_refl)
    as [Hweek Hmonth].
  unfold filteredExpenses in *. cbn [String.eqb Ascii.eqb Bool.eqb] in Hweek, Hmonth.
  destruct (String.eqb_spec filter "all"); [exact Hin|].
  destruct (String.eqb_spec filter "week") as [->|]; [exact Hweek|].
  destruct (String.eqb_spec filter "month") as [->|]; [exact Hmonth|].
  exact Hin.
Qed.

End Stamp.

Lemma stamped_date_reads_back_witness :
  exists a c n date,
    INSERT (N := Float64) 12.5%float "Food" None "1970-01-01" = INSERT a c n date
    /\ JSDate.Date_of_string (fun _ => None) date = Some 0.
Proof.
  destruct (stamped_date_reads_back (N := Float64) Sample.parseFloat64
              (fun _ => None) 0 (Sample.adding "12.5" "Food" EmptyString)
              (INSERT (N := Float64) 12.5%float "Food" None "1970-01-01"))
    as (a & c & n & date & E & _ & Hp & _).
  - lia.
  - left. reflexivity.
  - exists a, c, n, date. split; [exact E|exact Hp].
Defined.

Lemma added_row_is_shown_in_UTC_witness :
  exists r,
    Expense.id r = 2
    /\ In r (filteredExpenses 0 (fun _ => None) "week" 1704121200000
               (State.expenses
                  (fst (addExpense Sample.parseFloat64 1704121200000
                          (Sample.adding "12.5" "Food" EmptyString))))).
Proof.
  apply (added_row_is_shown_in_UTC (N := Float64) Sample.parseFloat64
           (fun _ => None) 1704121200000 (Sample.adding "12.5" "Food" EmptyString)
           "week"); [lia|reflexivity|reflexivity].
Defined.

(* ================================================================== *)
(** * West of UTC *)

Section West.

Context {N : JSNumber}.
Variable LocalTZA : Z.
Variable parse_other : string -> option Z.

(** X17.  In every zone west of Greenwich (from 1970 on in local time), a
    row whose date reads as the UTC midnight of the local calendar date of
    the clock is not shown by the [week] filter when the local day is a
    Monday, and not by the [month] filter when the local day is the first
    of the month: the row is earlier than the local midnight from which
    both filters count. *)
Theorem west_of_UTC_today_is_dropped (now : Z) (l : list Expense.t)
    (e : Expense.t) :
  LocalTZA < 0 ->
  0 <= now + LocalTZA ->
  JSDate.Date_of_string parse_other (Expense.date e)
  = Some (JSDate.Day (now + LocalTZA) * JSDate.msPerDay) ->
  (JSDate.getDay LocalTZA now = 1 ->
   ~ In e (filteredExpenses LocalTZA parse_other "week" now l))
  /\ (JSDate.getDate LocalTZA now = 1 ->
      ~ In e (filteredExpenses LocalTZA parse_other "month" now l)).
Proof.
  intros Htz Hnow Hparse.
  unfold filteredExpenses. cbn [String.eqb Ascii.eqb Bool.eqb].
  split; intros Hday Hin; apply filter_In in Hin as [_ Hin];
    unfold in_range in Hin; rewrite Hparse in Hin;
    apply andb_true_iff in Hin as [Hin _]; apply Z.leb_le in Hin.
  - rewrite (getStartOfWeek_value LocalTZA now Hnow) in Hin.
    unfold JSDate.getDay, JSDate.WeekDay, JSDate.LocalTime in Hday.
    rewrite Hday in Hin. change ((1 + 6) mod 7) with 0 in Hin.
    unfold JSDate.msPerDay in Hin. lia.
  - assert (Hm : getStartOfMonth LocalTZA now
                 = (JSDate.Day (now + LocalTZA)
                    - JSDate.DateFromTime (now + LocalTZA) + 1)
                   * JSDate.msPerDay - LocalTZA)
      by (unfold getStartOfMonth;
          exact (Date_of_fields_this_month LocalTZA now 1 Hnow)).
    assert (Hd : JSDate.DateFromTime (now + LocalTZA) = 1) by exact Hday.
    rewrite Hm, Hd in Hin. unfold JSDate.msPerDay in Hin. lia.
Qed.

End West.

Lemma west_of_UTC_today_is_dropped_witness :
  ~ In (Expense.mk (N := Float64) 1 12.5%float "Food" None "2024-01-01")
       (filteredExpenses Sample.utc_minus_5 (fun _ => None) "week"
          Sample.monday_morning Sample.dated_today).
Proof.
  apply (proj1 (west_of_UTC_today_is_dropped (N := Float64)
                  Sample.utc_minus_5 (fun _ => None) Sample.monday_morning
                  Sample.dated_today
                  (Expense.mk (N := Float64) 1 12.5%float "Food" None
                     "2024-01-01")
                  ltac:(reflexivity) ltac:(vm_compute; discriminate)
                  ltac:(reflexivity))).
  reflexivity.
Defined.

(* ================================================================== *)
(** * Buckets for every list *)

Section AllLists.

Context {N : JSNumber}.

Lemma add_to_totals_proto (T : jsobj) (e : Expense.t) :
  cat_of e = "__proto__" -> add_to_totals T e = T.
Proof.
  intros E. unfold add_to_totals, Set_. rewrite E. cbn.
  now destruct (negb _).
Qed.

Lemma totals_skip_proto (l : list Expense.t) (T : jsobj) :
  fold_left add_to_totals l T
  = fold_left add_to_totals (List.filter not_proto l) T.
Proof.
  revert T. induction l as [|e l IH]; intros T; cbn; [reflexivity|].
  unfold not_proto at 1.
  destruct (String.eqb_spec (cat_of e) "__proto__") as [E|E]; cbn.
  - rewrite (add_to_totals_proto T e E). apply IH.
  - apply IH.
Qed.

Lemma not_proto_cat (l : list Expense.t) (e : Expense.t) :
  In e (List.filter not_proto l) -> cat_of e <> "__proto__".
Proof.
  intros H. apply filter_In in H as [_ H].
  now apply negb_true_iff, String.eqb_neq in H.
Qed.

(** X18.  For every list, rows whose category is [__proto__] leave no trace
    in [totalsByCategory]: the mapping is the one computed from the other
    rows alone, and it never has [__proto__] among its keys. *)
Theorem totalsByCategory_ignores_proto_rows (l : list Expense.t) :
  totalsByCategory l = totalsByCategory (List.filter not_proto l)
  /\ get_own (totalsByCategory l) "__proto__" = None
  /\ ~ In "__proto__" (Object_keys (totalsByCategory l)).
Proof.
  assert (H1 : totalsByCategory l = totalsByCategory (List.filter not_proto l))
    by apply totals_skip_proto.
  assert (Hk : ~ In "__proto__" (map fst (totalsByCategory l))).
  { rewrite H1, totals_keys by apply not_proto_cat.
    rewrite first_seen_In, in_map_iff. intros (e & E & He).
    now apply (not_proto_cat l e He). }
  split; [exact H1|]. split.
  - apply str_in_false_iff in Hk. rewrite get_own_keys in Hk.
    now destruct (get_own (totalsByCategory l) "__proto__").
  - intros H. apply Hk.
    now apply (Permutation_in _ (Object_keys_perm _)).
Qed.

(** X19.  For every list, whatever else it holds, the bucket of a category
    that is not a name inherited from [Object.prototype] exists exactly
    when a row has that category, and is then the number that the loop
    accumulates over the amounts of those rows in list order.  Rows with
    unusual categories do not disturb the buckets of the others. *)
Theorem bucket_of_ordinary_key (l : list Expense.t) (k : string) :
  inherited k = false ->
  get_own (totalsByCategory l) k
  = if str_in k (map cat_of l)
    then Some (JNum (bucket_sum (amounts_of k l)))
    else None.
Proof.
  intros Hk. induction l as [|e l IH] using rev_ind; [reflexivity|].
  unfold totalsByCategory in *. rewrite fold_left_app. cbn [fold_left].
  rewrite map_app, str_in_app, amounts_of_snoc. cbn [map str_in existsb].
  rewrite orb_false_r, (String.eqb_sym k).
  destruct (String.eqb (cat_of e) k) eqn:E.
  - apply String.eqb_eq in E. rewrite orb_true_r.
    assert (He : inherited (cat_of e) = false) by now rewrite E.
    rewrite <- E in IH |- *.
    destruct (str_in (cat_of e) (map cat_of l)) eqn:Hin.
    + rewrite (add_to_totals_old _ _ _ He IH). now rewrite bucket_sum_snoc.
    + rewrite (add_to_totals_new _ _ He IH).
      rewrite (amounts_of_absent _ _ Hin). cbn [app].
      now rewrite bucket_sum_single.
  - apply String.eqb_neq in E.
    rewrite add_to_totals_other by congruence.
    rewrite orb_false_r, app_nil_r. apply IH.
Qed.

Lemma proto_function_not_proto (k : string) :
  str_in k proto_functions = true -> String.eqb k "__proto__" = false.
Proof.
  intros H. apply str_in_iff in H. apply String.eqb_neq. intros ->.
  cbn in H. repeat (destruct H as [H | H]; [discriminate|]). exact H.
Qed.

Lemma add_to_totals_function_new (T : jsobj) (e : Expense.t) :
  str_in (cat_of e) proto_functions = true ->
  get_own T (cat_of e) = None ->
  get_own (add_to_totals T e) (cat_of e)
  = Some (JStr [PFun (cat_of e); PNum (Expense.amount e)]).
Proof.
  intros Hf Hg. pose proof (proto_function_not_proto _ Hf) as Hp.
  unfold add_to_totals, Set_, Get. rewrite !Hp, !Hg, !Hf.
  cbn [ToBoolean negb]. rewrite get_own_set_own_same, ?Hg, ?Hp, ?Hf.
  reflexivity.
Qed.

Lemma add_to_totals_function_old (T : jsobj) (e : Expense.t) (p : piece)
    (ps : list piece) :
  String.eqb (cat_of e) "__proto__" = false ->
  get_own T (cat_of e) = Some (JStr (p :: ps)) ->
  get_own (add_to_totals T e) (cat_of e)
  = Some (JStr ((p :: ps) ++ [PNum (Expense.amount e)])).
Proof.
  intros Hp Hg.
  unfold add_to_totals, Set_, Get. rewrite !Hp, !Hg. cbn [ToBoolean negb].
  rewrite get_own_set_own_same, ?Hg. reflexivity.
Qed.

(** X20.  For every list, the bucket of a category that is the name of a
    function inherited from [Object.prototype] ([constructor], [toString],
    ...) is not a number: it is the text of that function followed by the
    amounts of the rows of that category, in list order, and exists exactly
    when a row has that category. *)
Theorem bucket_of_function_name_is_text (l : list Expense.t) (k : string) :
  str_in k proto_functions = true ->
  get_own (totalsByCategory l) k
  = if str_in k (map cat_of l)
    then Some (JStr (PFun k :: map PNum (amounts_of k l)))
    else None.
Proof.
  intros Hk. pose proof (proto_function_not_proto _ Hk) as Hp.
  induction l as [|e l IH] using rev_ind; [reflexivity|].
  unfold totalsByCategory in *. rewrite fold_left_app. cbn [fold_left].
  rewrite map_app, str_in_app, amounts_of_snoc. cbn [map str_in existsb].
  rewrite orb_false_r, (String.eqb_sym k).
  destruct (String.eqb (cat_of e) k) eqn:E.
  - apply String.eqb_eq in E. rewrite orb_true_r.
    rewrite <- E in IH, Hk, Hp |- *.
    destruct (str_in (cat_of e) (map cat_of l)) eqn:Hin.
    + rewrite (add_to_totals_function_old _ _ _ _ Hp IH).
      now rewrite map_app.
    + rewrite (add_to_totals_function_new _ _ Hk IH).
      now rewrite (amounts_of_absent _ _ Hin).
  - apply String.eqb_neq in E.
    rewrite add_to_totals_other by congruence.
    rewrite orb_false_r, app_nil_r. apply IH.
Qed.

End AllLists.

Lemma bucket_of_ordinary_key_witness :
  get_own (totalsByCategory
             (Sample.constructor_rows ++ Sample.proto_row ++ Sample.three_rows))
    "Food"
  = Some (JNum 30%float).
Proof.
  rewrite (bucket_of_ordinary_key (N := Float64)
             (Sample.constructor_rows ++ Sample.proto_row ++ Sample.three_rows)
             "Food" eq_refl).
  reflexivity.
Defined.

Lemma bucket_of_function_name_is_text_witness :
  get_own (totalsByCategory (Sample.constructor_rows ++ Sample.three_rows))
    "constructor"
  = Some (JStr [PFun "constructor"; PNum 5%float; PNum 7%float]).
Proof.
  rewrite (bucket_of_function_name_is_text (N := Float64)
             (Sample.constructor_rows ++ Sample.three_rows)
             "constructor" eq_refl).
  reflexivity.
Defined.

(* ================================================================== *)
(** * The chart of the totals *)

Section ChartOfTotals.

Context {N : JSNumber}.

Lemma totals_keys_all (l : list Expense.t) :
  map fst (totalsByCategory l)
  = first_seen (map cat_of (List.filter not_proto l)).
Proof.
  unfold totalsByCategory at 1. rewrite totals_skip_proto.
  apply totals_keys, not_proto_cat.
Qed.

Lemma pieChartData_length (T : jsobj) :
  List.length (pieChartData T) = List.length (Object_keys T).
Proof.
  rewrite <- pieChartData_names. now rewrite length_map.
Qed.

(** A bucket is a number, except under the name of a function of
    [Object.prototype], where it is a text that is not empty. *)
Lemma totals_value_kinds (l : list Expense.t) (k : string) (v : jsval) :
  get_own (totalsByCategory l) k = Some v ->
  if str_in k proto_functions
  then exists p ps, v = JStr (p :: ps)
  else exists x, v = JNum x.
Proof.
  revert k v. induction l as [|e l IH] using rev_ind; intros k v;
    [discriminate|].
  unfold totalsByCategory in *. rewrite fold_left_app. cbn [fold_left].
  set (T := fold_left add_to_totals l []) in *.
  destruct (String.eqb_spec (cat_of e) k) as [<-|Hne].
  - destruct (String.eqb_spec (cat_of e) "__proto__") as [Hp|Hp].
    { rewrite (add_to_totals_proto T e Hp). apply IH. }
    apply String.eqb_neq in Hp.
    specialize (IH (cat_of e)).
    destruct (str_in (cat_of e) proto_functions) eqn:Hf.
    + destruct (get_own T (cat_of e)) as [v0|] eqn:Hg.
      * destruct (IH v0 eq_refl) as (p & ps & ->).
        rewrite (add_to_totals_function_old T e p ps Hp Hg).
        intros [= <-]. eexists _, _. reflexivity.
      * rewrite (add_to_totals_function_new T e Hf Hg).
        intros [= <-]. eexists _, _. reflexivity.
    + assert (Hi : inherited (cat_of e) = false)
        by (unfold inherited; now rewrite Hp, Hf).
      destruct (get_own T (cat_of e)) as [v0|] eqn:Hg.
      * destruct (IH v0 eq_refl) as (x & ->).
        rewrite (add_to_totals_old T e x Hi Hg).
        intros [= <-]. eexists. reflexivity.
      * rewrite (add_to_totals_new T e Hi Hg).
        intros [= <-]. eexists. reflexivity.
  - rewrite add_to_totals_other by congruence. apply IH.
Qed.

Lemma totals_wf_all (l : list Expense.t) : wf_obj (totalsByCategory l).
Proof.
  unfold wf_obj. rewrite totals_keys_all. apply first_seen_NoDup.
Qed.

Lemma totals_key_has_row (l : list Expense.t) (k : string) :
  In k (map fst (totalsByCategory l)) <->
  k <> "__proto__" /\ exists e, In e l /\ cat_of e = k.
Proof.
  rewrite totals_keys_all, first_seen_In, in_map_iff. split.
  - intros (e & <- & He). split; [now apply (not_proto_cat l)|].
    apply filter_In in He as [He _]. now exists e.
  - intros (Hk & e & He & <-). exists e. split; [reflexivity|].
    apply filter_In. split; [exact He|].
    now apply negb_true_iff, String.eqb_neq.
Qed.

Lemma map_throwing_None {A B : Type} (f : A -> option B) (l : list A)
    (x : A) :
  In x l -> f x = None -> map_throwing f l = None.
Proof.
  induction l as [|y l IH]; [intros []|].
  intros [-> | Hin] Hx; cbn.
  - now rewrite Hx.
  - destruct (f y); [|reflexivity]. now rewrite (IH Hin Hx).
Qed.

Lemma map_throwing_lines (toFixed2 : num -> string) (chart : list segment) :
  (forall sg, In sg chart -> exists x, population sg = JNum x) ->
  exists lines,
    map_throwing
      (fun entry : string * jsval =>
         let '(cat, total) := entry in
         option_map (pair cat) (toFixed toFixed2 total))
      (map (fun s => (name s, population s)) chart) = Some lines
    /\ Forall2 (fun ln sg =>
                  fst ln = name sg
                  /\ toFixed toFixed2 (population sg) = Some (snd ln))
         lines chart.
Proof.
  induction chart as [|sg chart IH]; intros Hnum.
  - exists []. split; [reflexivity|constructor].
  - destruct (Hnum sg (or_introl eq_refl)) as [x Hx].
    destruct IH as (lines & Hl & HF);
      [intros sg' Hsg'; apply Hnum; now right|].
    exists ((name sg, toFixed2 x) :: lines). cbn [map map_throwing].
    rewrite Hx, Hl. cbn. split; [reflexivity|].
    constructor; [|exact HF]. cbn. now rewrite Hx.
Qed.

(** X21.  For every list of rows, the chart computed from
    [totalsByCategory] has one segment for each category of the list other
    than [__proto__] ([Other] standing for an empty category) and no two
    segments with the same name, and it is empty exactly when every row has
    category [__proto__] (so also for the empty list).  If no category is
    the name of a function of [Object.prototype], the totals box is
    rendered: it shows the line for an empty range exactly when the chart
    is not drawn, and otherwise one line per segment, in the order of the
    segments, with the segment's name and the two-decimal text of its
    value, above the chart.  If some category is such a name, its bucket is
    a text, [toFixed] is not a function of it, and the render throws:
    neither the line, nor the lines, nor the chart is shown. *)
Theorem chart_has_one_segment_per_category (toFixed2 : num -> string)
    (l : list Expense.t) :
  let totals := totalsByCategory l in
  let chart := pieChartData totals in
  NoDup (map name chart)
  /\ (forall k, In k (map name chart)
                <-> k <> "__proto__" /\ exists e, In e l /\ cat_of e = k)
  /\ (chart = [] <-> forall e, In e l -> cat_of e = "__proto__")
  /\ ((forall e, In e l -> str_in (cat_of e) proto_functions = false) ->
      exists p,
        renderSummary toFixed2 (totalSpending l) totals chart = Some p
        /\ totalAmount p = toFixed2 (totalSpending l)
        /\ (byCategory p = NoExpensesInRange <-> chartData p = None)
        /\ (chartData p = None <-> chart = [])
        /\ (forall lines,
              byCategory p = CategoryLines lines ->
              chartData p = Some chart
              /\ Forall2 (fun ln sg =>
                            fst ln = name sg
                            /\ toFixed toFixed2 (population sg)
                               = Some (snd ln))
                   lines chart))
  /\ ((exists e, In e l /\ str_in (cat_of e) proto_functions = true) ->
      renderSummary toFixed2 (totalSpending l) totals chart = None).
Proof.
  cbv zeta.
  assert (Hperm : Permutation (map name (pieChartData (totalsByCategory l)))
                    (first_seen (map cat_of (List.filter not_proto l)))).
  { rewrite pieChartData_names, <- totals_keys_all. apply Object_keys_perm. }
  assert (Hin : forall k,
             In k (map name (pieChartData (totalsByCategory l)))
             <-> k <> "__proto__" /\ exists e, In e l /\ cat_of e = k).
  { intros k. split.
    - intros H. apply (Permutation_in _ Hperm) in H.
      apply (proj1 (first_seen_In _ _)), in_map_iff in H as (e & <- & He).
      split; [now apply (not_proto_cat l)|].
      apply filter_In in He as [He _]. now exists e.
    - intros (Hk & e & He & <-).
      apply (Permutation_in _ (Permutation_sym Hperm)).
      apply first_seen_In, in_map, filter_In. split; [exact He|].
      now apply negb_true_iff, String.eqb_neq. }
  split; [|split; [exact Hin|split; [|split]]].
  - eapply Permutation_NoDup; [symmetry; exact Hperm|apply first_seen_NoDup].
  - split.
    + intros Hnil e He.
      destruct (String.eqb_spec (cat_of e) "__proto__") as [E|E]; [exact E|].
      assert (H : In (cat_of e) (map name (pieChartData (totalsByCategory l))))
        by (apply Hin; eauto).
      rewrite Hnil in H. destruct H.
    + intros Hall.
      destruct (pieChartData (totalsByCategory l)) as [|sg rest] eqn:E;
        [reflexivity|].
      assert (H : In (name sg) (map name (sg :: rest))) by now left.
      apply Hin in H as (Hk & e & He & Hc).
      exfalso. apply Hk. rewrite <- Hc. now apply Hall.
  - intros Hfun. unfold renderSummary.
    rewrite <- (pieChartData_length (totalsByCategory l)).
    rewrite <- (pieChartData_entries (totalsByCategory l)).
    assert (Hnum : forall sg, In sg (pieChartData (totalsByCategory l)) ->
                     exists x, population sg = JNum x).
    { intros sg Hsg.
      assert (He : In (name sg, population sg)
                     (Object_entries (totalsByCategory l))).
      { rewrite <- pieChartData_entries.
        now apply (in_map (fun s => (name s, population s))). }
      apply (Permutation_in _ (Object_entries_perm _)) in He.
      assert (Hk : In (name sg) (map fst (totalsByCategory l)))
        by (change (name sg) with (fst (name sg, population sg));
            now apply in_map).
      apply totals_key_has_row in Hk as (_ & e & Hel & Hc).
      apply (In_get_own _ _ _ (totals_wf_all l)) in He.
      apply totals_value_kinds in He.
      rewrite <- Hc, (Hfun e Hel) in He. exact He. }
    destruct (map_throwing_lines toFixed2 _ Hnum) as (lines & Hl & HF).
    destruct (pieChartData (totalsByCategory l)) as [|sg rest] eqn:E.
    + cbn. eexists. split; [reflexivity|]. cbn.
      split; [reflexivity|]. split; [tauto|]. split; [tauto|].
      intros lines' H. discriminate.
    + rewrite Hl. cbn [List.length Nat.eqb Nat.ltb Nat.leb option_map].
      eexists. split; [reflexivity|]. cbn.
      split; [reflexivity|]. split; [split; discriminate|].
      split; [split; discriminate|].
      intros lines' [= <-]. split; [reflexivity|exact HF].
  - intros (e & He & Hf). unfold renderSummary.
    pose proof (proto_function_not_proto _ Hf) as Hp.
    apply String.eqb_neq in Hp.
    assert (Hk : In (cat_of e) (map fst (totalsByCategory l)))
      by (apply totals_key_has_row; eauto).
    assert (Hg : exists v, get_own (totalsByCategory l) (cat_of e) = Some v).
    { apply str_in_iff in Hk. rewrite get_own_keys in Hk.
      destruct (get_own (totalsByCategory l) (cat_of e)) as [v|];
        [now exists v|discriminate]. }
    destruct Hg as [v Hv].
    pose proof (totals_value_kinds l _ _ Hv) as Hkind.
    rewrite Hf in Hkind. destruct Hkind as (p & ps & ->).
    apply get_own_In in Hv.
    apply (Permutation_in _ (Permutation_sym (Object_entries_perm _))) in Hv.
    assert (Hlen : Nat.eqb (List.length (Object_keys (totalsByCategory l))) 0
                   = false).
    { unfold Object_keys. rewrite length_map.
      destruct (Object_entries (totalsByCategory l)); [destruct Hv|reflexivity]. }
    rewrite Hlen.
    now rewrite (map_throwing_None _ _ _ Hv eq_refl).
Qed.

Lemma map_index_nth_error {A B : Type} (f : A -> nat -> B) (j i : nat)
    (l : list A) :
  nth_error (map_index f j l) i
  = option_map (fun x => f x (j + i)%nat) (nth_error l i).
Proof.
  revert j i. induction l as [|x l IH]; intros j [|i]; cbn; try reflexivity.
  - now rewrite Nat.add_0_r.
  - rewrite IH. now rewrite Nat.add_succ_r.
Qed.

(** X22.  The segment at position [i] of the chart is the entry at position
    [i] of the mapping, label and value; its colour is entry [i mod 5] of
    the palette, so colours repeat every five segments; the legend colour
    and size are the same for all segments. *)
Theorem chart_colours_cycle (T : jsobj) (i : nat) (sg : segment) :
  nth_error (pieChartData T) i = Some sg ->
  color sg = nth (i mod 5) colors EmptyString
  /\ In (color sg) colors
  /\ legendFontColor sg = "#e5e7eb"
  /\ legendFontSize sg = 12
  /\ nth_error (Object_entries T) i = Some (name sg, population sg)
  /\ (forall sg', nth_error (pieChartData T) (i + 5) = Some sg' ->
                  color sg' = color sg).
Proof.
  rewrite pieChartData_unfold. rewrite !map_index_nth_error.
  change (List.length colors) with 5%nat. cbn [Nat.add].
  destruct (nth_error (Object_entries T) i) as [[k v]|] eqn:E; [|discriminate].
  cbn [option_map]. intros [= <-].
  cbn [color legendFontColor legendFontSize name population].
  split; [reflexivity|]. split.
  - refine (@nth_In string (i mod 5) colors EmptyString _).
    change (List.length colors) with 5%nat.
    apply Nat.mod_upper_bound. discriminate.
  - split; [reflexivity|]. split; [reflexivity|]. split; [reflexivity|].
    intros sg'. destruct (nth_error (Object_entries T) (i + 5)) as [[k' v']|];
      [|discriminate].
    cbn [option_map]. intros [= <-]. cbn [color].
    change (nth ((i + 5) mod 5) colors EmptyString
            = nth (i mod 5) colors EmptyString).
    rewrite <- (Nat.Div0.mod_add i 1 5). reflexivity.
Qed.

End ChartOfTotals.

Lemma chart_has_one_segment_per_category_witness :
  (exists p,
      renderSummary Sample.toFixed2_64 (totalSpending Sample.three_rows)
        (totalsByCategory Sample.three_rows)
        (pieChartData (totalsByCategory Sample.three_rows)) = Some p
      /\ totalAmount p = "35.00"
      /\ byCategory p = CategoryLines [("Food", "30.00"); ("Books", "5.00")])
  /\ renderSummary Sample.toFixed2_64 (totalSpending Sample.constructor_rows)
       (totalsByCategory Sample.constructor_rows)
       (pieChartData (totalsByCategory Sample.constructor_rows)) = None.
Proof.
  destruct (chart_has_one_segment_per_category (N := Float64)
              Sample.toFixed2_64 Sample.three_rows)
    as (_ & _ & _ & H4 & _).
  destruct (chart_has_one_segment_per_category (N := Float64)
              Sample.toFixed2_64 Sample.constructor_rows)
    as (_ & _ & _ & _ & H5).
  split.
  - destruct H4 as (p & Hp & _).
    + intros e [<- | [<- | [<- | []]]]; reflexivity.
    + exists p. vm_compute in Hp. injection Hp as <-.
      split; [reflexivity|split; reflexivity].
  - apply H5. eexists. split; [left; reflexivity|reflexivity].
Defined.

Lemma chart_colours_cycle_witness :
  exists sg,
    nth_error (pieChartData (totalsByCategory Sample.three_rows)) 1 = Some sg
    /\ color sg = "#3b82f6".
Proof.
  eexists. split; [reflexivity|].
  exact (proj1 (chart_colours_cycle (N := Float64)
                  (totalsByCategory Sample.three_rows) 1 _ eq_refl)).
Defined.
